(** * Auto-materialize rules of dagster: a shallow embedding

    Source: python_modules/dagster/dagster/_core/definitions/auto_materialize_rule.py

    Python sets and frozensets are [gset]s, dictionaries that are only looked
    up are [gmap]s, dictionaries whose [items()] are returned (insertion
    ordered) are association lists, NamedTuples are records or tuples, and the
    collaborators that live in other modules (asset graph, instance queryer,
    daemon context, partitions definitions) are records of functions. *)

From Stdlib Require Import ZArith List Bool Lia Permutation Sorted.
From Stdlib Require Import DecimalString DecimalZ.
From stdpp Require Import base decidable option list gmap sets strings.

Open Scope string_scope.
Open Scope Z_scope.

(** ** Keys and asset partitions *)

(** [AssetKey] and partition keys are strings.  [AssetKeyPartitionKey] is the
    NamedTuple [(asset_key, partition_key)] whose partition key defaults to
    [None] for an unpartitioned asset. *)
Abbreviation AssetKey := string (only parsing).
Abbreviation PartitionKey := string (only parsing).
Abbreviation AssetKeyPartitionKey := (string * option string)%type (only parsing).

Definition ap_asset_key (ap : AssetKeyPartitionKey) : AssetKey := fst ap.
Definition partition_key (ap : AssetKeyPartitionKey) : option PartitionKey := snd ap.

(** ** Decision types and evaluation data *)

Inductive AutoMaterializeDecisionType : Type :=
  | MATERIALIZE
  | SKIP
  | DISCARD.

#[global] Instance AutoMaterializeDecisionType_eq_dec :
  EqDecision AutoMaterializeDecisionType.
Proof. solve_decision. Defined.

Inductive AutoMaterializeRuleEvaluationData : Type :=
  | TextRuleEvaluationData (text : string)
  | ParentUpdatedRuleEvaluationData
      (updated_asset_keys will_update_asset_keys : gset AssetKey)
  | WaitingOnAssetsRuleEvaluationData (waiting_on_asset_keys : gset AssetKey).

#[global] Instance AutoMaterializeRuleEvaluationData_eq_dec :
  EqDecision AutoMaterializeRuleEvaluationData.
Proof. solve_decision. Defined.

(** ** Rules *)

(** The concrete rule classes (the value of [type(rule)]). *)
Inductive RuleClass : Type :=
  | CMaterializeOnRequiredForFreshnessRule
  | CMaterializeOnParentUpdatedRule
  | CMaterializeOnMissingRule
  | CSkipOnParentOutdatedRule
  | CSkipOnParentMissingRule
  | CSkipOnNotAllParentsUpdatedRule
  | CSkipOnRequiredButNonexistentParentsRule
  | CSkipOnBackfillInProgressRule
  | CDiscardOnMaxMaterializationsExceededRule.

#[global] Instance RuleClass_eq_dec : EqDecision RuleClass.
Proof. solve_decision. Defined.

(** A rule instance: the class together with its NamedTuple fields. *)
Inductive AutoMaterializeRule : Type :=
  | MaterializeOnRequiredForFreshnessRule
  | MaterializeOnParentUpdatedRule
  | MaterializeOnMissingRule
  | SkipOnParentOutdatedRule
  | SkipOnParentMissingRule
  | SkipOnNotAllParentsUpdatedRule (require_update_for_all_parent_partitions : bool)
  | SkipOnRequiredButNonexistentParentsRule
  | SkipOnBackfillInProgressRule (all_partitions : bool)
  | DiscardOnMaxMaterializationsExceededRule (limit : Z).

#[global] Instance AutoMaterializeRule_eq_dec : EqDecision AutoMaterializeRule.
Proof. solve_decision. Defined.

Definition class_of (rule : AutoMaterializeRule) : RuleClass :=
  match rule with
  | MaterializeOnRequiredForFreshnessRule => CMaterializeOnRequiredForFreshnessRule
  | MaterializeOnParentUpdatedRule => CMaterializeOnParentUpdatedRule
  | MaterializeOnMissingRule => CMaterializeOnMissingRule
  | SkipOnParentOutdatedRule => CSkipOnParentOutdatedRule
  | SkipOnParentMissingRule => CSkipOnParentMissingRule
  | SkipOnNotAllParentsUpdatedRule _ => CSkipOnNotAllParentsUpdatedRule
  | SkipOnRequiredButNonexistentParentsRule => CSkipOnRequiredButNonexistentParentsRule
  | SkipOnBackfillInProgressRule _ => CSkipOnBackfillInProgressRule
  | DiscardOnMaxMaterializationsExceededRule _ => CDiscardOnMaxMaterializationsExceededRule
  end.

(** [cls.__name__] *)
Definition class_name (c : RuleClass) : string :=
  match c with
  | CMaterializeOnRequiredForFreshnessRule => "MaterializeOnRequiredForFreshnessRule"
  | CMaterializeOnParentUpdatedRule => "MaterializeOnParentUpdatedRule"
  | CMaterializeOnMissingRule => "MaterializeOnMissingRule"
  | CSkipOnParentOutdatedRule => "SkipOnParentOutdatedRule"
  | CSkipOnParentMissingRule => "SkipOnParentMissingRule"
  | CSkipOnNotAllParentsUpdatedRule => "SkipOnNotAllParentsUpdatedRule"
  | CSkipOnRequiredButNonexistentParentsRule => "SkipOnRequiredButNonexistentParentsRule"
  | CSkipOnBackfillInProgressRule => "SkipOnBackfillInProgressRule"
  | CDiscardOnMaxMaterializationsExceededRule => "DiscardOnMaxMaterializationsExceededRule"
  end.

Definition decision_type (rule : AutoMaterializeRule) : AutoMaterializeDecisionType :=
  match rule with
  | MaterializeOnRequiredForFreshnessRule
  | MaterializeOnParentUpdatedRule
  | MaterializeOnMissingRule => MATERIALIZE
  | SkipOnParentOutdatedRule
  | SkipOnParentMissingRule
  | SkipOnNotAllParentsUpdatedRule _
  | SkipOnRequiredButNonexistentParentsRule
  | SkipOnBackfillInProgressRule _ => SKIP
  | DiscardOnMaxMaterializationsExceededRule _ => DISCARD
  end.

(** [str(n)] for a Python int: decimal digits, a leading minus sign for
    negative numbers. *)
Definition py_str_int (n : Z) : string := NilEmpty.string_of_int (Z.to_int n).

Definition description (rule : AutoMaterializeRule) : string :=
  match rule with
  | MaterializeOnRequiredForFreshnessRule =>
      "required to meet this or downstream asset's freshness policy"
  | MaterializeOnParentUpdatedRule =>
      "upstream data has changed since latest materialization"
  | MaterializeOnMissingRule => "materialization is missing"
  | SkipOnParentOutdatedRule => "waiting on upstream data to be up to date"
  | SkipOnParentMissingRule => "waiting on upstream data to be present"
  | SkipOnNotAllParentsUpdatedRule require_all =>
      if negb require_all then "waiting on upstream data to be updated"
      else "waiting until all upstream partitions are updated"
  | SkipOnRequiredButNonexistentParentsRule => "required parent partitions do not exist"
  | SkipOnBackfillInProgressRule all =>
      if all then "part of an asset targeted by an in-progress backfill"
      else "targeted by an in-progress backfill"
  | DiscardOnMaxMaterializationsExceededRule limit =>
      "exceeds " +:+ py_str_int limit +:+ " materialization(s) per minute"
  end.

(** ** Rule snapshots *)

Record AutoMaterializeRuleSnapshot : Type := mkSnapshot {
  snap_class_name : string;
  snap_description : string;
  snap_decision_type : AutoMaterializeDecisionType
}.

#[global] Instance AutoMaterializeRuleSnapshot_eq_dec :
  EqDecision AutoMaterializeRuleSnapshot.
Proof. solve_decision. Defined.

(** [AutoMaterializeRuleSnapshot.from_rule] *)
Definition from_rule (rule : AutoMaterializeRule) : AutoMaterializeRuleSnapshot :=
  {| snap_class_name := class_name (class_of rule);
     snap_description := description rule;
     snap_decision_type := decision_type rule |}.

(** [AutoMaterializeRule.to_snapshot] *)
Definition to_snapshot (rule : AutoMaterializeRule) : AutoMaterializeRuleSnapshot :=
  from_rule rule.

Record AutoMaterializeRuleEvaluation : Type := mkRuleEvaluation {
  rule_snapshot : AutoMaterializeRuleSnapshot;
  evaluation_data : option AutoMaterializeRuleEvaluationData
}.

#[global] Instance AutoMaterializeRuleEvaluation_eq_dec :
  EqDecision AutoMaterializeRuleEvaluation.
Proof. solve_decision. Defined.

(** ** Equality and hashing of rule instances *)

(** The values a rule's NamedTuple fields take. *)
Inductive PyVal : Type :=
  | PyBool (b : bool)
  | PyInt (n : Z).

(** Python's [==] on these values: [bool] is a subclass of [int], so
    [True == 1] and [False == 0]. *)
Definition py_val_as_int (v : PyVal) : Z :=
  match v with
  | PyBool b => if b then 1 else 0
  | PyInt n => n
  end.

Definition py_val_eqb (v w : PyVal) : bool := py_val_as_int v =? py_val_as_int w.

(** The tuple of fields of a rule instance (what the NamedTuple base sees). *)
Definition fields (rule : AutoMaterializeRule) : list PyVal :=
  match rule with
  | SkipOnNotAllParentsUpdatedRule b => [PyBool b]
  | SkipOnBackfillInProgressRule b => [PyBool b]
  | DiscardOnMaxMaterializationsExceededRule n => [PyInt n]
  | _ => []
  end.

(** [tuple.__eq__]: same length and pairwise [==]. *)
Fixpoint tuple_eqb (t u : list PyVal) : bool :=
  match t, u with
  | [], [] => true
  | v :: t', w :: u' => py_val_eqb v w && tuple_eqb t' u'
  | _, _ => false
  end.

(** [AutoMaterializeRule.__eq__]:
    [type(self) == type(other) and super().__eq__(other)]. *)
Definition rule_eq (self other : AutoMaterializeRule) : bool :=
  bool_decide (class_of self = class_of other) && tuple_eqb (fields self) (fields other).

(** [hash(n)] of a Python int on a 64-bit CPython: reduction modulo the
    Mersenne prime [2^61 - 1], keeping the sign, and [-1] is replaced by
    [-2]. *)
Definition py_hash_modulus : Z := 2 ^ 61 - 1.

Definition py_hash_int (n : Z) : Z :=
  let h := Z.sgn n * (Z.abs n mod py_hash_modulus) in
  if h =? -1 then -2 else h.

Section RuleHash.
(** The interpreter's hash of a class object (derived from its address) and
    of a tuple of field values. *)
Variable hash_type : RuleClass -> Z.
Variable hash_tuple : list PyVal -> Z.

(** [AutoMaterializeRule.__hash__]:
    [hash(hash(type(self)) + super().__hash__())]. *)
Definition rule_hash (self : AutoMaterializeRule) : Z :=
  py_hash_int (hash_type (class_of self) + hash_tuple (fields self)).
End RuleHash.

(** ** Collaborators from other modules *)

(** An evaluation result: the [items()] of a dictionary from optional
    evaluation data to the set of asset partitions it applies to. *)
Abbreviation RuleEvaluationResults :=
  (list (option AutoMaterializeRuleEvaluationData * gset (string * option string)))
  (only parsing).

(** [SerializedPartitionsSubset] (partition.py) is a NamedTuple of three
    strings. *)
Record SerializedPartitionsSubset : Type := mkSerializedSubset {
  serialized_subset : string;
  serialized_partitions_def_unique_id : string;
  serialized_partitions_def_class_name : string
}.

#[global] Instance SerializedPartitionsSubset_eq_dec :
  EqDecision SerializedPartitionsSubset.
Proof. solve_decision. Defined.

(** A partitions definition (partition.py), seen through the operations the
    evaluation record calls on it: whether it can deserialize a stored subset,
    and the partition keys of the deserialized subset. *)
Record PartitionsDefinition : Type := mkPartitionsDefinition {
  can_deserialize_subset : SerializedPartitionsSubset -> bool;
  deserialize_subset : SerializedPartitionsSubset -> gset PartitionKey
}.

(** [serialized_subset.can_deserialize(partitions_def)].  The caller combines
    it with [partitions_def is not None], so its value on [None] is never
    observed. *)
Definition can_deserialize
    (ss : SerializedPartitionsSubset) (partitions_def : option PartitionsDefinition) : bool :=
  match partitions_def with
  | Some pd => can_deserialize_subset pd ss
  | None => false
  end.

(** [serialized_subset.deserialize(partitions_def).get_partition_keys()] *)
Definition deserialize
    (ss : SerializedPartitionsSubset) (partitions_def : PartitionsDefinition)
    : gset PartitionKey :=
  deserialize_subset partitions_def ss.

Inductive PartitionMapping : Type :=
  | TimeWindowPartitionMapping
  | IdentityPartitionMapping
  | OtherPartitionMapping (name : string).

(** The result of [AssetGraph.get_parents_partitions]. *)
Record ParentPartitionsResult : Type := mkParentPartitionsResult {
  parent_partitions : gset AssetKeyPartitionKey;
  required_but_nonexistent_parents_partitions : gset AssetKeyPartitionKey
}.

(** The asset graph (asset_graph.py), through the queries the rules make.
    [is_external_asset_graph] is [isinstance(asset_graph, ExternalAssetGraph)];
    [sort_key_for_asset_partition] is the module-level function of that name
    applied to this graph. *)
Record AssetGraph : Type := mkAssetGraph {
  materializable_asset_keys : gset AssetKey;
  have_same_partitioning : AssetKey -> AssetKey -> bool;
  is_partitioned : AssetKey -> bool;
  get_partition_mapping : AssetKey -> AssetKey -> PartitionMapping;
  is_external_asset_graph : bool;
  get_repository_handle : AssetKey -> option string;
  get_parents : AssetKey -> gset AssetKey;
  get_parents_partitions : AssetKey -> option PartitionKey -> ParentPartitionsResult;
  get_partitions_def : AssetKey -> option PartitionsDefinition;
  is_source : AssetKey -> bool;
  is_observable : AssetKey -> bool;
  sort_key_for_asset_partition : AssetKeyPartitionKey -> Z
}.

(** Modelled from the spec: [AssetGraphSubset] (asset_graph_subset.py is not
    part of the sources).  It is the set of asset partitions targeted by the
    active backfills; [asset_keys] are the assets with at least one targeted
    partition and [in] is membership of an asset partition. *)
Record AssetGraphSubset : Type := mkAssetGraphSubset {
  targeted_asset_partitions : gset AssetKeyPartitionKey
}.

Definition asset_keys (subset : AssetGraphSubset) : gset AssetKey :=
  set_map fst (targeted_asset_partitions subset).

Definition subset_contains (subset : AssetGraphSubset) (ap : AssetKeyPartitionKey) : bool :=
  bool_decide (ap ∈ targeted_asset_partitions subset).

(** ** The stored evaluation of an asset *)

Record AutoMaterializeAssetEvaluation : Type := mkAssetEvaluation {
  eval_asset_key : AssetKey;
  partition_subsets_by_condition :
    list (AutoMaterializeRuleEvaluation * option SerializedPartitionsSubset);
  num_requested : Z;
  num_skipped : Z;
  num_discarded : Z;
  run_ids : gset string;
  rule_snapshots : option (list AutoMaterializeRuleSnapshot)
}.

(** [_deserialize_rule_evaluation_result]: [None] is the Python [None] of an
    old serialized result that is no longer valid. *)
Definition _deserialize_rule_evaluation_result
    (self : AutoMaterializeAssetEvaluation)
    (rule_evaluation : AutoMaterializeRuleEvaluation)
    (serialized_subset : option SerializedPartitionsSubset)
    (asset_graph : AssetGraph)
    : option (option AutoMaterializeRuleEvaluationData * gset AssetKeyPartitionKey) :=
  let partitions_def := get_partitions_def asset_graph (eval_asset_key self) in
  match serialized_subset with
  | None =>
      match partitions_def with
      | None => Some (evaluation_data rule_evaluation, {[ (eval_asset_key self, None) ]})
      | Some _ => None
      end
  | Some ss =>
      match can_deserialize ss partitions_def, partitions_def with
      | true, Some pd =>
          Some (evaluation_data rule_evaluation,
                set_map (fun pk : PartitionKey => (eval_asset_key self, Some pk))
                        (deserialize ss pd))
      | _, _ => None
      end
  end.

(** [get_rule_evaluation_results]: a non-empty tuple is truthy, so
    [if deserialized_result] only drops [None]. *)
Fixpoint rule_evaluation_results_of
    (self : AutoMaterializeAssetEvaluation)
    (rule_snapshot0 : AutoMaterializeRuleSnapshot) (asset_graph : AssetGraph)
    (conditions : list (AutoMaterializeRuleEvaluation * option SerializedPartitionsSubset))
    : RuleEvaluationResults :=
  match conditions with
  | [] => []
  | (rule_evaluation, ss) :: rest =>
      if bool_decide (rule_snapshot rule_evaluation <> rule_snapshot0) then
        rule_evaluation_results_of self rule_snapshot0 asset_graph rest
      else
        match _deserialize_rule_evaluation_result self rule_evaluation ss asset_graph with
        | Some deserialized_result =>
            deserialized_result
              :: rule_evaluation_results_of self rule_snapshot0 asset_graph rest
        | None => rule_evaluation_results_of self rule_snapshot0 asset_graph rest
        end
  end.

Definition get_rule_evaluation_results
    (self : AutoMaterializeAssetEvaluation)
    (rule_snapshot0 : AutoMaterializeRuleSnapshot) (asset_graph : AssetGraph)
    : RuleEvaluationResults :=
  rule_evaluation_results_of self rule_snapshot0 asset_graph
    (partition_subsets_by_condition self).

Fixpoint asset_partitions_with_decision_type_of
    (self : AutoMaterializeAssetEvaluation)
    (decision : AutoMaterializeDecisionType) (asset_graph : AssetGraph)
    (conditions : list (AutoMaterializeRuleEvaluation * option SerializedPartitionsSubset))
    (asset_partitions : gset AssetKeyPartitionKey) : gset AssetKeyPartitionKey :=
  match conditions with
  | [] => asset_partitions
  | (rule_evaluation, ss) :: rest =>
      if bool_decide (snap_decision_type (rule_snapshot rule_evaluation) <> decision) then
        asset_partitions_with_decision_type_of self decision asset_graph rest asset_partitions
      else
        match _deserialize_rule_evaluation_result self rule_evaluation ss asset_graph with
        | None =>
            asset_partitions_with_decision_type_of self decision asset_graph rest
              asset_partitions
        | Some deserialized_result =>
            asset_partitions_with_decision_type_of self decision asset_graph rest
              (asset_partitions ∪ snd deserialized_result)
        end
  end.

Definition _get_asset_partitions_with_decision_type
    (self : AutoMaterializeAssetEvaluation)
    (decision : AutoMaterializeDecisionType) (asset_graph : AssetGraph)
    : gset AssetKeyPartitionKey :=
  asset_partitions_with_decision_type_of self decision asset_graph
    (partition_subsets_by_condition self) ∅.

Definition get_requested_or_discarded_asset_partitions
    (self : AutoMaterializeAssetEvaluation) (asset_graph : AssetGraph)
    : gset AssetKeyPartitionKey :=
  let to_materialize := _get_asset_partitions_with_decision_type self MATERIALIZE asset_graph in
  if bool_decide (to_materialize = ∅) then ∅
  else
    let to_skip := _get_asset_partitions_with_decision_type self SKIP asset_graph in
    to_materialize ∖ to_skip.

Definition get_evaluated_asset_partitions
    (self : AutoMaterializeAssetEvaluation) (asset_graph : AssetGraph)
    : gset AssetKeyPartitionKey :=
  _get_asset_partitions_with_decision_type self MATERIALIZE asset_graph.

#[global] Instance AutoMaterializeDecisionType_countable :
  Countable AutoMaterializeDecisionType.
Proof.
  refine (inj_countable'
            (fun d => match d with MATERIALIZE => 0%nat | SKIP => 1%nat | DISCARD => 2%nat end)
            (fun n => match n with 0%nat => MATERIALIZE | 1%nat => SKIP | _ => DISCARD end) _).
  intros []; reflexivity.
Defined.

#[global] Instance AutoMaterializeRuleSnapshot_countable :
  Countable AutoMaterializeRuleSnapshot.
Proof.
  refine (inj_countable'
            (fun s => (snap_class_name s, snap_description s, snap_decision_type s))
            (fun t => mkSnapshot t.1.1 t.1.2 t.2) _).
  intros []; reflexivity.
Defined.

Section Equivalence.
(** The builtin [sorted] at the lists of [(rule_evaluation, subset)] tuples.
    Python orders tuples lexicographically and some comparisons of their
    components raise [TypeError]: [None] stands for that exception. *)
Variable sorted :
  list (AutoMaterializeRuleEvaluation * option SerializedPartitionsSubset) ->
  option (list (AutoMaterializeRuleEvaluation * option SerializedPartitionsSubset)).

(** [equivalent_to_stored_evaluation].  The outer [option] is [None] when
    sorting raises; both lists are sorted before any other test is made. *)
Definition equivalent_to_stored_evaluation
    (self : AutoMaterializeAssetEvaluation)
    (stored_evaluation : option AutoMaterializeAssetEvaluation)
    (asset_graph : AssetGraph) : option bool :=
  match stored_evaluation with
  | None => Some false
  | Some stored =>
      match sorted (partition_subsets_by_condition self) with
      | None => None
      | Some sorted_results =>
          match sorted (partition_subsets_by_condition stored) with
          | None => None
          | Some sorted_stored_results =>
              Some
                (bool_decide (eval_asset_key self = eval_asset_key stored)
                 && bool_decide
                      (list_to_set (default [] (rule_snapshots self))
                       =@{gset AutoMaterializeRuleSnapshot}
                       list_to_set (default [] (rule_snapshots stored)))
                 && (num_requested stored =? 0)
                 && (num_discarded stored =? 0)
                 && (num_skipped stored =? num_skipped self)
                 && bool_decide (length sorted_results = length sorted_stored_results)
                 && (bool_decide (sorted_results = sorted_stored_results)
                     || bool_decide
                          (map (fun c => _deserialize_rule_evaluation_result
                                           self c.1 c.2 asset_graph) sorted_results
                           = map (fun c => _deserialize_rule_evaluation_result
                                             self c.1 c.2 asset_graph)
                                 sorted_stored_results)))
          end
      end
  end.
End Equivalence.

(** ** The evaluation context *)

(** [AssetDaemonCursor] (asset_daemon_cursor.py). *)
Record AssetDaemonCursor : Type := mkCursor {
  latest_evaluation_by_asset_key : gmap AssetKey AutoMaterializeAssetEvaluation;
  latest_storage_id : option Z
}.

(** [CachingInstanceQueryer] (caching_instance_queryer.py).  The evaluation
    time and the dynamic partitions store that the rules pass back to the
    asset graph are fixed during a tick and are part of the queries. *)
Record CachingInstanceQueryer : Type := mkQueryer {
  asset_graph_of : AssetGraph;
  asset_partition_has_materialization_or_observation :
    AssetKeyPartitionKey -> option Z -> bool;
  get_parent_asset_partitions_updated_after_child :
    AssetKeyPartitionKey -> gset AssetKeyPartitionKey -> bool -> gset AssetKey ->
    gset AssetKeyPartitionKey;
  have_ignorable_partition_mapping_for_outdated : AssetKey -> AssetKey -> bool;
  get_outdated_ancestors : AssetKeyPartitionKey -> gset AssetKey;
  get_active_backfill_target_asset_graph_subset : AssetGraphSubset
}.

(** [AssetDaemonContext] (asset_daemon_context.py). *)
Record AssetDaemonContext : Type := mkDaemonContext {
  respect_materialization_data_versions : bool;
  get_asset_partitions_with_newly_updated_parents_for_key :
    AssetKey -> gset AssetKeyPartitionKey;
  get_never_handled_root_asset_partitions_for_key : AssetKey -> gset AssetKeyPartitionKey
}.

(** [CachingDataTimeResolver] together with the expected data times, through
    the one function that consumes them,
    [freshness_evaluation_results_for_asset_key]. *)
Record CachingDataTimeResolver : Type := mkDataTimeResolver {
  freshness_evaluation_results_for_asset_key :
    AssetKey -> gmap AssetKey (gset AssetKeyPartitionKey) -> RuleEvaluationResults
}.

Record RuleEvaluationContext : Type := mkContext {
  asset_key : AssetKey;
  cursor : AssetDaemonCursor;
  instance_queryer : CachingInstanceQueryer;
  data_time_resolver : CachingDataTimeResolver;
  will_materialize_mapping : gmap AssetKey (gset AssetKeyPartitionKey);
  candidates : gset AssetKeyPartitionKey;
  daemon_context : AssetDaemonContext
}.

Definition asset_graph (self : RuleEvaluationContext) : AssetGraph :=
  asset_graph_of (instance_queryer self).

Definition previous_tick_evaluation (self : RuleEvaluationContext)
    : option AutoMaterializeAssetEvaluation :=
  latest_evaluation_by_asset_key (cursor self) !! asset_key self.

Definition previous_tick_requested_or_discarded_asset_partitions
    (self : RuleEvaluationContext) : gset AssetKeyPartitionKey :=
  match previous_tick_evaluation self with
  | None => ∅
  | Some evaluation =>
      get_requested_or_discarded_asset_partitions evaluation (asset_graph self)
  end.

Definition previous_tick_evaluated_asset_partitions
    (self : RuleEvaluationContext) : gset AssetKeyPartitionKey :=
  match previous_tick_evaluation self with
  | None => ∅
  | Some evaluation => get_evaluated_asset_partitions evaluation (asset_graph self)
  end.

Definition get_previous_tick_results
    (self : RuleEvaluationContext) (rule : AutoMaterializeRule) : RuleEvaluationResults :=
  match previous_tick_evaluation self with
  | None => []
  | Some evaluation =>
      get_rule_evaluation_results evaluation (to_snapshot rule) (asset_graph self)
  end.

Definition get_candidates_not_evaluated_by_rule_on_previous_tick
    (self : RuleEvaluationContext) : gset AssetKeyPartitionKey :=
  candidates self ∖ previous_tick_evaluated_asset_partitions self.

Definition materializable_in_same_run
    (self : RuleEvaluationContext) (child_key parent_key : AssetKey) : bool :=
  bool_decide (child_key ∈ materializable_asset_keys (asset_graph self))
  && bool_decide (parent_key ∈ materializable_asset_keys (asset_graph self))
  && have_same_partitioning (asset_graph self) child_key parent_key
  && (negb (is_partitioned (asset_graph self) parent_key)
      || match get_partition_mapping (asset_graph self) child_key parent_key with
         | TimeWindowPartitionMapping | IdentityPartitionMapping => true
         | OtherPartitionMapping _ => false
         end)
  && (negb (is_external_asset_graph (asset_graph self))
      || bool_decide (get_repository_handle (asset_graph self) child_key
                      = get_repository_handle (asset_graph self) parent_key)).

Definition get_parents_that_will_not_be_materialized_on_current_tick
    (self : RuleEvaluationContext) (asset_partition : AssetKeyPartitionKey)
    : gset AssetKeyPartitionKey :=
  filter
    (fun parent : AssetKeyPartitionKey =>
       parent ∉ will_materialize_mapping self !!! ap_asset_key parent
       \/ materializable_in_same_run self (ap_asset_key asset_partition)
            (ap_asset_key parent) = false)
    (parent_partitions
       (get_parents_partitions (asset_graph self)
          (ap_asset_key asset_partition) (partition_key asset_partition))).

Definition get_asset_partitions_with_updated_parents
    (self : RuleEvaluationContext) : gset AssetKeyPartitionKey :=
  get_asset_partitions_with_newly_updated_parents_for_key (daemon_context self)
    (asset_key self).

(** [defaultdict(set)] whose entries are only looked up: a [gmap] into sets,
    read with [!!!] (the empty set when the key is absent). *)
Definition multimap_add `{Countable K} `{Countable V}
    (k : K) (v : V) (m : gmap K (gset V)) : gmap K (gset V) :=
  <[k := (m !!! k) ∪ {[v]}]> m.

Definition get_will_update_parent_mapping
    (self : RuleEvaluationContext) : gmap AssetKeyPartitionKey (gset AssetKey) :=
  foldl
    (fun acc parent_key =>
       if negb (materializable_in_same_run self (asset_key self) parent_key) then acc
       else
         foldl
           (fun acc' (parent_partition : AssetKeyPartitionKey) =>
              multimap_add (asset_key self, partition_key parent_partition) parent_key acc')
           acc
           (elements (will_materialize_mapping self !!! parent_key)))
    ∅
    (elements (get_parents (asset_graph self) (asset_key self))).

Definition get_candidates_with_updated_or_will_update_parents
    (self : RuleEvaluationContext) : gset AssetKeyPartitionKey :=
  let updated_parents := get_asset_partitions_with_updated_parents self in
  let will_update_parents := dom (get_will_update_parent_mapping self) in
  candidates self ∩ (updated_parents ∪ will_update_parents).

Definition materialized_requested_or_discarded_since_previous_tick
    (self : RuleEvaluationContext) (asset_partition : AssetKeyPartitionKey) : bool :=
  if bool_decide
       (asset_partition ∈ previous_tick_requested_or_discarded_asset_partitions self)
  then true
  else asset_partition_has_materialization_or_observation (instance_queryer self)
         asset_partition (latest_storage_id (cursor self)).

Definition get_asset_partitions_by_asset_key
    (asset_partitions : gset AssetKeyPartitionKey)
    : gmap AssetKey (gset AssetKeyPartitionKey) :=
  foldl (fun acc (parent : AssetKeyPartitionKey) =>
           multimap_add (ap_asset_key parent) parent acc)
        ∅ (elements asset_partitions).

(** ** Dictionaries from evaluation data to sets of asset partitions *)

(** [d[k].add(ap)] on a [defaultdict(set)]: a new key goes to the end, as
    Python dictionaries keep insertion order. *)
Fixpoint dict_add
    (k : option AutoMaterializeRuleEvaluationData) (ap : AssetKeyPartitionKey)
    (d : RuleEvaluationResults) : RuleEvaluationResults :=
  match d with
  | [] => [(k, {[ap]})]
  | (k', s) :: rest =>
      if bool_decide (k' = k) then (k', s ∪ {[ap]}) :: rest
      else (k', s) :: dict_add k ap rest
  end.

(** The set stored under [k], empty when the key is absent. *)
Fixpoint dict_get
    (k : option AutoMaterializeRuleEvaluationData) (d : RuleEvaluationResults)
    : gset AssetKeyPartitionKey :=
  match d with
  | [] => ∅
  | (k', s) :: rest => if bool_decide (k' = k) then s else dict_get k rest
  end.

(** [set().union( *d.values())] *)
Definition dict_values_union (d : RuleEvaluationResults) : gset AssetKeyPartitionKey :=
  ⋃ (snd <$> d).

(** The loop shared by the rules: every candidate for which the rule computes
    a piece of evaluation data is added under that data. *)
Definition group_by_evaluation_data
    (data_of : AssetKeyPartitionKey -> option AutoMaterializeRuleEvaluationData)
    (to_evaluate : gset AssetKeyPartitionKey) : RuleEvaluationResults :=
  foldl (fun acc candidate =>
           match data_of candidate with
           | Some data => dict_add (Some data) candidate acc
           | None => acc
           end)
        [] (elements to_evaluate).

(** ** Carry-forward *)

(** [add_evaluation_data_from_previous_tick].  The dictionary built by
    [defaultdict(set, mapping)] shares its set objects with the caller's
    mapping, and [.add] updates them in place, so a predicate whose closure
    holds one of those sets sees the additions: [should_use_past_data_fn]
    receives the dictionary as it stands when it is called. *)
Definition carry_forward_step
    (evaluated_asset_partitions : gset AssetKeyPartitionKey)
    (should_use_past_data_fn : RuleEvaluationResults -> AssetKeyPartitionKey -> bool)
    (data : option AutoMaterializeRuleEvaluationData)
    (acc : RuleEvaluationResults) (ap : AssetKeyPartitionKey) : RuleEvaluationResults :=
  if bool_decide (ap ∈ evaluated_asset_partitions) then acc
  else if should_use_past_data_fn acc ap then dict_add data ap acc
  else acc.

Definition carry_forward
    (previous_tick_results asset_partitions_by_evaluation_data : RuleEvaluationResults)
    (should_use_past_data_fn : RuleEvaluationResults -> AssetKeyPartitionKey -> bool)
    : RuleEvaluationResults :=
  let evaluated_asset_partitions := dict_values_union asset_partitions_by_evaluation_data in
  foldl (fun acc (entry : option AutoMaterializeRuleEvaluationData
                          * gset AssetKeyPartitionKey) =>
           foldl (carry_forward_step evaluated_asset_partitions should_use_past_data_fn
                    entry.1)
                 acc (elements entry.2))
        asset_partitions_by_evaluation_data previous_tick_results.

Definition add_evaluation_data_from_previous_tick
    (self : AutoMaterializeRule) (context : RuleEvaluationContext)
    (asset_partitions_by_evaluation_data : RuleEvaluationResults)
    (should_use_past_data_fn : RuleEvaluationResults -> AssetKeyPartitionKey -> bool)
    : RuleEvaluationResults :=
  carry_forward (get_previous_tick_results context self)
    asset_partitions_by_evaluation_data should_use_past_data_fn.

(** ** Sorting and slicing *)

(** [sorted(xs, key=f)]: ascending in the key, and stable. *)
Fixpoint insert_by_key {A} (key : A -> Z) (x : A) (l : list A) : list A :=
  match l with
  | [] => [x]
  | y :: l' => if key x <=? key y then x :: y :: l' else y :: insert_by_key key x l'
  end.

Fixpoint py_sorted {A} (key : A -> Z) (l : list A) : list A :=
  match l with
  | [] => []
  | x :: l' => insert_by_key key x (py_sorted key l')
  end.

(** [xs[start:]]: a negative start counts from the end, and both ends are
    clamped. *)
Definition py_slice_from {A} (start : Z) (l : list A) : list A :=
  drop (Z.to_nat (if start <? 0 then Z.max (Z.of_nat (length l) + start) 0 else start)) l.

(** ** The rules *)

(** The arguments of one call of
    [instance_queryer.get_parent_asset_partitions_updated_after_child]. *)
Record UpdatedAfterChildCall : Type := mkUpdatedAfterChildCall {
  call_asset_partition : AssetKeyPartitionKey;
  call_parent_asset_partitions : gset AssetKeyPartitionKey;
  call_respect_materialization_data_versions : bool;
  call_ignored_parent_keys : gset AssetKey
}.

Definition run_call (queryer : CachingInstanceQueryer) (c : UpdatedAfterChildCall)
    : gset AssetKeyPartitionKey :=
  get_parent_asset_partitions_updated_after_child queryer
    (call_asset_partition c) (call_parent_asset_partitions c)
    (call_respect_materialization_data_versions c) (call_ignored_parent_keys c).

Section MaterializeOnParentUpdated.
Variable context : RuleEvaluationContext.

Definition parent_updated_has_or_will_update : gset AssetKeyPartitionKey :=
  get_asset_partitions_with_updated_parents context
  ∪ dom (get_will_update_parent_mapping context).

(** The call made for one asset partition of the loop. *)
Definition parent_updated_call (asset_partition : AssetKeyPartitionKey)
    : UpdatedAfterChildCall :=
  let parent_asset_partitions :=
    parent_partitions
      (get_parents_partitions (asset_graph context)
         (ap_asset_key asset_partition) (partition_key asset_partition)) in
  {| call_asset_partition := asset_partition;
     call_parent_asset_partitions := parent_asset_partitions;
     call_respect_materialization_data_versions :=
       respect_materialization_data_versions (daemon_context context)
       && bool_decide
            (size (parent_asset_partitions ∪ parent_updated_has_or_will_update) < 100)%nat;
     call_ignored_parent_keys := {[asset_key context]} |}.

Definition parent_updated_data (asset_partition : AssetKeyPartitionKey)
    : option AutoMaterializeRuleEvaluationData :=
  let updated_parent_asset_partitions :=
    run_call (instance_queryer context) (parent_updated_call asset_partition) in
  let updated_parents : gset AssetKey := set_map fst updated_parent_asset_partitions in
  let will_update_parents := get_will_update_parent_mapping context !!! asset_partition in
  if bool_decide (updated_parents <> ∅ \/ will_update_parents <> ∅) then
    Some (ParentUpdatedRuleEvaluationData updated_parents will_update_parents)
  else None.

Definition parent_updated_fresh : RuleEvaluationResults :=
  group_by_evaluation_data parent_updated_data parent_updated_has_or_will_update.

Definition parent_updated_should_use_past_data
    (_ : RuleEvaluationResults) (ap : AssetKeyPartitionKey) : bool :=
  negb (materialized_requested_or_discarded_since_previous_tick context ap).
End MaterializeOnParentUpdated.

Section MaterializeOnMissing.
Variable context : RuleEvaluationContext.

Definition missing_asset_partitions : gset AssetKeyPartitionKey :=
  get_never_handled_root_asset_partitions_for_key (daemon_context context)
    (asset_key context)
  ∪ filter
      (fun candidate =>
         asset_partition_has_materialization_or_observation
           (instance_queryer context) candidate None = false)
      (get_asset_partitions_with_newly_updated_parents_for_key (daemon_context context)
         (asset_key context)).

Definition missing_fresh : RuleEvaluationResults :=
  if bool_decide (missing_asset_partitions <> ∅) then [(None, missing_asset_partitions)]
  else [].

(** The lambda reads the variable [missing_asset_partitions].  When that set
    is not empty it is the very object stored under [None] in the
    dictionary, so it grows with the partitions carried forward under
    [None]; when it is empty it is not in the dictionary and stays empty. *)
Definition missing_should_use_past_data
    (acc : RuleEvaluationResults) (ap : AssetKeyPartitionKey) : bool :=
  let missing_now :=
    if bool_decide (missing_asset_partitions <> ∅) then dict_get None acc else ∅ in
  bool_decide (ap ∉ missing_now)
  && negb (materialized_requested_or_discarded_since_previous_tick context ap).
End MaterializeOnMissing.

Section SkipRules.
Variable context : RuleEvaluationContext.

(** net-new candidates and candidates whose parents have changed *)
Definition candidates_to_evaluate : gset AssetKeyPartitionKey :=
  get_candidates_not_evaluated_by_rule_on_previous_tick context
  ∪ get_candidates_with_updated_or_will_update_parents context.

Definition not_in (to_evaluate : gset AssetKeyPartitionKey)
    (_ : RuleEvaluationResults) (ap : AssetKeyPartitionKey) : bool :=
  bool_decide (ap ∉ to_evaluate).

Definition parent_outdated_data (candidate : AssetKeyPartitionKey)
    : option AutoMaterializeRuleEvaluationData :=
  let outdated_ancestors : gset AssetKey :=
    ⋃ ((fun parent : AssetKeyPartitionKey =>
          if have_ignorable_partition_mapping_for_outdated (instance_queryer context)
               (ap_asset_key candidate) (ap_asset_key parent)
          then ∅
          else get_outdated_ancestors (instance_queryer context) parent)
       <$> elements
             (get_parents_that_will_not_be_materialized_on_current_tick context
                candidate)) in
  if bool_decide (outdated_ancestors <> ∅) then
    Some (WaitingOnAssetsRuleEvaluationData outdated_ancestors)
  else None.

Definition parent_missing_data (candidate : AssetKeyPartitionKey)
    : option AutoMaterializeRuleEvaluationData :=
  let missing_parent_asset_keys : gset AssetKey :=
    set_map fst
      (filter
         (fun parent : AssetKeyPartitionKey =>
            (is_source (asset_graph context) (ap_asset_key parent)
             && negb (is_observable (asset_graph context) (ap_asset_key parent))) = false
            /\ asset_partition_has_materialization_or_observation
                 (instance_queryer context) parent None = false)
         (get_parents_that_will_not_be_materialized_on_current_tick context candidate)) in
  if bool_decide (missing_parent_asset_keys <> ∅) then
    Some (WaitingOnAssetsRuleEvaluationData missing_parent_asset_keys)
  else None.

Definition not_all_parents_updated_data
    (require_update_for_all_parent_partitions : bool) (candidate : AssetKeyPartitionKey)
    : option AutoMaterializeRuleEvaluationData :=
  let parent_partitions0 :=
    parent_partitions
      (get_parents_partitions (asset_graph context) (asset_key context)
         (partition_key candidate)) in
  let updated_parent_partitions :=
    get_parent_asset_partitions_updated_after_child (instance_queryer context)
      candidate parent_partitions0
      (respect_materialization_data_versions (daemon_context context)) ∅
    ∪ ⋃ ((fun parent => will_materialize_mapping context !!! parent)
         <$> elements (get_parents (asset_graph context) (asset_key context))) in
  let non_updated_parent_keys : gset AssetKey :=
    if require_update_for_all_parent_partitions then
      set_map fst (parent_partitions0 ∖ updated_parent_partitions)
    else
      let parent_asset_keys := get_parents (asset_graph context) (asset_key context) in
      let updated_parent_partitions_by_asset_key :=
        get_asset_partitions_by_asset_key updated_parent_partitions in
      filter (fun parent => updated_parent_partitions_by_asset_key !!! parent = ∅)
             parent_asset_keys in
  let non_updated_parent_keys := non_updated_parent_keys ∖ {[asset_key context]} in
  if bool_decide (non_updated_parent_keys <> ∅) then
    Some (WaitingOnAssetsRuleEvaluationData non_updated_parent_keys)
  else None.

Definition nonexistent_parents_data (candidate : AssetKeyPartitionKey)
    : option AutoMaterializeRuleEvaluationData :=
  let nonexistent_parent_partitions :=
    required_but_nonexistent_parents_partitions
      (get_parents_partitions (asset_graph context)
         (ap_asset_key candidate) (partition_key candidate)) in
  let nonexistent_parent_keys : gset AssetKey := set_map fst nonexistent_parent_partitions in
  if bool_decide (nonexistent_parent_keys <> ∅) then
    Some (WaitingOnAssetsRuleEvaluationData nonexistent_parent_keys)
  else None.

Definition backfill_in_progress_candidates (all_partitions : bool)
    : gset AssetKeyPartitionKey :=
  let backfilling_subset :=
    get_active_backfill_target_asset_graph_subset (instance_queryer context) in
  if all_partitions then
    filter (fun candidate : AssetKeyPartitionKey =>
              ap_asset_key candidate ∈ asset_keys backfilling_subset)
           (candidates context)
  else
    filter (fun candidate => subset_contains backfilling_subset candidate = true)
           (candidates context).

(** The asset partitions which exceed the limit, for one iteration order
    of the candidate set. *)
Definition rate_limited_asset_partitions
    (iteration_order : list AssetKeyPartitionKey) (limit : Z)
    : gset AssetKeyPartitionKey :=
  list_to_set
    (py_slice_from limit
       (py_sorted (sort_key_for_asset_partition (asset_graph context)) iteration_order)).
End SkipRules.

(** The data freshly computed this tick by the rules that carry data forward,
    and the predicate they hand to the combinator. *)
Definition fresh_evaluation_data
    (self : AutoMaterializeRule) (context : RuleEvaluationContext) : RuleEvaluationResults :=
  match self with
  | MaterializeOnParentUpdatedRule => parent_updated_fresh context
  | MaterializeOnMissingRule => missing_fresh context
  | SkipOnParentOutdatedRule =>
      group_by_evaluation_data (parent_outdated_data context) (candidates_to_evaluate context)
  | SkipOnParentMissingRule =>
      group_by_evaluation_data (parent_missing_data context) (candidates_to_evaluate context)
  | SkipOnNotAllParentsUpdatedRule require_all =>
      group_by_evaluation_data (not_all_parents_updated_data context require_all)
        (candidates_to_evaluate context)
  | SkipOnRequiredButNonexistentParentsRule =>
      group_by_evaluation_data (nonexistent_parents_data context)
        (get_candidates_not_evaluated_by_rule_on_previous_tick context)
  | _ => []
  end.

Definition should_use_past_data_fn
    (self : AutoMaterializeRule) (context : RuleEvaluationContext)
    : RuleEvaluationResults -> AssetKeyPartitionKey -> bool :=
  match self with
  | MaterializeOnParentUpdatedRule => parent_updated_should_use_past_data context
  | MaterializeOnMissingRule => missing_should_use_past_data context
  | SkipOnRequiredButNonexistentParentsRule =>
      not_in (get_candidates_not_evaluated_by_rule_on_previous_tick context)
  | _ => not_in (candidates_to_evaluate context)
  end.

(** Whether the rule ends with [add_evaluation_data_from_previous_tick]. *)
Definition uses_carry_forward (self : AutoMaterializeRule) : bool :=
  match self with
  | MaterializeOnParentUpdatedRule
  | MaterializeOnMissingRule
  | SkipOnParentOutdatedRule
  | SkipOnParentMissingRule
  | SkipOnNotAllParentsUpdatedRule _
  | SkipOnRequiredButNonexistentParentsRule => true
  | _ => false
  end.

(** [evaluate_for_asset], by rule class. *)
Definition evaluate_for_asset
    (self : AutoMaterializeRule) (context : RuleEvaluationContext) : RuleEvaluationResults :=
  match self with
  | MaterializeOnRequiredForFreshnessRule =>
      freshness_evaluation_results_for_asset_key (data_time_resolver context)
        (asset_key context) (will_materialize_mapping context)
  | SkipOnBackfillInProgressRule all_partitions =>
      let backfill_in_progress := backfill_in_progress_candidates context all_partitions in
      if bool_decide (backfill_in_progress <> ∅) then [(None, backfill_in_progress)] else []
  | DiscardOnMaxMaterializationsExceededRule limit =>
      let rate_limited :=
        rate_limited_asset_partitions context (elements (candidates context)) limit in
      if bool_decide (rate_limited <> ∅) then [(None, rate_limited)] else []
  | MaterializeOnParentUpdatedRule =>
      add_evaluation_data_from_previous_tick self context
        (parent_updated_fresh context) (parent_updated_should_use_past_data context)
  | MaterializeOnMissingRule =>
      add_evaluation_data_from_previous_tick self context
        (missing_fresh context) (missing_should_use_past_data context)
  | SkipOnParentOutdatedRule =>
      add_evaluation_data_from_previous_tick self context
        (group_by_evaluation_data (parent_outdated_data context)
           (candidates_to_evaluate context))
        (not_in (candidates_to_evaluate context))
  | SkipOnParentMissingRule =>
      add_evaluation_data_from_previous_tick self context
        (group_by_evaluation_data (parent_missing_data context)
           (candidates_to_evaluate context))
        (not_in (candidates_to_evaluate context))
  | SkipOnNotAllParentsUpdatedRule require_all =>
      add_evaluation_data_from_previous_tick self context
        (group_by_evaluation_data (not_all_parents_updated_data context require_all)
           (candidates_to_evaluate context))
        (not_in (candidates_to_evaluate context))
  | SkipOnRequiredButNonexistentParentsRule =>
      add_evaluation_data_from_previous_tick self context
        (group_by_evaluation_data (nonexistent_parents_data context)
           (get_candidates_not_evaluated_by_rule_on_previous_tick context))
        (not_in (get_candidates_not_evaluated_by_rule_on_previous_tick context))
  end.

(** ** The evaluation pipeline *)

Definition with_candidates
    (context : RuleEvaluationContext) (new_candidates : gset AssetKeyPartitionKey)
    : RuleEvaluationContext :=
  {| asset_key := asset_key context;
     cursor := cursor context;
     instance_queryer := instance_queryer context;
     data_time_resolver := data_time_resolver context;
     will_materialize_mapping := will_materialize_mapping context;
     candidates := new_candidates;
     daemon_context := daemon_context context |}.

Definition rules_with_decision_type
    (decision : AutoMaterializeDecisionType) (rules : list AutoMaterializeRule)
    : list AutoMaterializeRule :=
  filter (fun rule => decision_type rule = decision) rules.

(** The union of the asset partitions of the results of a list of rules. *)
Definition evaluate_rules
    (rules : list AutoMaterializeRule) (context : RuleEvaluationContext)
    : gset AssetKeyPartitionKey :=
  ⋃ ((fun rule => dict_values_union (evaluate_for_asset rule context)) <$> rules).

Record AssetTickResult : Type := mkAssetTickResult {
  to_materialize : gset AssetKeyPartitionKey;
  to_skip : gset AssetKeyPartitionKey;
  to_discard : gset AssetKeyPartitionKey;
  requested : gset AssetKeyPartitionKey
}.

(** Modelled from the spec: the per-asset driver ([evaluate_asset] of
    asset_daemon_context.py, which is not part of the sources), section 4.3:
    run the materialize rules and union their output into M; run the skip
    rules with candidate universe M and union their output into S; run the
    discard rules with candidate universe M - S and union into D; the final
    requested set is M - S - D. *)
Definition evaluate_asset
    (rules : list AutoMaterializeRule) (context : RuleEvaluationContext) : AssetTickResult :=
  let M := evaluate_rules (rules_with_decision_type MATERIALIZE rules) context in
  let S := evaluate_rules (rules_with_decision_type SKIP rules) (with_candidates context M) in
  let D :=
    evaluate_rules (rules_with_decision_type DISCARD rules)
      (with_candidates context (M ∖ S)) in
  {| to_materialize := M; to_skip := S; to_discard := D; requested := M ∖ S ∖ D |}.

(** ** Decoding of the retired condition classes *)



(** The outcome of a call that may raise. *)
Inductive Outcome (A : Type) : Type :=
  | Returns (value : A)
  | Raises (message : string).
Arguments Returns {A} value.
Arguments Raises {A} message.





(** ** Notions used to state the properties *)

(** The stored entries that still deserialize against the asset graph. *)
Definition still_valid
    (self : AutoMaterializeAssetEvaluation) (asset_graph : AssetGraph)
    (condition : AutoMaterializeRuleEvaluation * option SerializedPartitionsSubset) : bool :=
  bool_decide
    (is_Some (_deserialize_rule_evaluation_result self condition.1 condition.2 asset_graph)).

(** The same record with another list of conditions. *)
Definition with_conditions
    (self : AutoMaterializeAssetEvaluation)
    (conditions : list (AutoMaterializeRuleEvaluation * option SerializedPartitionsSubset))
    : AutoMaterializeAssetEvaluation :=
  {| eval_asset_key := eval_asset_key self;
     partition_subsets_by_condition := conditions;
     num_requested := num_requested self;
     num_skipped := num_skipped self;
     num_discarded := num_discarded self;
     run_ids := run_ids self;
     rule_snapshots := rule_snapshots self |}.

(** The record without the entries that no longer deserialize. *)
Definition without_invalid
    (self : AutoMaterializeAssetEvaluation) (asset_graph : AssetGraph)
    : AutoMaterializeAssetEvaluation :=
  with_conditions self
    (List.filter (still_valid self asset_graph) (partition_subsets_by_condition self)).



(** Every asset partition lies under at most one piece of evaluation data. *)
Definition at_most_one_data (results : RuleEvaluationResults) : Prop :=
  forall ap e1 e2, e1 ∈ results -> e2 ∈ results -> ap ∈ e1.2 -> ap ∈ e2.2 -> e1.1 = e2.1.

(** Every asset partition lies in at most one entry. *)
Definition at_most_one_entry (results : RuleEvaluationResults) : Prop :=
  forall ap i j e1 e2,
    results !! i = Some e1 -> results !! j = Some e2 -> ap ∈ e1.2 -> ap ∈ e2.2 -> i = j.

(** The same context with another implementation of the queryer's
    [get_parent_asset_partitions_updated_after_child]. *)
Definition with_updated_after_child
    (context : RuleEvaluationContext)
    (updated_after_child :
       AssetKeyPartitionKey -> gset AssetKeyPartitionKey -> bool -> gset AssetKey ->
       gset AssetKeyPartitionKey) : RuleEvaluationContext :=
  {| asset_key := asset_key context;
     cursor := cursor context;
     instance_queryer :=
       {| asset_graph_of := asset_graph_of (instance_queryer context);
          asset_partition_has_materialization_or_observation :=
            asset_partition_has_materialization_or_observation (instance_queryer context);
          get_parent_asset_partitions_updated_after_child := updated_after_child;
          have_ignorable_partition_mapping_for_outdated :=
            have_ignorable_partition_mapping_for_outdated (instance_queryer context);
          get_outdated_ancestors := get_outdated_ancestors (instance_queryer context);
          get_active_backfill_target_asset_graph_subset :=
            get_active_backfill_target_asset_graph_subset (instance_queryer context) |};
     data_time_resolver := data_time_resolver context;
     will_materialize_mapping := will_materialize_mapping context;
     candidates := candidates context;
     daemon_context := daemon_context context |}.

(** ** Building the stored evaluation *)

(** The partition keys of a set of asset partitions. *)
Definition partition_keys_of (asset_partitions : gset AssetKeyPartitionKey)
    : gset PartitionKey :=
  set_omap partition_key asset_partitions.

(** [check.not_none(ap.partition_key) for ap in asset_partitions]: the keys
    of the asset partitions, or the check error at a partition without key
    ([with_partition_keys] goes through the whole generator). *)
Definition checked_partition_keys (asset_partitions : gset AssetKeyPartitionKey)
    : Outcome (gset PartitionKey) :=
  if bool_decide (set_Exists (fun ap : AssetKeyPartitionKey => partition_key ap = None)
                    asset_partitions)
  then Raises "Expected non-None value"
  else Returns (partition_keys_of asset_partitions).

Section FromRuleEvaluationResults.
(** [asset_graph.auto_materialize_policies_by_key], each policy seen through
    its [rule_snapshots]; and, for a partitions definition and a set of keys,
    [SerializedPartitionsSubset.from_subset] of the subset
    [partitions_def.empty_subset().with_partition_keys(keys)]. *)
Variable auto_materialize_policies_by_key : gmap AssetKey (list AutoMaterializeRuleSnapshot).
Variable from_subset : PartitionsDefinition -> gset PartitionKey -> SerializedPartitionsSubset.

(** The list comprehension of the partitioned branch: the first partition
    without key ends it with the check error. *)
Fixpoint serialized_conditions
    (partitions_def : PartitionsDefinition)
    (asset_partitions_by_rule_evaluation :
       list (AutoMaterializeRuleEvaluation * gset AssetKeyPartitionKey))
    : Outcome (list (AutoMaterializeRuleEvaluation * option SerializedPartitionsSubset)) :=
  match asset_partitions_by_rule_evaluation with
  | [] => Returns []
  | (rule_evaluation, asset_partitions) :: rest =>
      match checked_partition_keys asset_partitions with
      | Raises message => Raises message
      | Returns keys =>
          match serialized_conditions partitions_def rest with
          | Raises message => Raises message
          | Returns conditions =>
              Returns ((rule_evaluation, Some (from_subset partitions_def keys))
                         :: conditions)
          end
      end
  end.

(** [AutoMaterializeAssetEvaluation.from_rule_evaluation_results] *)
Definition from_rule_evaluation_results
    (asset_graph : AssetGraph) (asset_key0 : AssetKey)
    (asset_partitions_by_rule_evaluation :
       list (AutoMaterializeRuleEvaluation * gset AssetKeyPartitionKey))
    (num_requested0 num_skipped0 num_discarded0 : Z)
    : Outcome AutoMaterializeAssetEvaluation :=
  match auto_materialize_policies_by_key !! asset_key0 with
  | None => Raises ("Expected auto materialize policy on asset " +:+ asset_key0)
  | Some policy_rule_snapshots =>
      match get_partitions_def asset_graph asset_key0 with
      | None =>
          Returns
            {| eval_asset_key := asset_key0;
               partition_subsets_by_condition :=
                 map (fun entry : AutoMaterializeRuleEvaluation
                                  * gset AssetKeyPartitionKey => (entry.1, None))
                     asset_partitions_by_rule_evaluation;
               num_requested := num_requested0;
               num_skipped := num_skipped0;
               num_discarded := num_discarded0;
               run_ids := ∅;
               rule_snapshots := Some policy_rule_snapshots |}
      | Some partitions_def =>
          match serialized_conditions partitions_def asset_partitions_by_rule_evaluation with
          | Raises message => Raises message
          | Returns conditions =>
              Returns
                {| eval_asset_key := asset_key0;
                   partition_subsets_by_condition := conditions;
                   num_requested := num_requested0;
                   num_skipped := num_skipped0;
                   num_discarded := num_discarded0;
                   run_ids := ∅;
                   rule_snapshots := Some policy_rule_snapshots |}
          end
      end
  end.
End FromRuleEvaluationResults.

(** The candidates a rule looks at on the current tick, and the evaluation
    data it computes for one of them, for the rules that go through their
    candidates one by one. *)
Definition evaluated_this_tick
    (self : AutoMaterializeRule) (context : RuleEvaluationContext)
    : gset AssetKeyPartitionKey :=
  match self with
  | MaterializeOnParentUpdatedRule => parent_updated_has_or_will_update context
  | SkipOnParentOutdatedRule
  | SkipOnParentMissingRule
  | SkipOnNotAllParentsUpdatedRule _ => candidates_to_evaluate context
  | SkipOnRequiredButNonexistentParentsRule =>
      get_candidates_not_evaluated_by_rule_on_previous_tick context
  | _ => ∅
  end.

Definition data_computed_for
    (self : AutoMaterializeRule) (context : RuleEvaluationContext)
    (candidate : AssetKeyPartitionKey) : option AutoMaterializeRuleEvaluationData :=
  match self with
  | MaterializeOnParentUpdatedRule => parent_updated_data context candidate
  | SkipOnParentOutdatedRule => parent_outdated_data context candidate
  | SkipOnParentMissingRule => parent_missing_data context candidate
  | SkipOnNotAllParentsUpdatedRule require_all =>
      not_all_parents_updated_data context require_all candidate
  | SkipOnRequiredButNonexistentParentsRule => nonexistent_parents_data context candidate
  | _ => None
  end.
(** * A worked example *)

(** A concrete interpreter: class objects hashed by their
    position, sixteen bytes apart, and a constant hash of the empty tuple. *)
Definition example_hash_type (c : RuleClass) : Z :=
  match c with
  | CMaterializeOnRequiredForFreshnessRule => 16
  | CMaterializeOnParentUpdatedRule => 32
  | CMaterializeOnMissingRule => 48
  | CSkipOnParentOutdatedRule => 64
  | CSkipOnParentMissingRule => 80
  | CSkipOnNotAllParentsUpdatedRule => 96
  | CSkipOnRequiredButNonexistentParentsRule => 112
  | CSkipOnBackfillInProgressRule => 128
  | CDiscardOnMaxMaterializationsExceededRule => 144
  end.

Definition example_hash_tuple (t : list PyVal) : Z :=
  fold_right (fun v h => py_val_as_int v + 31 * h) 3527539 t.


(** A partitions definition with two partitions, whose subsets are stored
    as the keys separated by a bar, in any order. *)
Definition example_partitions_def : PartitionsDefinition :=
  {| can_deserialize_subset ss :=
       bool_decide (serialized_partitions_def_unique_id ss = "daily");
     deserialize_subset ss :=
       if bool_decide (serialized_subset ss = "p1|p2") then {["p1"; "p2"]}
       else if bool_decide (serialized_subset ss = "p2|p1") then {["p1"; "p2"]}
       else if bool_decide (serialized_subset ss = "p1") then {["p1"]}
       else if bool_decide (serialized_subset ss = "p2") then {["p2"]}
       else ∅ |}.

Definition example_partition_names : list string :=
  ["p1"; "p2"; "p3"; "p4"; "p5"; "p6"; "p7"; "p8"; "p9"; "p10"].

(** An asset graph with a partitioned asset ["daily_asset"] whose parent is
    the unpartitioned ["up"]; every other asset is unpartitioned and has no
    parents.  Partitions are ordered by their position in the list of
    names. *)
Definition example_asset_graph : AssetGraph :=
  {| materializable_asset_keys := {["daily_asset"; "a"]};
     have_same_partitioning child parent := false;
     is_partitioned key := bool_decide (key = "daily_asset");
     get_partition_mapping child parent := IdentityPartitionMapping;
     is_external_asset_graph := false;
     get_repository_handle key := None;
     get_parents key := if bool_decide (key = "daily_asset") then {["up"]} else ∅;
     get_parents_partitions key pk :=
       if bool_decide (key = "daily_asset")
       then mkParentPartitionsResult {[("up", None)]} ∅
       else mkParentPartitionsResult ∅ ∅;
     get_partitions_def key :=
       if bool_decide (key = "daily_asset") then Some example_partitions_def else None;
     is_source key := false;
     is_observable key := false;
     sort_key_for_asset_partition ap :=
       match ap.2 with
       | Some pk =>
           match list_find (fun name => name = pk) example_partition_names with
           | Some (i, _) => Z.of_nat i
           | None => -1
           end
       | None => 0
       end |}.


Definition example_waiting_on_up : AutoMaterializeRuleEvaluation :=
  {| rule_snapshot := to_snapshot SkipOnParentMissingRule;
     evaluation_data := Some (WaitingOnAssetsRuleEvaluationData {["up"]}) |}.


(** A queryer for which nothing was ever materialized, whose updated parents
    are all the parents that are not ignored, and with one active backfill
    that targets partition [p1] of ["daily_asset"]. *)
Definition example_queryer : CachingInstanceQueryer :=
  {| asset_graph_of := example_asset_graph;
     asset_partition_has_materialization_or_observation ap after_cursor := false;
     get_parent_asset_partitions_updated_after_child child parents respect ignored :=
       filter (fun parent : AssetKeyPartitionKey => parent.1 ∉ ignored) parents;
     have_ignorable_partition_mapping_for_outdated child parent := false;
     get_outdated_ancestors ap := ∅;
     get_active_backfill_target_asset_graph_subset :=
       mkAssetGraphSubset {[("daily_asset", Some "p1")]} |}.

Definition example_daemon_context
    (updated : gset AssetKeyPartitionKey) : AssetDaemonContext :=
  {| respect_materialization_data_versions := true;
     get_asset_partitions_with_newly_updated_parents_for_key key := updated;
     get_never_handled_root_asset_partitions_for_key key := ∅ |}.

Definition example_resolver : CachingDataTimeResolver :=
  {| freshness_evaluation_results_for_asset_key key mapping := [] |}.

(** The context of ["daily_asset"] for a previous evaluation, a set of
    partitions with newly updated parents and a set of candidates. *)
Definition example_context
    (previous : option AutoMaterializeAssetEvaluation)
    (updated candidates0 : gset AssetKeyPartitionKey) : RuleEvaluationContext :=
  {| asset_key := "daily_asset";
     cursor :=
       {| latest_evaluation_by_asset_key :=
            match previous with
            | Some evaluation => {["daily_asset" := evaluation]}
            | None => ∅
            end;
          latest_storage_id := None |};
     instance_queryer := example_queryer;
     data_time_resolver := example_resolver;
     will_materialize_mapping := ∅;
     candidates := candidates0;
     daemon_context := example_daemon_context updated |}.

Definition example_partition (name : string) : AssetKeyPartitionKey :=
  ("daily_asset", Some name).

(** The evaluation of a tick on which partition [p1] was required for
    freshness and skipped because its parent was missing. *)
Definition example_previous_evaluation : AutoMaterializeAssetEvaluation :=
  {| eval_asset_key := "daily_asset";
     partition_subsets_by_condition :=
       [({| rule_snapshot := to_snapshot MaterializeOnRequiredForFreshnessRule;
            evaluation_data := None |},
         Some (mkSerializedSubset "p1" "daily" "Static"));
        (example_waiting_on_up, Some (mkSerializedSubset "p1" "daily" "Static"))];
     num_requested := 0;
     num_skipped := 1;
     num_discarded := 0;
     run_ids := ∅;
     rule_snapshots :=
       Some [to_snapshot MaterializeOnRequiredForFreshnessRule;
             to_snapshot SkipOnParentMissingRule] |}.

(** The next tick, on which no materialize rule fires: there is no
    candidate. *)
Definition example_context_without_candidates : RuleEvaluationContext :=
  example_context (Some example_previous_evaluation) ∅ ∅.

(** The next tick with [p1] still a candidate and [p2] a new one. *)
Definition example_context_two_candidates : RuleEvaluationContext :=
  example_context (Some example_previous_evaluation) ∅
    {[example_partition "p1"; example_partition "p2"]}.

(** Ten candidates and no previous evaluation. *)
Definition example_context_ten_candidates : RuleEvaluationContext :=
  example_context None ∅ (list_to_set (example_partition <$> example_partition_names)).

(** The policies of the example assets, and a serializer of subsets of the
    example partitions definition that the definition reads back. *)
Definition example_policies : gmap AssetKey (list AutoMaterializeRuleSnapshot) :=
  {["daily_asset" := [to_snapshot SkipOnParentMissingRule];
    "a" := [to_snapshot MaterializeOnMissingRule]]}.

Definition example_from_subset
    (partitions_def : PartitionsDefinition) (keys : gset PartitionKey)
    : SerializedPartitionsSubset :=
  mkSerializedSubset
    (if bool_decide (keys = {["p1"; "p2"]}) then "p1|p2"
     else if bool_decide (keys = {["p1"]}) then "p1"
     else if bool_decide (keys = {["p2"]}) then "p2"
     else "")
    "daily" "Static".

(** A second asset graph, of unpartitioned assets: ["down"] has the parent
    ["up"], and ["late"] has the partitioned parent ["hourly"], of which it
    requires a partition that does not exist.  Nothing was ever
    materialized, no parent was updated, and ["up"] has the outdated
    ancestor ["root"]. *)
Definition example_pipeline_graph : AssetGraph :=
  {| materializable_asset_keys := {["up"; "down"; "late"]};
     have_same_partitioning child parent :=
       bool_decide (bool_decide (child = "hourly") = bool_decide (parent = "hourly"));
     is_partitioned key := bool_decide (key = "hourly");
     get_partition_mapping child parent := IdentityPartitionMapping;
     is_external_asset_graph := false;
     get_repository_handle key := None;
     get_parents key :=
       if bool_decide (key = "down") then {["up"]}
       else if bool_decide (key = "late") then {["hourly"]}
       else ∅;
     get_parents_partitions key pk :=
       if bool_decide (key = "down") then mkParentPartitionsResult {[("up", None)]} ∅
       else if bool_decide (key = "late")
       then mkParentPartitionsResult ∅ {[("hourly", Some "2020-01-01")]}
       else mkParentPartitionsResult ∅ ∅;
     get_partitions_def key :=
       if bool_decide (key = "hourly") then Some example_partitions_def else None;
     is_source key := false;
     is_observable key := false;
     sort_key_for_asset_partition ap := 0 |}.

Definition example_pipeline_queryer : CachingInstanceQueryer :=
  {| asset_graph_of := example_pipeline_graph;
     asset_partition_has_materialization_or_observation ap after_cursor := false;
     get_parent_asset_partitions_updated_after_child child parents respect ignored := ∅;
     have_ignorable_partition_mapping_for_outdated child parent := false;
     get_outdated_ancestors ap :=
       if bool_decide (ap = ("up", None)) then {["root"]} else ∅;
     get_active_backfill_target_asset_graph_subset := mkAssetGraphSubset ∅ |}.

(** The first tick of an asset of the second graph, which is the only
    candidate, with the partitions of ["up"] that are requested on this
    tick. *)
Definition example_pipeline_context
    (key : AssetKey) (requested_up : gset AssetKeyPartitionKey) : RuleEvaluationContext :=
  {| asset_key := key;
     cursor := {| latest_evaluation_by_asset_key := ∅; latest_storage_id := None |};
     instance_queryer := example_pipeline_queryer;
     data_time_resolver := example_resolver;
     will_materialize_mapping := {["up" := requested_up]};
     candidates := {[(key, None)]};
     daemon_context := example_daemon_context ∅ |}.
(** * Properties *)

(** ** Strings *)

Lemma string_length_append (s t : string) :
  String.length (s +:+ t) = (String.length s + String.length t)%nat.
Proof. induction s as [|a s IH]; simpl; [reflexivity | now rewrite IH]. Qed.

Lemma string_append_cancel_r (s1 s2 t : string) : s1 +:+ t = s2 +:+ t -> s1 = s2.
Proof.
  revert s2. induction s1 as [|a s1 IH]; intros [|b s2] H.
  - reflexivity.
  - apply (f_equal String.length) in H.
    rewrite !string_length_append in H. simpl in H. lia.
  - apply (f_equal String.length) in H.
    rewrite !string_length_append in H. simpl in H. lia.
  - cbn in H. injection H as -> H. f_equal. now apply IH.
Qed.

Lemma py_str_int_inj (n m : Z) : py_str_int n = py_str_int m -> n = m.
Proof.
  unfold py_str_int. intros H.
  apply DecimalZ.to_int_inj.
  assert (Hs : Some (Z.to_int n) = Some (Z.to_int m)).
  { rewrite <- (NilEmpty.isi (Z.to_int n)), <- (NilEmpty.isi (Z.to_int m)).
    now rewrite H. }
  now injection Hs.
Qed.

(** ** Rule identity *)

Lemma description_limit_inj (n m : Z) :
  description (DiscardOnMaxMaterializationsExceededRule n)
  = description (DiscardOnMaxMaterializationsExceededRule m) -> n = m.
Proof.
  simpl. intros H. injection H as H.
  apply py_str_int_inj. eapply string_append_cancel_r. exact H.
Qed.

Lemma to_snapshot_inj (r1 r2 : AutoMaterializeRule) :
  to_snapshot r1 = to_snapshot r2 -> r1 = r2.
Proof.
  unfold to_snapshot, from_rule. intros H.
  injection H as Hc Hd _.
  destruct r1 as [| | | | |b1| |b1|n1], r2 as [| | | | |b2| |b2|n2];
    try discriminate Hc; try reflexivity.
  - destruct b1, b2; simpl in Hd; try discriminate Hd; reflexivity.
  - destruct b1, b2; simpl in Hd; try discriminate Hd; reflexivity.
  - f_equal. now apply description_limit_inj.
Qed.

(** C3 (as amended): the snapshot of a rule is exactly the triple of its class
    name, its description and its decision type and has no configuration
    field of its own; but the description of the configurable rules is
    computed from the configuration, so two rules have the same snapshot
    exactly when they are the same class with the same description, and that
    is exactly when they are configured identically: two
    DiscardOnMaxMaterializationsExceededRule instances have equal snapshots
    only for equal limits. *)
Theorem snapshot_identity (r1 r2 : AutoMaterializeRule) :
  to_snapshot r1
  = mkSnapshot (class_name (class_of r1)) (description r1) (decision_type r1)
  /\ (to_snapshot r1 = to_snapshot r2
      <-> class_name (class_of r1) = class_name (class_of r2)
          /\ description r1 = description r2
          /\ decision_type r1 = decision_type r2)
  /\ (to_snapshot r1 = to_snapshot r2 <-> r1 = r2)
  /\ (forall n m : Z,
        to_snapshot (DiscardOnMaxMaterializationsExceededRule n)
        = to_snapshot (DiscardOnMaxMaterializationsExceededRule m) <-> n = m).
Proof.
  split; [reflexivity|]. split; [|split].
  - unfold to_snapshot, from_rule. split.
    + intros H. injection H as -> -> ->. auto.
    + intros (-> & -> & ->). reflexivity.
  - split; [apply to_snapshot_inj | now intros ->].
  - intros n m. split.
    + intros H. apply to_snapshot_inj in H. now injection H.
    + now intros ->.
Qed.

(** C3 (as stated) fails: two instances of the same class that differ only in
    their limit have different snapshots. *)
Lemma snapshot_identity_counterexample :
  class_of (DiscardOnMaxMaterializationsExceededRule 1)
  = class_of (DiscardOnMaxMaterializationsExceededRule 2)
  /\ to_snapshot (DiscardOnMaxMaterializationsExceededRule 1)
     <> to_snapshot (DiscardOnMaxMaterializationsExceededRule 2).
Proof. split; [reflexivity | discriminate]. Qed.

(** ** Equality and hashing of rules *)

Lemma py_hash_int_small (n : Z) : 0 <= n -> py_hash_int n = n mod py_hash_modulus.
Proof.
  intros Hn. unfold py_hash_int.
  assert (Hm : 0 <= n mod py_hash_modulus)
    by (apply Z.mod_pos_bound; unfold py_hash_modulus; lia).
  rewrite Z.abs_eq by lia.
  destruct (Z.eq_dec n 0) as [->|Hne].
  - reflexivity.
  - rewrite Z.sgn_pos by lia. rewrite Z.mul_1_l.
    destruct (Z.eqb_spec (n mod py_hash_modulus) (-1)); [lia | reflexivity].
Qed.

(** C8: two rules of different classes, both without fields, are unequal in
    both directions, and their hashes differ.  The hash of a class object is
    the interpreter's: it is derived from the address of the object, so it is
    non-negative, below the hash modulus and different for different classes;
    the hash of the empty tuple is a non-negative constant. *)
Theorem zero_field_rules_differ
    (hash_type : RuleClass -> Z) (hash_tuple : list PyVal -> Z)
    (r1 r2 : AutoMaterializeRule)
    (Hrange : forall c, 0 <= hash_type c < py_hash_modulus)
    (Hinj : forall c1 c2, hash_type c1 = hash_type c2 -> c1 = c2)
    (Hempty : 0 <= hash_tuple [])
    (Hf1 : fields r1 = []) (Hf2 : fields r2 = [])
    (Hclass : class_of r1 <> class_of r2) :
  rule_eq r1 r2 = false
  /\ rule_eq r2 r1 = false
  /\ rule_hash hash_type hash_tuple r1 <> rule_hash hash_type hash_tuple r2.
Proof.
  split; [|split].
  - unfold rule_eq. rewrite bool_decide_eq_false_2; [reflexivity | assumption].
  - unfold rule_eq. rewrite bool_decide_eq_false_2; [reflexivity | congruence].
  - unfold rule_hash. rewrite Hf1, Hf2.
    pose proof (Hrange (class_of r1)) as H1.
    pose proof (Hrange (class_of r2)) as H2.
    rewrite !py_hash_int_small by lia.
    intros Heq.
    assert (Hne : hash_type (class_of r1) <> hash_type (class_of r2))
      by (intros E; apply Hclass, Hinj, E).
    assert (Hpos : 0 < py_hash_modulus) by (unfold py_hash_modulus; lia).
    set (a := hash_type (class_of r1)) in *.
    set (b := hash_type (class_of r2)) in *.
    set (h := hash_tuple []) in *.
    assert (Hd : (a - b) mod py_hash_modulus = 0).
    { replace (a - b) with ((a + h) - (b + h)) by lia.
      rewrite Zminus_mod, Heq, Z.sub_diag. apply Z.mod_0_l. lia. }
    apply Z.mod_divide in Hd; [|lia].
    destruct Hd as [k Hk].
    assert (Hk0 : k = 0).
    { destruct (Z.lt_trichotomy k 0) as [Hlt | [-> | Hgt]]; [|reflexivity|].
      - assert (k * py_hash_modulus <= -1 * py_hash_modulus)
          by (apply Z.mul_le_mono_nonneg_r; lia).
        lia.
      - assert (1 * py_hash_modulus <= k * py_hash_modulus)
          by (apply Z.mul_le_mono_nonneg_r; lia).
        lia. }
    subst k. lia.
Qed.

Lemma zero_field_rules_differ_witness :
  rule_eq MaterializeOnMissingRule SkipOnParentMissingRule = false
  /\ rule_eq SkipOnParentMissingRule MaterializeOnMissingRule = false
  /\ rule_hash example_hash_type example_hash_tuple MaterializeOnMissingRule
     <> rule_hash example_hash_type example_hash_tuple SkipOnParentMissingRule.
Proof.
  apply (zero_field_rules_differ example_hash_type example_hash_tuple
           MaterializeOnMissingRule SkipOnParentMissingRule).
  - intros []; vm_compute; split; congruence.
  - intros [] []; vm_compute; congruence.
  - vm_compute; congruence.
  - reflexivity.
  - reflexivity.
  - discriminate.
Defined.

(** ** Decoding of the retired condition classes *)


(** ** Reading a stored evaluation *)

Lemma deserialize_with_conditions self conditions rule_evaluation ss asset_graph :
  _deserialize_rule_evaluation_result (with_conditions self conditions)
    rule_evaluation ss asset_graph
  = _deserialize_rule_evaluation_result self rule_evaluation ss asset_graph.
Proof. reflexivity. Qed.

Lemma rule_evaluation_results_of_filter self other snapshot asset_graph conditions :
  eval_asset_key other = eval_asset_key self ->
  rule_evaluation_results_of other snapshot asset_graph
    (List.filter (still_valid self asset_graph) conditions)
  = rule_evaluation_results_of self snapshot asset_graph conditions.
Proof.
  intros Hkey.
  assert (Hd : forall re ss,
             _deserialize_rule_evaluation_result other re ss asset_graph
             = _deserialize_rule_evaluation_result self re ss asset_graph)
    by (intros; unfold _deserialize_rule_evaluation_result; now rewrite Hkey).
  induction conditions as [|[re ss] rest IH]; [reflexivity|].
  simpl. unfold still_valid at 1. simpl.
  destruct (_deserialize_rule_evaluation_result self re ss asset_graph) as [res|] eqn:E.
  - rewrite bool_decide_eq_true_2 by eauto. simpl.
    case_bool_decide; [exact IH|]. rewrite Hd, E. now rewrite IH.
  - rewrite bool_decide_eq_false_2 by (intros [? ?]; discriminate).
    case_bool_decide; exact IH.
Qed.

Lemma asset_partitions_with_decision_type_of_filter
    self other decision asset_graph conditions acc :
  eval_asset_key other = eval_asset_key self ->
  asset_partitions_with_decision_type_of other decision asset_graph
    (List.filter (still_valid self asset_graph) conditions) acc
  = asset_partitions_with_decision_type_of self decision asset_graph conditions acc.
Proof.
  intros Hkey.
  assert (Hd : forall re ss,
             _deserialize_rule_evaluation_result other re ss asset_graph
             = _deserialize_rule_evaluation_result self re ss asset_graph)
    by (intros; unfold _deserialize_rule_evaluation_result; now rewrite Hkey).
  revert acc. induction conditions as [|[re ss] rest IH]; intros acc; [reflexivity|].
  simpl. unfold still_valid at 1. simpl.
  destruct (_deserialize_rule_evaluation_result self re ss asset_graph) as [res|] eqn:E.
  - rewrite bool_decide_eq_true_2 by eauto. simpl.
    case_bool_decide; [apply IH|]. rewrite Hd, E. apply IH.
  - rewrite bool_decide_eq_false_2 by (intros [? ?]; discriminate).
    case_bool_decide; apply IH.
Qed.

(** C10: reading a stored evaluation is a total function of the record and
    the asset graph.  An entry deserializes to nothing exactly when its
    subset is null although the asset now has a partitions definition, or its
    subset is not null and the asset has no partitions definition or one that
    cannot deserialize it; such entries do not contribute to the results of a
    rule, to the requested-or-discarded set or to the evaluated set, which
    are those of the record without them.  A null subset is read as the
    single unpartitioned asset partition exactly when the asset has no
    partitions definition. *)
Theorem invalid_entries_are_dropped
    (self : AutoMaterializeAssetEvaluation) (asset_graph : AssetGraph) :
  (forall rule_evaluation ss,
     _deserialize_rule_evaluation_result self rule_evaluation ss asset_graph = None
     <-> (ss = None /\ is_Some (get_partitions_def asset_graph (eval_asset_key self)))
         \/ (exists s, ss = Some s
               /\ (get_partitions_def asset_graph (eval_asset_key self) = None
                   \/ can_deserialize s
                        (get_partitions_def asset_graph (eval_asset_key self)) = false)))
  /\ (forall rule_evaluation,
        (_deserialize_rule_evaluation_result self rule_evaluation None asset_graph
         = Some (evaluation_data rule_evaluation, {[ (eval_asset_key self, None) ]})
         <-> get_partitions_def asset_graph (eval_asset_key self) = None)
        /\ (_deserialize_rule_evaluation_result self rule_evaluation None asset_graph = None
            <-> is_Some (get_partitions_def asset_graph (eval_asset_key self))))
  /\ (forall snapshot,
        get_rule_evaluation_results self snapshot asset_graph
        = get_rule_evaluation_results (without_invalid self asset_graph) snapshot
            asset_graph)
  /\ (forall decision,
        _get_asset_partitions_with_decision_type self decision asset_graph
        = _get_asset_partitions_with_decision_type (without_invalid self asset_graph)
            decision asset_graph)
  /\ get_requested_or_discarded_asset_partitions self asset_graph
     = get_requested_or_discarded_asset_partitions (without_invalid self asset_graph)
         asset_graph
  /\ get_evaluated_asset_partitions self asset_graph
     = get_evaluated_asset_partitions (without_invalid self asset_graph) asset_graph.
Proof.
  assert (Hdec : forall decision,
             _get_asset_partitions_with_decision_type self decision asset_graph
             = _get_asset_partitions_with_decision_type (without_invalid self asset_graph)
                 decision asset_graph).
  { intros decision. unfold _get_asset_partitions_with_decision_type, without_invalid.
    simpl. symmetry. now apply asset_partitions_with_decision_type_of_filter. }
  split; [|split; [|split; [|split; [|split]]]].
  - intros re ss. unfold _deserialize_rule_evaluation_result.
    destruct ss as [s|], (get_partitions_def asset_graph (eval_asset_key self)) as [pd|];
      simpl.
    + destruct (can_deserialize_subset pd s) eqn:E; split.
      * discriminate.
      * intros [[? _] | (s' & Hs & [? | ?])]; try discriminate. congruence.
      * intros _. right. exists s. auto.
      * reflexivity.
    + split; [|reflexivity]. intros _. right. exists s. auto.
    + split; [|reflexivity]. intros _. left. split; [reflexivity | eauto].
    + split; [discriminate|].
      intros [[_ [? ?]] | (s' & ? & _)]; discriminate.
  - intros re. unfold _deserialize_rule_evaluation_result.
    destruct (get_partitions_def asset_graph (eval_asset_key self)) as [pd|]; simpl.
    + split; split; try discriminate; eauto.
    + split; split; try reflexivity; try discriminate. intros [? ?]; discriminate.
  - intros snapshot. unfold get_rule_evaluation_results, without_invalid. simpl.
    symmetry. now apply rule_evaluation_results_of_filter.
  - exact Hdec.
  - unfold get_requested_or_discarded_asset_partitions. now rewrite <- !Hdec.
  - unfold get_evaluated_asset_partitions. apply Hdec.
Qed.

(** ** Backfills in progress *)

Lemma dict_values_union_singleton
    (k : option AutoMaterializeRuleEvaluationData) (s : gset AssetKeyPartitionKey) :
  dict_values_union [(k, s)] = s.
Proof. unfold dict_values_union. simpl. apply union_empty_r_L. Qed.

Lemma backfill_results (all_partitions : bool) (context : RuleEvaluationContext) :
  dict_values_union
    (evaluate_for_asset (SkipOnBackfillInProgressRule all_partitions) context)
  = backfill_in_progress_candidates context all_partitions.
Proof.
  simpl. case_bool_decide as H.
  - apply dict_values_union_singleton.
  - now rewrite H.
Qed.

(** C7: with [all_partitions] the rule returns exactly the candidates of an
    asset that has some partition targeted by an active backfill, without it
    exactly the candidates that are themselves targeted; the result is a
    function of the candidates and of the live backfill target alone (the
    cursor with the previous tick's evaluation does not enter it), and it is
    the empty list when no candidate matches. *)
Theorem backfill_in_progress_exact
    (all_partitions : bool) (context : RuleEvaluationContext) :
  let targeted :=
    targeted_asset_partitions
      (get_active_backfill_target_asset_graph_subset (instance_queryer context)) in
  (forall ap,
     ap ∈ dict_values_union (evaluate_for_asset (SkipOnBackfillInProgressRule true) context)
     <-> ap ∈ candidates context /\ exists pk, (ap_asset_key ap, pk) ∈ targeted)
  /\ (forall ap,
        ap ∈ dict_values_union
               (evaluate_for_asset (SkipOnBackfillInProgressRule false) context)
        <-> ap ∈ candidates context /\ ap ∈ targeted)
  /\ (forall key' cursor' resolver' mapping' daemon',
        evaluate_for_asset (SkipOnBackfillInProgressRule all_partitions)
          (mkContext key' cursor' (instance_queryer context) resolver' mapping'
             (candidates context) daemon')
        = evaluate_for_asset (SkipOnBackfillInProgressRule all_partitions) context)
  /\ (evaluate_for_asset (SkipOnBackfillInProgressRule all_partitions) context = []
      <-> backfill_in_progress_candidates context all_partitions = ∅)
  /\ (backfill_in_progress_candidates context all_partitions <> ∅ ->
      evaluate_for_asset (SkipOnBackfillInProgressRule all_partitions) context
      = [(None, backfill_in_progress_candidates context all_partitions)]).
Proof.
  intros targeted. split; [|split; [|split; [|split]]].
  - intros ap. rewrite backfill_results. unfold backfill_in_progress_candidates.
    rewrite elem_of_filter. unfold asset_keys. rewrite elem_of_map.
    fold targeted. split.
    + intros [([k pk] & Hk & Hin) Hc]. split; [exact Hc|].
      exists pk. unfold ap_asset_key in *. simpl in Hk. now rewrite Hk.
    + intros [Hc [pk Hin]]. split; [|exact Hc].
      exists (ap_asset_key ap, pk). split; [reflexivity | exact Hin].
  - intros ap. rewrite backfill_results. unfold backfill_in_progress_candidates.
    rewrite elem_of_filter. unfold subset_contains. fold targeted.
    rewrite bool_decide_eq_true. tauto.
  - intros. reflexivity.
  - simpl. case_bool_decide as H.
    + split; [discriminate | intros E; contradiction].
    + split; [intros _; exact H | reflexivity].
  - intros H. simpl. now rewrite bool_decide_eq_true_2.
Qed.

(** ** Sorting *)

Lemma insert_by_key_Permutation {A} (key : A -> Z) (x : A) (l : list A) :
  Permutation (insert_by_key key x l) (x :: l).
Proof.
  induction l as [|y l IH]; simpl; [reflexivity|].
  destruct (key x <=? key y); [reflexivity|].
  rewrite IH. apply perm_swap.
Qed.

Lemma py_sorted_Permutation {A} (key : A -> Z) (l : list A) :
  Permutation (py_sorted key l) l.
Proof.
  induction l as [|x l IH]; simpl; [reflexivity|].
  rewrite insert_by_key_Permutation. now rewrite IH.
Qed.

(** ** Equivalence with a stored evaluation *)

Section EquivalenceProperties.
Variable sorted :
  list (AutoMaterializeRuleEvaluation * option SerializedPartitionsSubset) ->
  option (list (AutoMaterializeRuleEvaluation * option SerializedPartitionsSubset)).
Hypothesis sorted_Permutation : forall l l', sorted l = Some l' -> Permutation l' l.

Variable self : AutoMaterializeAssetEvaluation.
Variable asset_graph : AssetGraph.


End EquivalenceProperties.




(** ** Rate limiting *)

Section SortedByKey.
Context {A : Type} (key : A -> Z).









End SortedByKey.





(** ** Dictionaries *)

Implicit Types ap : (string * option string)%type.
Implicit Types k : option AutoMaterializeRuleEvaluationData.

Lemma dict_get_add k' k ap (d : RuleEvaluationResults) :
  dict_get k' (dict_add k ap d)
  = if bool_decide (k' = k) then dict_get k d ∪ {[ap]} else dict_get k' d.
Proof.
  induction d as [|[k0 s] d IH]; simpl.
  - rewrite (bool_decide_ext (k = k') (k' = k)) by (split; congruence).
    case_bool_decide; [symmetry; apply union_empty_l_L | reflexivity].
  - destruct (decide (k0 = k)) as [->|Hne].
    + rewrite (bool_decide_eq_true_2 (k = k)) by reflexivity. simpl.
      rewrite (bool_decide_ext (k = k') (k' = k)) by (split; congruence).
      case_bool_decide; reflexivity.
    + rewrite (bool_decide_eq_false_2 (k0 = k)) by exact Hne. simpl.
      rewrite IH. destruct (decide (k0 = k')) as [->|Hne'].
      * rewrite (bool_decide_eq_true_2 (k' = k')) by reflexivity.
        now rewrite (bool_decide_eq_false_2 (k' = k)) by exact Hne.
      * now rewrite (bool_decide_eq_false_2 (k0 = k')) by exact Hne'.
Qed.

Lemma elem_of_dict_get_add (ap' : AssetKeyPartitionKey) k' k ap (d : RuleEvaluationResults) :
  ap' ∈ dict_get k' (dict_add k ap d)
  <-> ap' ∈ dict_get k' d \/ (k' = k /\ ap' = ap).
Proof.
  rewrite dict_get_add. case_bool_decide as H.
  - subst k'. rewrite elem_of_union, elem_of_singleton. tauto.
  - tauto.
Qed.

Lemma dict_add_keys k ap (d : RuleEvaluationResults) :
  (dict_add k ap d).*1 = if bool_decide (k ∈ d.*1) then d.*1 else (d.*1 ++ [k])%list.
Proof.
  induction d as [|[k0 s] d IH]; csimpl.
  - reflexivity.
  - destruct (decide (k0 = k)) as [->|Hne].
    + rewrite (bool_decide_eq_true_2 (k = k)) by reflexivity. csimpl.
      rewrite bool_decide_eq_true_2 by (apply elem_of_cons; now left). reflexivity.
    + rewrite (bool_decide_eq_false_2 (k0 = k)) by exact Hne. csimpl.
      rewrite IH. rewrite (bool_decide_ext (k ∈ k0 :: d.*1) (k ∈ d.*1)).
      * case_bool_decide; reflexivity.
      * rewrite elem_of_cons. split; [intros [E | H]; [congruence | exact H] | tauto].
Qed.

Lemma dict_add_NoDup k ap (d : RuleEvaluationResults) :
  NoDup d.*1 -> NoDup (dict_add k ap d).*1.
Proof.
  intros H. rewrite dict_add_keys. case_bool_decide as Hk; [exact H|].
  apply NoDup_app. split; [exact H|]. split.
  - intros x Hx Hx'. apply list_elem_of_singleton in Hx'. now subst.
  - apply NoDup_singleton.
Qed.

(** In a dictionary, the set of an entry is the set stored under its key. *)
Lemma dict_get_entry (d : RuleEvaluationResults) k s :
  NoDup d.*1 -> (k, s) ∈ d -> dict_get k d = s.
Proof.
  induction d as [|[k0 s0] d IH]; intros Hnd Hin.
  - now apply elem_of_nil in Hin.
  - csimpl in Hnd. apply NoDup_cons in Hnd as [Hk0 Hnd]. csimpl.
    apply elem_of_cons in Hin as [E | Hin].
    + injection E as -> ->. now rewrite bool_decide_eq_true_2.
    + rewrite bool_decide_eq_false_2; [now apply IH|].
      intros ->. apply Hk0. apply list_elem_of_fmap. now exists (k, s).
Qed.

Lemma dict_get_elem_of (d : RuleEvaluationResults) k ap :
  ap ∈ dict_get k d -> exists s, (k, s) ∈ d /\ ap ∈ s.
Proof.
  induction d as [|[k0 s0] d IH]; simpl; intros H.
  - now apply elem_of_empty in H.
  - case_bool_decide as E.
    + subst k0. exists s0. split; [apply elem_of_cons; now left | exact H].
    + destruct (IH H) as (s & Hs & Hap). exists s. split; [|exact Hap].
      apply elem_of_cons. now right.
Qed.

Lemma elem_of_dict_values_union (d : RuleEvaluationResults) ap :
  ap ∈ dict_values_union d <-> exists e, e ∈ d /\ ap ∈ e.2.
Proof.
  unfold dict_values_union. rewrite elem_of_union_list. split.
  - intros (s & Hs & Hap). apply list_elem_of_fmap in Hs as (e & -> & He). eauto.
  - intros (e & He & Hap). exists e.2. split; [|exact Hap].
    apply list_elem_of_fmap. eauto.
Qed.

Lemma dict_get_subseteq_values (d : RuleEvaluationResults) k ap :
  ap ∈ dict_get k d -> ap ∈ dict_values_union d.
Proof.
  intros H. apply dict_get_elem_of in H as (s & Hs & Hap).
  apply elem_of_dict_values_union. now exists (k, s).
Qed.

(** For a dictionary, the two ways of saying that a partition has at most
    one piece of data agree. *)
Lemma at_most_one_entry_of_dict (d : RuleEvaluationResults) :
  NoDup d.*1 ->
  (forall ap k1 k2, ap ∈ dict_get k1 d -> ap ∈ dict_get k2 d -> k1 = k2) ->
  at_most_one_entry d.
Proof.
  intros Hnd Huniq ap i j [k1 s1] [k2 s2] Hi Hj H1 H2. simpl in *.
  assert (k1 = k2).
  { apply (Huniq ap).
    - rewrite (dict_get_entry d k1 s1 Hnd); [exact H1|]. eapply list_elem_of_lookup_2, Hi.
    - rewrite (dict_get_entry d k2 s2 Hnd); [exact H2|]. eapply list_elem_of_lookup_2, Hj. }
  subst k2. eapply NoDup_lookup; [exact Hnd | |].
  - rewrite list_lookup_fmap, Hi. reflexivity.
  - rewrite list_lookup_fmap, Hj. reflexivity.
Qed.

Lemma at_most_one_entry_data (results : RuleEvaluationResults) :
  at_most_one_entry results -> at_most_one_data results.
Proof.
  intros H ap e1 e2 H1 H2 Ha1 Ha2.
  apply list_elem_of_lookup_1 in H1 as [i Hi]. apply list_elem_of_lookup_1 in H2 as [j Hj].
  assert (i = j) by (eapply H; eauto). subst j. congruence.
Qed.

(** ** Carry-forward *)

Section CarryForward.
Variables previous_results current : RuleEvaluationResults.
Variable should_use : RuleEvaluationResults -> AssetKeyPartitionKey -> bool.

Let evaluated : gset AssetKeyPartitionKey := dict_values_union current.

(** What holds of the dictionary all along the two loops: it stays a
    dictionary, it keeps what was computed this tick, and anything else in
    it was carried forward. *)
Let carried k ap : Prop :=
  (ap ∉ evaluated)
  /\ (exists s, (k, s) ∈ previous_results /\ ap ∈ s)
  /\ exists acc, should_use acc ap = true.

Let invariant (acc : RuleEvaluationResults) : Prop :=
  NoDup acc.*1
  /\ (forall k ap, ap ∈ dict_get k current -> ap ∈ dict_get k acc)
  /\ (forall k ap, ap ∈ dict_get k acc -> ap ∈ dict_get k current \/ carried k ap).

Lemma carry_forward_step_invariant acc k s ap :
  invariant acc -> (k, s) ∈ previous_results -> ap ∈ s ->
  invariant (carry_forward_step evaluated should_use k acc ap).
Proof.
  intros (Hnd & Hkeep & Honly) Hks Hap. unfold carry_forward_step.
  case_bool_decide as Hev; [now repeat split|].
  destruct (should_use acc ap) eqn:Huse; [|now repeat split].
  split; [now apply dict_add_NoDup|]. split.
  - intros k' ap' H. apply elem_of_dict_get_add. left. now apply Hkeep.
  - intros k' ap' H. apply elem_of_dict_get_add in H as [H | [-> ->]].
    + now apply Honly.
    + right. split; [exact Hev|]. split; [now exists s | now exists acc].
Qed.

Lemma carry_forward_inner_invariant k s (l : list AssetKeyPartitionKey) acc :
  (forall ap, ap ∈ l -> ap ∈ s) -> (k, s) ∈ previous_results -> invariant acc ->
  invariant (foldl (carry_forward_step evaluated should_use k) acc l).
Proof.
  revert acc. induction l as [|ap l IH]; intros acc Hl Hks Hacc; [exact Hacc|].
  simpl. apply IH; [| exact Hks |].
  - intros ap' H. apply Hl, elem_of_cons. now right.
  - eapply carry_forward_step_invariant; [exact Hacc | exact Hks |].
    apply Hl, elem_of_cons. now left.
Qed.

Lemma carry_forward_outer_invariant (l : RuleEvaluationResults) acc :
  (forall e, e ∈ l -> e ∈ previous_results) -> invariant acc ->
  invariant
    (foldl (fun acc (entry : option AutoMaterializeRuleEvaluationData
                             * gset AssetKeyPartitionKey) =>
              foldl (carry_forward_step evaluated should_use entry.1) acc
                    (elements entry.2))
           acc l).
Proof.
  revert acc. induction l as [|[k s] l IH]; intros acc Hl Hacc; [exact Hacc|].
  simpl. apply IH.
  - intros e H. apply Hl, elem_of_cons. now right.
  - apply (carry_forward_inner_invariant k s).
    + intros ap. now rewrite elem_of_elements.
    + apply Hl, elem_of_cons. now left.
    + exact Hacc.
Qed.

Lemma carry_forward_invariant :
  NoDup current.*1 -> invariant (carry_forward previous_results current should_use).
Proof.
  intros Hnd. unfold carry_forward. apply carry_forward_outer_invariant.
  - auto.
  - split; [exact Hnd|]. split; [auto|]. intros k ap H. now left.
Qed.

(** The combinator, for any dictionary of fresh data in which a partition
    has at most one piece of data. *)
Lemma carry_forward_spec :
  NoDup current.*1 -> at_most_one_data current ->
  let result := carry_forward previous_results current should_use in
  NoDup result.*1
  /\ (forall ap k, ap ∈ evaluated -> ap ∈ dict_get k result <-> ap ∈ dict_get k current)
  /\ (forall ap k,
        ap ∈ dict_get k result -> ap ∉ dict_get k current ->
        (ap ∉ evaluated)
        /\ (exists s, (k, s) ∈ previous_results /\ ap ∈ s)
        /\ exists acc, should_use acc ap = true)
  /\ (at_most_one_data previous_results -> at_most_one_entry result).
Proof.
  intros Hnd Hone result.
  destruct (carry_forward_invariant Hnd) as (Hnd' & Hkeep & Honly). fold result in Hnd', Hkeep, Honly.
  split; [exact Hnd'|]. split; [|split].
  - intros ap k Hev. split; [|apply Hkeep].
    intros H. apply Honly in H as [H | (Hnot & _)]; [exact H | contradiction].
  - intros ap k H Hnot. apply Honly in H as [H | H]; [contradiction | exact H].
  - intros Hprev. apply at_most_one_entry_of_dict; [exact Hnd'|].
    intros ap k1 k2 H1 H2.
    apply Honly in H1 as [H1 | (Hn1 & (s1 & Hs1 & Ha1) & _)];
      apply Honly in H2 as [H2 | (Hn2 & (s2 & Hs2 & Ha2) & _)].
    + apply dict_get_elem_of in H1 as (s1 & Hs1 & Ha1).
      apply dict_get_elem_of in H2 as (s2 & Hs2 & Ha2).
      apply (Hone ap (k1, s1) (k2, s2)); assumption.
    + exfalso. apply Hn2. unfold evaluated. eapply dict_get_subseteq_values, H1.
    + exfalso. apply Hn1. unfold evaluated. eapply dict_get_subseteq_values, H2.
    + apply (Hprev ap (k1, s1) (k2, s2)); assumption.
Qed.
End CarryForward.

(** ** The data computed by the rules on the current tick *)

Lemma group_by_fold
    (data_of : AssetKeyPartitionKey -> option AutoMaterializeRuleEvaluationData)
    (l : list AssetKeyPartitionKey) (acc : RuleEvaluationResults) :
  NoDup acc.*1 ->
  (forall k ap, ap ∈ dict_get k acc -> exists d, data_of ap = Some d /\ k = Some d) ->
  let result :=
    foldl (fun acc candidate =>
             match data_of candidate with
             | Some data => dict_add (Some data) candidate acc
             | None => acc
             end) acc l in
  NoDup result.*1
  /\ forall k ap, ap ∈ dict_get k result -> exists d, data_of ap = Some d /\ k = Some d.
Proof.
  revert acc. induction l as [|c l IH]; intros acc Hnd Hacc; [now split|].
  simpl. destruct (data_of c) as [d|] eqn:Hd; [|now apply IH].
  apply IH; [now apply dict_add_NoDup|].
  intros k ap H. apply elem_of_dict_get_add in H as [H | [-> ->]]; [now apply Hacc|].
  now exists d.
Qed.

Lemma dict_at_most_one_data (d : RuleEvaluationResults) :
  NoDup d.*1 ->
  (forall ap k1 k2, ap ∈ dict_get k1 d -> ap ∈ dict_get k2 d -> k1 = k2) ->
  at_most_one_data d.
Proof.
  intros Hnd H. apply at_most_one_entry_data. now apply at_most_one_entry_of_dict.
Qed.

Lemma group_by_evaluation_data_dict
    (data_of : AssetKeyPartitionKey -> option AutoMaterializeRuleEvaluationData)
    (to_evaluate : gset AssetKeyPartitionKey) :
  NoDup (group_by_evaluation_data data_of to_evaluate).*1
  /\ at_most_one_data (group_by_evaluation_data data_of to_evaluate).
Proof.
  destruct (group_by_fold data_of (elements to_evaluate) []) as [Hnd Hdata].
  - constructor.
  - intros k ap H. now apply elem_of_empty in H.
  - split; [exact Hnd|]. apply dict_at_most_one_data; [exact Hnd|].
    intros ap k1 k2 H1 H2.
    apply Hdata in H1 as (d1 & E1 & ->). apply Hdata in H2 as (d2 & E2 & ->). congruence.
Qed.

Lemma fresh_evaluation_data_dict (rule : AutoMaterializeRule) (context : RuleEvaluationContext) :
  NoDup (fresh_evaluation_data rule context).*1
  /\ at_most_one_data (fresh_evaluation_data rule context).
Proof.
  assert (Hnil : NoDup ([] : RuleEvaluationResults).*1 /\ at_most_one_data []).
  { split; [constructor|]. intros ap e1 e2 H. now apply elem_of_nil in H. }
  destruct rule; simpl; try exact Hnil; try apply group_by_evaluation_data_dict.
  unfold missing_fresh. case_bool_decide; [|exact Hnil].
  split; [apply NoDup_singleton|].
  intros ap e1 e2 H1 H2 _ _.
  apply list_elem_of_singleton in H1, H2. now subst.
Qed.

Lemma evaluate_for_asset_carry_forward
    (rule : AutoMaterializeRule) (context : RuleEvaluationContext) :
  uses_carry_forward rule = true ->
  evaluate_for_asset rule context
  = carry_forward (get_previous_tick_results context rule)
      (fresh_evaluation_data rule context) (should_use_past_data_fn rule context).
Proof. destruct rule; simpl; intros H; try discriminate H; reflexivity. Qed.

(** C2: for every rule that ends with the carry-forward combinator, the
    result is a dictionary in which a partition that received freshly
    computed data this tick lies exactly under the data computed this tick;
    a partition lies under a piece of data that was not computed for it this
    tick only if it received no fresh data this tick, the previous tick's
    results have it under that data, and the predicate of the rule returned
    True for it; and if the previous results have at most one entry (or just
    at most one piece of data) per partition, the result has at most one
    entry per partition. *)
Theorem carry_forward_keeps_current_data
    (rule : AutoMaterializeRule) (context : RuleEvaluationContext)
    (Huses : uses_carry_forward rule = true) :
  let previous_results := get_previous_tick_results context rule in
  let current := fresh_evaluation_data rule context in
  let evaluated := dict_values_union current in
  let result := evaluate_for_asset rule context in
  NoDup result.*1
  /\ (forall ap k, ap ∈ evaluated -> ap ∈ dict_get k result <-> ap ∈ dict_get k current)
  /\ (forall ap k,
        ap ∈ dict_get k result -> ap ∉ dict_get k current ->
        (ap ∉ evaluated)
        /\ (exists s, (k, s) ∈ previous_results /\ ap ∈ s)
        /\ exists acc, should_use_past_data_fn rule context acc ap = true)
  /\ (at_most_one_data previous_results -> at_most_one_entry result)
  /\ (at_most_one_entry previous_results -> at_most_one_entry result).
Proof.
  intros previous_results current evaluated result.
  destruct (fresh_evaluation_data_dict rule context) as [Hnd Hone].
  pose proof (carry_forward_spec previous_results current
                (should_use_past_data_fn rule context) Hnd Hone) as H.
  unfold result. rewrite (evaluate_for_asset_carry_forward rule context Huses).
  destruct H as (H1 & H2 & H3 & H4).
  split; [exact H1|]. split; [exact H2|]. split; [exact H3|]. split; [exact H4|].
  intros Hentry. now apply H4, at_most_one_entry_data.
Qed.

(** ** Updated parents *)

Lemma group_by_evaluation_data_ext
    (f g : AssetKeyPartitionKey -> option AutoMaterializeRuleEvaluationData)
    (to_evaluate : gset AssetKeyPartitionKey) :
  (forall ap, ap ∈ to_evaluate -> f ap = g ap) ->
  group_by_evaluation_data f to_evaluate = group_by_evaluation_data g to_evaluate.
Proof.
  intros H. unfold group_by_evaluation_data.
  assert (Hl : forall ap, ap ∈ elements to_evaluate -> f ap = g ap)
    by (intros ap Hap; apply H; now apply elem_of_elements).
  generalize ([] : RuleEvaluationResults) as acc.
  induction (elements to_evaluate) as [|c l IH]; intros acc; [reflexivity|].
  simpl. rewrite (Hl c) by (apply elem_of_cons; now left).
  apply IH. intros ap Hap. apply Hl, elem_of_cons. now right.
Qed.

Lemma parent_updated_fresh_data (context : RuleEvaluationContext) k ap :
  ap ∈ dict_get k (parent_updated_fresh context) ->
  exists data, parent_updated_data context ap = Some data /\ k = Some data.
Proof.
  unfold parent_updated_fresh, group_by_evaluation_data.
  destruct (group_by_fold (parent_updated_data context)
              (elements (parent_updated_has_or_will_update context)) []) as [_ H].
  - constructor.
  - intros k' ap' H'. now apply elem_of_empty in H'.
  - apply H.
Qed.

(** C9: for every asset partition the rule looks at, the queryer is asked
    about that partition and its parent partitions, with the data versions
    respected exactly when the daemon respects them and the parent partitions
    together with the has-or-will-update set number fewer than 100, and with
    the asset's own key as the only ignored parent key; the freshly computed
    data depend on the queryer through these calls only; and when the queryer
    leaves out the parents with an ignored key, the asset's own key is never
    among the updated keys computed this tick. *)
Theorem parent_updated_calls (context : RuleEvaluationContext) :
  (forall ap,
     let parents :=
       parent_partitions
         (get_parents_partitions (asset_graph context) (ap_asset_key ap) (partition_key ap)) in
     let call := parent_updated_call context ap in
     call_asset_partition call = ap
     /\ call_parent_asset_partitions call = parents
     /\ (call_respect_materialization_data_versions call = true
         <-> respect_materialization_data_versions (daemon_context context) = true
             /\ (size (parents ∪ parent_updated_has_or_will_update context) < 100)%nat)
     /\ call_ignored_parent_keys call = {[asset_key context]})
  /\ (forall updated_after_child,
        (forall ap, ap ∈ parent_updated_has_or_will_update context ->
           let call := parent_updated_call context ap in
           updated_after_child (call_asset_partition call)
             (call_parent_asset_partitions call)
             (call_respect_materialization_data_versions call)
             (call_ignored_parent_keys call)
           = run_call (instance_queryer context) call) ->
        parent_updated_fresh (with_updated_after_child context updated_after_child)
        = parent_updated_fresh context)
  /\ ((forall call parent,
         parent ∈ run_call (instance_queryer context) call ->
         ap_asset_key parent ∉ call_ignored_parent_keys call) ->
      forall ap updated will_update,
        ap ∈ dict_get (Some (ParentUpdatedRuleEvaluationData updated will_update))
               (parent_updated_fresh context) ->
        asset_key context ∉ updated).
Proof.
  split; [|split].
  - intros ap parents call.
    split; [reflexivity|]. split; [reflexivity|]. split; [|reflexivity].
    unfold call, parent_updated_call. simpl. fold parents.
    rewrite andb_true_iff, bool_decide_eq_true. reflexivity.
  - intros f Hf. unfold parent_updated_fresh.
    change (parent_updated_has_or_will_update (with_updated_after_child context f))
      with (parent_updated_has_or_will_update context).
    apply group_by_evaluation_data_ext. intros ap Hap.
    unfold parent_updated_data.
    assert (E : run_call (instance_queryer (with_updated_after_child context f))
                  (parent_updated_call (with_updated_after_child context f) ap)
                = run_call (instance_queryer context) (parent_updated_call context ap))
      by (rewrite <- (Hf ap Hap); reflexivity).
    rewrite E. reflexivity.
  - intros Hcontract ap updated will_update Hap Hself.
    apply parent_updated_fresh_data in Hap as (data & Hdata & Hk).
    injection Hk as <-. unfold parent_updated_data in Hdata.
    case_bool_decide; [|discriminate Hdata]. injection Hdata as <- _.
    apply elem_of_map in Hself as (parent & Hkey & Hparent).
    apply Hcontract in Hparent. apply Hparent.
    change (ap_asset_key parent) with parent.1. rewrite <- Hkey.
    simpl. now apply elem_of_singleton.
Qed.

(** ** What the pipeline and the rules guarantee about candidates *)

Lemma requested_subseteq_to_materialize
    (rules : list AutoMaterializeRule) (context : RuleEvaluationContext) :
  requested (evaluate_asset rules context) ⊆ to_materialize (evaluate_asset rules context).
Proof. unfold evaluate_asset. simpl. intros ap Hap. now do 2 apply elem_of_difference in Hap as [Hap _]. Qed.

Lemma backfill_subseteq_candidates (all_partitions : bool) (context : RuleEvaluationContext) :
  dict_values_union (evaluate_for_asset (SkipOnBackfillInProgressRule all_partitions) context)
  ⊆ candidates context.
Proof.
  rewrite backfill_results. unfold backfill_in_progress_candidates.
  destruct all_partitions; intros ap Hap; now apply elem_of_filter in Hap as [_ Hap].
Qed.

Lemma discard_subseteq_candidates (limit : Z) (context : RuleEvaluationContext) :
  dict_values_union
    (evaluate_for_asset (DiscardOnMaxMaterializationsExceededRule limit) context)
  ⊆ candidates context.
Proof.
  intros ap Hap. simpl in Hap.
  assert (H : ap ∈ rate_limited_asset_partitions context (elements (candidates context)) limit).
  { case_bool_decide as E.
    - now rewrite dict_values_union_singleton in Hap.
    - apply elem_of_dict_values_union in Hap as (e & He & _). now apply elem_of_nil in He. }
  unfold rate_limited_asset_partitions, py_slice_from in H.
  apply elem_of_list_to_set in H.
  apply subseteq_drop in H.
  rewrite py_sorted_Permutation in H. now apply elem_of_elements.
Qed.

Lemma group_by_fold_subseteq
    (data_of : AssetKeyPartitionKey -> option AutoMaterializeRuleEvaluationData)
    (universe : gset AssetKeyPartitionKey)
    (l : list AssetKeyPartitionKey) (acc : RuleEvaluationResults) :
  (forall c, c ∈ l -> c ∈ universe) ->
  (forall k ap, ap ∈ dict_get k acc -> ap ∈ universe) ->
  forall k ap,
    ap ∈ dict_get k
           (foldl (fun acc candidate =>
                     match data_of candidate with
                     | Some data => dict_add (Some data) candidate acc
                     | None => acc
                     end) acc l) ->
    ap ∈ universe.
Proof.
  revert acc. induction l as [|c l IH]; intros acc Hl Hacc; [exact Hacc|].
  simpl. apply IH.
  - intros c' H. apply Hl, elem_of_cons. now right.
  - destruct (data_of c) as [d|]; [|exact Hacc].
    intros k ap H. apply elem_of_dict_get_add in H as [H | [_ ->]]; [now apply (Hacc k)|].
    apply Hl, elem_of_cons. now left.
Qed.

Lemma group_by_evaluation_data_subseteq
    (data_of : AssetKeyPartitionKey -> option AutoMaterializeRuleEvaluationData)
    (to_evaluate : gset AssetKeyPartitionKey) k ap :
  ap ∈ dict_get k (group_by_evaluation_data data_of to_evaluate) -> ap ∈ to_evaluate.
Proof.
  apply group_by_fold_subseteq.
  - intros c. now rewrite elem_of_elements.
  - intros k' ap' H. now apply elem_of_empty in H.
Qed.

Lemma candidates_to_evaluate_subseteq (context : RuleEvaluationContext) :
  candidates_to_evaluate context ⊆ candidates context.
Proof.
  unfold candidates_to_evaluate, get_candidates_not_evaluated_by_rule_on_previous_tick,
    get_candidates_with_updated_or_will_update_parents.
  intros ap H. apply elem_of_union in H as [H | H].
  - now apply elem_of_difference in H as [H _].
  - now apply elem_of_intersection in H as [H _].
Qed.

(** What does hold of the skip and discard rules: a partition in the
    results is a candidate, or the rule carries data forward and the
    partition comes from the previous tick's results of the rule. *)
Lemma skip_or_discard_results
    (rule : AutoMaterializeRule) (context : RuleEvaluationContext) ap :
  decision_type rule <> MATERIALIZE ->
  ap ∈ dict_values_union (evaluate_for_asset rule context) ->
  ap ∈ candidates context
  \/ (uses_carry_forward rule = true
      /\ ap ∈ dict_values_union (get_previous_tick_results context rule)).
Proof.
  intros Hdecision Hap.
  destruct (uses_carry_forward rule) eqn:Huses.
  - rewrite (evaluate_for_asset_carry_forward rule context Huses) in Hap.
    destruct (fresh_evaluation_data_dict rule context) as [Hfnd Hfone].
    destruct (carry_forward_spec (get_previous_tick_results context rule)
                (fresh_evaluation_data rule context)
                (should_use_past_data_fn rule context) Hfnd Hfone)
      as (Hnd & _ & Hcarried & _).
    apply elem_of_dict_values_union in Hap as ([k s] & He & Hs). simpl in Hs.
    rewrite <- (dict_get_entry _ k s Hnd He) in Hs.
    destruct (decide (ap ∈ dict_get k (fresh_evaluation_data rule context))) as [Hf | Hf].
    + left. destruct rule; try discriminate Huses; try (now contradiction Hdecision);
        simpl in Hf; apply group_by_evaluation_data_subseteq in Hf;
        try (now apply candidates_to_evaluate_subseteq).
      unfold get_candidates_not_evaluated_by_rule_on_previous_tick in Hf.
      now apply elem_of_difference in Hf as [Hf _].
    + right. split; [reflexivity|].
      destruct (Hcarried ap k Hs Hf) as (_ & (s' & Hs' & Hap') & _).
      apply elem_of_dict_values_union. now exists (k, s').
  - left. destruct rule; try discriminate Huses; try (now contradiction Hdecision).
    + now apply (backfill_subseteq_candidates all_partitions context).
    + now apply (discard_subseteq_candidates limit context).
Qed.

(** ** The rules on concrete ticks *)

Lemma example_queryer_ignores (context : RuleEvaluationContext) call parent :
  instance_queryer context = example_queryer ->
  parent ∈ run_call (instance_queryer context) call ->
  ap_asset_key parent ∉ call_ignored_parent_keys call.
Proof.
  intros ->. unfold run_call. simpl. rewrite elem_of_filter. now intros [H _].
Qed.

Lemma carry_forward_keeps_current_data_witness :
  at_most_one_entry
    (evaluate_for_asset SkipOnParentMissingRule example_context_two_candidates)
  /\ evaluate_for_asset SkipOnParentMissingRule example_context_two_candidates
     = [(Some (WaitingOnAssetsRuleEvaluationData {["up"]}),
         {[example_partition "p2"; example_partition "p1"]})].
Proof.
  split; [|compute_done].
  destruct (carry_forward_keeps_current_data SkipOnParentMissingRule
              example_context_two_candidates eq_refl) as (_ & _ & _ & H & _).
  apply H.
  assert (E : get_previous_tick_results example_context_two_candidates
                SkipOnParentMissingRule
              = [(Some (WaitingOnAssetsRuleEvaluationData {["up"]}),
                  {[example_partition "p1"]})]) by compute_done.
  rewrite E. intros ap e1 e2 H1 H2 _ _.
  apply list_elem_of_singleton in H1, H2. now subst.
Defined.


Lemma parent_updated_calls_witness :
  parent_updated_fresh (example_context None {[example_partition "p1"]} ∅)
  = [(Some (ParentUpdatedRuleEvaluationData {["up"]} ∅), {[example_partition "p1"]})]
  /\ asset_key (example_context None {[example_partition "p1"]} ∅)
     ∉ ({["up"]} : gset AssetKey).
Proof.
  split; [compute_done|].
  apply (proj2 (proj2 (parent_updated_calls
                         (example_context None {[example_partition "p1"]} ∅)))
           (fun call parent =>
              example_queryer_ignores
                (example_context None {[example_partition "p1"]} ∅) call parent eq_refl)
           (example_partition "p1") {["up"]} ∅).
  compute_done.
Defined.

(** ** Skip rules and their candidates *)

(** C1, on the code: partition [p1] was skipped on the previous tick because
    its parent was missing; on this tick no materialize rule fires, so the
    skip rules are given no candidate, and SkipOnParentMissingRule still
    returns [p1], carried forward from the previous tick.  In the pipeline
    the skipped set is then not included in the materialize-rule union. *)
Theorem skip_rule_returns_non_candidate :
  candidates example_context_without_candidates = ∅
  /\ evaluate_for_asset SkipOnParentMissingRule example_context_without_candidates
     = [(Some (WaitingOnAssetsRuleEvaluationData {["up"]}), {[example_partition "p1"]})]
  /\ ~ dict_values_union
         (evaluate_for_asset SkipOnParentMissingRule example_context_without_candidates)
       ⊆ candidates example_context_without_candidates
  /\ to_materialize
       (evaluate_asset [MaterializeOnRequiredForFreshnessRule; SkipOnParentMissingRule]
          example_context_without_candidates) = ∅
  /\ to_skip
       (evaluate_asset [MaterializeOnRequiredForFreshnessRule; SkipOnParentMissingRule]
          example_context_without_candidates) = {[example_partition "p1"]}.
Proof.
  split; [reflexivity|]. split; [compute_done|]. split; [compute_done|].
  split; compute_done.
Qed.

Lemma backfill_in_progress_exact_witness :
  evaluate_for_asset (SkipOnBackfillInProgressRule true) example_context_two_candidates
  = [(None, {[example_partition "p1"; example_partition "p2"]})]
  /\ evaluate_for_asset (SkipOnBackfillInProgressRule false) example_context_two_candidates
     = [(None, {[example_partition "p1"]})].
Proof.
  split.
  - pose proof (backfill_in_progress_exact true example_context_two_candidates) as H.
    cbv zeta in H. destruct H as (_ & _ & _ & _ & H).
    rewrite H by compute_done. compute_done.
  - pose proof (backfill_in_progress_exact false example_context_two_candidates) as H.
    cbv zeta in H. destruct H as (_ & _ & _ & _ & H).
    rewrite H by compute_done. compute_done.
Defined.

(** When two candidates share a sort key the sort keeps them in the order
    of the iteration, so the discarded set depends on that order: the
    hypothesis on the keys cannot be dropped. *)
Lemma rate_limited_ties_follow_iteration_order :
  rate_limited_asset_partitions example_context_ten_candidates
    [example_partition "x1"; example_partition "x2"] 1
  = {[example_partition "x2"]}
  /\ rate_limited_asset_partitions example_context_ten_candidates
       [example_partition "x2"; example_partition "x1"] 1
     = {[example_partition "x1"]}.
Proof. split; compute_done. Qed.

(** * Further properties of the code *)

Implicit Types data : option AutoMaterializeRuleEvaluationData.
Implicit Types self : AutoMaterializeAssetEvaluation.
Implicit Types asset_graph : AssetGraph.
Implicit Types rule_evaluation : AutoMaterializeRuleEvaluation.
Implicit Types ss : option SerializedPartitionsSubset.
Implicit Types snapshot : AutoMaterializeRuleSnapshot.
Implicit Types decision : AutoMaterializeDecisionType.
Implicit Types conditions :
  list (AutoMaterializeRuleEvaluation * option SerializedPartitionsSubset).

(** ** Equality of rules *)

Lemma rule_eq_iff (r1 r2 : AutoMaterializeRule) : rule_eq r1 r2 = true <-> r1 = r2.
Proof.
  unfold rule_eq. rewrite andb_true_iff, bool_decide_eq_true. split.
  - intros [Hc Hf].
    destruct r1 as [| | | | |b1| |b1|n1], r2 as [| | | | |b2| |b2|n2];
      try discriminate Hc; try reflexivity; simpl in Hf;
      unfold py_val_eqb in Hf; simpl in Hf; rewrite andb_true_r in Hf;
      apply Z.eqb_eq in Hf.
    + destruct b1, b2; try reflexivity; discriminate Hf.
    + destruct b1, b2; try reflexivity; discriminate Hf.
    + now subst.
  - intros <-. split; [reflexivity|].
    destruct r1; simpl; try reflexivity; unfold py_val_eqb; now rewrite Z.eqb_refl.
Qed.

(** X1: The overridden [__eq__] is equality of the class and of the fields: it
    holds exactly for two instances of the same class with the same field
    values, and equal rules have equal hashes.  The test on the classes is
    needed: the field tuples of [SkipOnBackfillInProgressRule(b)] and
    [DiscardOnMaxMaterializationsExceededRule(n)] compare equal when [n] is
    the integer value of [b], and the two rules are unequal all the same. *)
Theorem rule_eq_is_equality
    (hash_type : RuleClass -> Z) (hash_tuple : list PyVal -> Z)
    (r1 r2 : AutoMaterializeRule) :
  (rule_eq r1 r2 = true <-> r1 = r2)
  /\ rule_eq r1 r2 = rule_eq r2 r1
  /\ (rule_eq r1 r2 = true ->
      rule_hash hash_type hash_tuple r1 = rule_hash hash_type hash_tuple r2)
  /\ (forall (b : bool) (n : Z),
        (tuple_eqb (fields (SkipOnBackfillInProgressRule b))
           (fields (DiscardOnMaxMaterializationsExceededRule n)) = true
         <-> n = if b then 1 else 0)
        /\ rule_eq (SkipOnBackfillInProgressRule b)
             (DiscardOnMaxMaterializationsExceededRule n) = false).
Proof.
  split; [apply rule_eq_iff|]. split; [|split].
  - destruct (rule_eq r1 r2) eqn:E1, (rule_eq r2 r1) eqn:E2; try reflexivity.
    + apply rule_eq_iff in E1. subst r2.
      rewrite (proj2 (rule_eq_iff r1 r1) eq_refl) in E2. discriminate E2.
    + apply rule_eq_iff in E2. subst r2.
      rewrite (proj2 (rule_eq_iff r1 r1) eq_refl) in E1. discriminate E1.
  - intros H. apply rule_eq_iff in H. now subst.
  - intros b n. split; [|reflexivity].
    simpl. unfold py_val_eqb. simpl. rewrite andb_true_r, Z.eqb_eq.
    split; intros H; now rewrite H.
Qed.

(** ** What is read back from a stored evaluation *)

Lemma deserialize_result_inv self rule_evaluation ss asset_graph data
    (asset_partitions : gset AssetKeyPartitionKey) :
  _deserialize_rule_evaluation_result self rule_evaluation ss asset_graph
  = Some (data, asset_partitions) ->
  data = evaluation_data rule_evaluation
  /\ forall ap, ap ∈ asset_partitions ->
       ap_asset_key ap = eval_asset_key self
       /\ (is_Some (partition_key ap)
           <-> is_Some (get_partitions_def asset_graph (eval_asset_key self))).
Proof.
  unfold _deserialize_rule_evaluation_result.
  destruct ss as [s|], (get_partitions_def asset_graph (eval_asset_key self)) as [pd|];
    simpl; try discriminate.
  - destruct (can_deserialize_subset pd s); [|discriminate].
    intros H. injection H as <- <-. split; [reflexivity|].
    intros ap Hap. apply elem_of_map in Hap as (pk & -> & _). simpl.
    split; [reflexivity|]. split; eauto.
  - intros H. injection H as <- <-. split; [reflexivity|].
    intros ap Hap. apply elem_of_singleton in Hap as ->. simpl.
    split; [reflexivity|]. split; intros [? ?]; discriminate.
Qed.

Lemma elem_of_rule_evaluation_results_of self snapshot asset_graph conditions
    (result : option AutoMaterializeRuleEvaluationData * gset AssetKeyPartitionKey) :
  result ∈ rule_evaluation_results_of self snapshot asset_graph conditions
  <-> exists rule_evaluation ss,
        (rule_evaluation, ss) ∈ conditions
        /\ rule_snapshot rule_evaluation = snapshot
        /\ _deserialize_rule_evaluation_result self rule_evaluation ss asset_graph
           = Some result.
Proof.
  induction conditions as [|[re ss] rest IH]; simpl.
  - split; [intros H; now apply elem_of_nil in H|].
    intros (? & ? & H & _). now apply elem_of_nil in H.
  - assert (Hrest : (exists rule_evaluation ss0,
                       (rule_evaluation, ss0) ∈ rest
                       /\ rule_snapshot rule_evaluation = snapshot
                       /\ _deserialize_rule_evaluation_result self rule_evaluation ss0
                            asset_graph = Some result) ->
                    exists rule_evaluation ss0,
                      (rule_evaluation, ss0) ∈ (re, ss) :: rest
                      /\ rule_snapshot rule_evaluation = snapshot
                      /\ _deserialize_rule_evaluation_result self rule_evaluation ss0
                           asset_graph = Some result).
    { intros (re' & ss' & Hin & H). exists re', ss'. split; [|exact H].
      apply elem_of_cons. now right. }
    case_bool_decide as Hsnap.
    + rewrite IH. split; [exact Hrest|].
      intros (re' & ss' & Hin & Hs & Hd). apply elem_of_cons in Hin as [E | Hin].
      * injection E as -> ->. contradiction.
      * eauto.
    + destruct (_deserialize_rule_evaluation_result self re ss asset_graph)
        as [res|] eqn:E.
      * rewrite elem_of_cons, IH. split.
        -- intros [-> | H]; [|now apply Hrest].
           exists re, ss. split; [apply elem_of_cons; now left | now split].
        -- intros (re' & ss' & Hin & Hs & Hd). apply elem_of_cons in Hin as [E' | Hin].
           ++ injection E' as -> ->. left. congruence.
           ++ right. eauto.
      * rewrite IH. split; [exact Hrest|].
        intros (re' & ss' & Hin & Hs & Hd). apply elem_of_cons in Hin as [E' | Hin].
        -- injection E' as -> ->. congruence.
        -- eauto.
Qed.

Lemma elem_of_asset_partitions_with_decision_type_of
    self decision asset_graph conditions (acc : gset AssetKeyPartitionKey) ap :
  ap ∈ asset_partitions_with_decision_type_of self decision asset_graph conditions acc
  <-> ap ∈ acc
      \/ exists rule_evaluation ss data (asset_partitions : gset AssetKeyPartitionKey),
           (rule_evaluation, ss) ∈ conditions
           /\ snap_decision_type (rule_snapshot rule_evaluation) = decision
           /\ _deserialize_rule_evaluation_result self rule_evaluation ss asset_graph
              = Some (data, asset_partitions)
           /\ ap ∈ asset_partitions.
Proof.
  revert acc. induction conditions as [|[re ss] rest IH]; intros acc; simpl.
  - split; [now left|]. intros [H | (? & ? & ? & ? & H & _)]; [exact H|].
    now apply elem_of_nil in H.
  - assert (Hrest : forall re' ss' (P : Prop),
               (re', ss') ∈ rest /\ P -> (re', ss') ∈ (re, ss) :: rest /\ P).
    { intros re' ss' P [Hin HP]. split; [apply elem_of_cons; now right | exact HP]. }
    case_bool_decide as Hdec.
    + rewrite IH. split.
      * intros [H | (re' & ss' & d & aps & H)]; [now left|].
        right. exists re', ss', d, aps. now apply Hrest.
      * intros [H | (re' & ss' & d & aps & Hin & Hd & H)]; [now left|].
        apply elem_of_cons in Hin as [E | Hin].
        -- injection E as -> ->. contradiction.
        -- right. exists re', ss', d, aps. auto.
    + destruct (_deserialize_rule_evaluation_result self re ss asset_graph)
        as [[d0 aps0]|] eqn:E.
      * rewrite IH. simpl. rewrite elem_of_union. split.
        -- intros [[H | H] | (re' & ss' & d & aps & H)].
           ++ now left.
           ++ right. exists re, ss, d0, aps0.
              split; [apply elem_of_cons; now left | auto].
           ++ right. exists re', ss', d, aps. now apply Hrest.
        -- intros [H | (re' & ss' & d & aps & Hin & Hd & Hs & H)]; [now left; left|].
           apply elem_of_cons in Hin as [E' | Hin].
           ++ injection E' as -> ->. left. right. congruence.
           ++ right. exists re', ss', d, aps. auto.
      * rewrite IH. split.
        -- intros [H | (re' & ss' & d & aps & H)]; [now left|].
           right. exists re', ss', d, aps. now apply Hrest.
        -- intros [H | (re' & ss' & d & aps & Hin & Hd & Hs & H)]; [now left|].
           apply elem_of_cons in Hin as [E' | Hin].
           ++ injection E' as -> ->. congruence.
           ++ right. exists re', ss', d, aps. auto.
Qed.

Lemma elem_of_asset_partitions_with_decision_type self decision asset_graph ap :
  ap ∈ _get_asset_partitions_with_decision_type self decision asset_graph
  <-> exists rule_evaluation ss data (asset_partitions : gset AssetKeyPartitionKey),
        (rule_evaluation, ss) ∈ partition_subsets_by_condition self
        /\ snap_decision_type (rule_snapshot rule_evaluation) = decision
        /\ _deserialize_rule_evaluation_result self rule_evaluation ss asset_graph
           = Some (data, asset_partitions)
        /\ ap ∈ asset_partitions.
Proof.
  unfold _get_asset_partitions_with_decision_type.
  rewrite elem_of_asset_partitions_with_decision_type_of. split.
  - intros [H | H]; [now apply elem_of_empty in H | exact H].
  - now right.
Qed.

(** X2: Every asset partition read back from a stored evaluation is a partition
    of the evaluated asset, with a partition key exactly when the asset has
    a partitions definition now; the data of a result is the data of a stored
    entry with the requested snapshot; and the requested-or-discarded
    partitions are among the evaluated ones and were not skipped. *)
Theorem stored_partitions_belong_to_asset
    (self : AutoMaterializeAssetEvaluation) (asset_graph : AssetGraph) :
  let well_formed (ap : AssetKeyPartitionKey) :=
    ap_asset_key ap = eval_asset_key self
    /\ (is_Some (partition_key ap)
        <-> is_Some (get_partitions_def asset_graph (eval_asset_key self))) in
  (forall snapshot result,
     result ∈ get_rule_evaluation_results self snapshot asset_graph ->
     (exists rule_evaluation ss,
        (rule_evaluation, ss) ∈ partition_subsets_by_condition self
        /\ rule_snapshot rule_evaluation = snapshot
        /\ evaluation_data rule_evaluation = result.1)
     /\ forall ap, ap ∈ result.2 -> well_formed ap)
  /\ (forall decision ap,
        ap ∈ _get_asset_partitions_with_decision_type self decision asset_graph ->
        well_formed ap)
  /\ (forall ap,
        ap ∈ get_requested_or_discarded_asset_partitions self asset_graph
        <-> ap ∈ get_evaluated_asset_partitions self asset_graph
            /\ ap ∉ _get_asset_partitions_with_decision_type self SKIP asset_graph).
Proof.
  intros well_formed. split; [|split].
  - intros snapshot [data aps] H.
    apply elem_of_rule_evaluation_results_of in H as (re & ss & Hin & Hs & Hd).
    apply deserialize_result_inv in Hd as [-> Hwf]. split; [|exact Hwf].
    exists re, ss. auto.
  - intros decision ap H.
    apply elem_of_asset_partitions_with_decision_type in H
      as (re & ss & d & aps & _ & _ & Hd & Hap).
    apply deserialize_result_inv in Hd as [_ Hwf]. now apply Hwf.
  - intros ap. unfold get_requested_or_discarded_asset_partitions,
      get_evaluated_asset_partitions.
    case_bool_decide as E.
    + rewrite E. split; [intros H | intros [H _]]; now apply elem_of_empty in H.
    + apply elem_of_difference.
Qed.

(** ** Building a stored evaluation and reading it back *)

Lemma checked_partition_keys_returns (asset_partitions : gset AssetKeyPartitionKey) :
  (forall ap, ap ∈ asset_partitions -> is_Some (partition_key ap)) ->
  checked_partition_keys asset_partitions
  = Returns (partition_keys_of asset_partitions).
Proof.
  intros H. unfold checked_partition_keys.
  rewrite bool_decide_eq_false_2; [reflexivity|].
  intros (ap & Hap & Hnone). destruct (H ap Hap) as [pk Hpk]. congruence.
Qed.

Lemma checked_partition_keys_raises (asset_partitions : gset AssetKeyPartitionKey) ap :
  ap ∈ asset_partitions -> partition_key ap = None ->
  checked_partition_keys asset_partitions = Raises "Expected non-None value".
Proof.
  intros Hap Hnone. unfold checked_partition_keys.
  rewrite bool_decide_eq_true_2; [reflexivity|]. now exists ap.
Qed.

Lemma partitions_of_keys (key : AssetKey) (asset_partitions : gset AssetKeyPartitionKey) :
  (forall ap, ap ∈ asset_partitions ->
     ap_asset_key ap = key /\ is_Some (partition_key ap)) ->
  set_map (fun pk : PartitionKey => (key, Some pk)) (partition_keys_of asset_partitions)
  =@{gset AssetKeyPartitionKey} asset_partitions.
Proof.
  intros H. unfold partition_keys_of. apply set_eq. intros [a p]. rewrite elem_of_map. split.
  - intros (pk & E & Hpk). injection E as -> ->.
    apply elem_of_set_omap in Hpk as ([a' p'] & Hin & Hp).
    destruct (H _ Hin) as [Ha _]. unfold ap_asset_key, partition_key in *.
    simpl in *. now subst.
  - intros Hin. destruct (H _ Hin) as [Ha [pk Hp]].
    unfold ap_asset_key, partition_key in *. simpl in *. subst.
    exists pk. split; [reflexivity|]. apply elem_of_set_omap.
    now exists (key, Some pk).
Qed.

Section FromRuleEvaluationResultsProperties.
Variable auto_materialize_policies_by_key : gmap AssetKey (list AutoMaterializeRuleSnapshot).
Variable from_subset : PartitionsDefinition -> gset PartitionKey -> SerializedPartitionsSubset.

Implicit Types results : list (AutoMaterializeRuleEvaluation * gset AssetKeyPartitionKey).

Lemma serialized_conditions_returns (partitions_def : PartitionsDefinition) results :
  (forall entry ap, entry ∈ results -> ap ∈ entry.2 -> is_Some (partition_key ap)) ->
  serialized_conditions from_subset partitions_def results
  = Returns
      (map (fun entry : AutoMaterializeRuleEvaluation * gset AssetKeyPartitionKey =>
              (entry.1, Some (from_subset partitions_def (partition_keys_of entry.2))))
           results).
Proof.
  induction results as [|[re aps] rest IH]; intros H; [reflexivity|].
  simpl. rewrite checked_partition_keys_returns.
  - rewrite IH; [reflexivity|]. intros entry ap He. apply H, elem_of_cons. now right.
  - intros ap Hap. apply (H (re, aps)); [apply elem_of_cons; now left | exact Hap].
Qed.

Lemma serialized_conditions_raises (partitions_def : PartitionsDefinition) results entry ap :
  entry ∈ results -> ap ∈ entry.2 -> partition_key ap = None ->
  serialized_conditions from_subset partitions_def results
  = Raises "Expected non-None value".
Proof.
  induction results as [|[re aps] rest IH]; intros He Hap Hnone.
  - now apply elem_of_nil in He.
  - simpl. destruct (checked_partition_keys aps) as [keys|message] eqn:E.
    + apply elem_of_cons in He as [-> | He].
      * simpl in Hap. rewrite (checked_partition_keys_raises aps ap Hap Hnone) in E.
        discriminate E.
      * now rewrite IH.
    + unfold checked_partition_keys in E. case_bool_decide; [|discriminate E].
      now injection E as <-.
Qed.

(** Reading back the entries built for a partitioned asset whose partitions
    definition deserializes what it serialized. *)
Lemma read_back_partitioned
    self asset_graph (partitions_def : PartitionsDefinition) snapshot results :
  get_partitions_def asset_graph (eval_asset_key self) = Some partitions_def ->
  (forall entry, entry ∈ results ->
     can_deserialize_subset partitions_def
       (from_subset partitions_def (partition_keys_of entry.2)) = true
     /\ deserialize_subset partitions_def
          (from_subset partitions_def (partition_keys_of entry.2))
        = partition_keys_of entry.2) ->
  (forall entry ap, entry ∈ results -> ap ∈ entry.2 ->
     ap_asset_key ap = eval_asset_key self /\ is_Some (partition_key ap)) ->
  rule_evaluation_results_of self snapshot asset_graph
    (map (fun entry : AutoMaterializeRuleEvaluation * gset AssetKeyPartitionKey =>
            (entry.1, Some (from_subset partitions_def (partition_keys_of entry.2))))
         results)
  = map (fun entry : AutoMaterializeRuleEvaluation * gset AssetKeyPartitionKey =>
           (evaluation_data entry.1, entry.2))
        (List.filter (fun entry => bool_decide (rule_snapshot entry.1 = snapshot)) results).
Proof.
  intros Hpd. induction results as [|[re aps] rest IH]; intros Hround H; [reflexivity|].
  assert (Hrest : forall entry ap, entry ∈ rest -> ap ∈ entry.2 ->
            ap_asset_key ap = eval_asset_key self /\ is_Some (partition_key ap))
    by (intros entry ap He; apply H, elem_of_cons; now right).
  assert (Hround' : forall entry, entry ∈ rest ->
            can_deserialize_subset partitions_def
              (from_subset partitions_def (partition_keys_of entry.2)) = true
            /\ deserialize_subset partitions_def
                 (from_subset partitions_def (partition_keys_of entry.2))
               = partition_keys_of entry.2)
    by (intros entry He; apply Hround, elem_of_cons; now right).
  simpl. rewrite (bool_decide_not (rule_snapshot re = snapshot)).
  destruct (bool_decide (rule_snapshot re = snapshot)); simpl; [|now apply IH].
  rewrite Hpd. simpl.
  destruct (Hround (re, aps)) as [Hc Hd]; [apply elem_of_cons; now left|].
  simpl in Hc, Hd. rewrite Hc.
  unfold deserialize. rewrite Hd, partitions_of_keys.
  - now rewrite (IH Hround' Hrest).
  - intros ap Hap. apply (H (re, aps)); [apply elem_of_cons; now left | exact Hap].
Qed.

Lemma read_back_unpartitioned self asset_graph snapshot results :
  get_partitions_def asset_graph (eval_asset_key self) = None ->
  rule_evaluation_results_of self snapshot asset_graph
    (map (fun entry : AutoMaterializeRuleEvaluation * gset AssetKeyPartitionKey =>
            (entry.1, None)) results)
  = map (fun entry : AutoMaterializeRuleEvaluation * gset AssetKeyPartitionKey =>
           (evaluation_data entry.1, {[ (eval_asset_key self, None) ]}))
        (List.filter (fun entry => bool_decide (rule_snapshot entry.1 = snapshot)) results).
Proof.
  intros Hpd. induction results as [|[re aps] rest IH]; [reflexivity|].
  simpl. rewrite (bool_decide_not (rule_snapshot re = snapshot)).
  destruct (bool_decide (rule_snapshot re = snapshot)); simpl; [|exact IH].
  rewrite Hpd. now rewrite IH.
Qed.

(** X3: Round trip for a partitioned asset: when the asset has a policy, its
    partitions definition deserializes the subsets serialized for the results, and the
    results only hold partitions of the asset with a partition key, the
    record is built, carries the counts and the policy's snapshots, and the
    results read back for a snapshot are the results given for it, in their
    order. *)
Theorem from_rule_evaluation_results_round_trip
    (asset_graph : AssetGraph) (key : AssetKey) (partitions_def : PartitionsDefinition)
    results (requested0 skipped0 discarded0 : Z)
    (policy : list AutoMaterializeRuleSnapshot)
    (Hpolicy : auto_materialize_policies_by_key !! key = Some policy)
    (Hpartitioned : get_partitions_def asset_graph key = Some partitions_def)
    (Hround : forall entry, entry ∈ results ->
        can_deserialize_subset partitions_def
          (from_subset partitions_def (partition_keys_of entry.2)) = true
        /\ deserialize_subset partitions_def
             (from_subset partitions_def (partition_keys_of entry.2))
           = partition_keys_of entry.2)
    (Hresults : forall entry ap, entry ∈ results -> ap ∈ entry.2 ->
        ap_asset_key ap = key /\ is_Some (partition_key ap)) :
  exists evaluation,
    from_rule_evaluation_results auto_materialize_policies_by_key from_subset
      asset_graph key results requested0 skipped0 discarded0 = Returns evaluation
    /\ eval_asset_key evaluation = key
    /\ (num_requested evaluation, num_skipped evaluation, num_discarded evaluation)
       = (requested0, skipped0, discarded0)
    /\ rule_snapshots evaluation = Some policy
    /\ forall snapshot,
         get_rule_evaluation_results evaluation snapshot asset_graph
         = map (fun entry : AutoMaterializeRuleEvaluation * gset AssetKeyPartitionKey =>
                  (evaluation_data entry.1, entry.2))
               (List.filter (fun entry => bool_decide (rule_snapshot entry.1 = snapshot))
                  results).
Proof.
  unfold from_rule_evaluation_results. rewrite Hpolicy, Hpartitioned.
  rewrite serialized_conditions_returns
    by (intros entry ap He Hap; now apply (Hresults entry ap He Hap)).
  eexists. split; [reflexivity|]. repeat split.
  intros snapshot. unfold get_rule_evaluation_results. simpl.
  now apply (read_back_partitioned _ _ partitions_def).
Qed.

(** X4: For an asset without partitions definition the partitions of the
    results are not stored: whatever sets are given, each result is read back
    as the single asset partition without partition key. *)
Theorem from_rule_evaluation_results_unpartitioned
    (asset_graph : AssetGraph) (key : AssetKey)
    results (requested0 skipped0 discarded0 : Z)
    (policy : list AutoMaterializeRuleSnapshot)
    (Hpolicy : auto_materialize_policies_by_key !! key = Some policy)
    (Hunpartitioned : get_partitions_def asset_graph key = None) :
  exists evaluation,
    from_rule_evaluation_results auto_materialize_policies_by_key from_subset
      asset_graph key results requested0 skipped0 discarded0 = Returns evaluation
    /\ partition_subsets_by_condition evaluation
       = map (fun entry : AutoMaterializeRuleEvaluation * gset AssetKeyPartitionKey =>
                (entry.1, None)) results
    /\ forall snapshot,
         get_rule_evaluation_results evaluation snapshot asset_graph
         = map (fun entry : AutoMaterializeRuleEvaluation * gset AssetKeyPartitionKey =>
                  (evaluation_data entry.1, {[ (key, None) ]}))
               (List.filter (fun entry => bool_decide (rule_snapshot entry.1 = snapshot))
                  results).
Proof.
  unfold from_rule_evaluation_results. rewrite Hpolicy, Hunpartitioned.
  eexists. split; [reflexivity|]. split; [reflexivity|].
  intros snapshot. unfold get_rule_evaluation_results. simpl.
  now apply read_back_unpartitioned.
Qed.

(** X5: When the record is built and when the call fails: it returns a record
    exactly when the asset has a policy and, if the asset is partitioned,
    every asset partition of the results has a partition key. *)
Theorem from_rule_evaluation_results_returns
    (asset_graph : AssetGraph) (key : AssetKey)
    results (requested0 skipped0 discarded0 : Z) :
  (exists evaluation,
     from_rule_evaluation_results auto_materialize_policies_by_key from_subset
       asset_graph key results requested0 skipped0 discarded0 = Returns evaluation)
  <-> is_Some (auto_materialize_policies_by_key !! key)
      /\ (is_Some (get_partitions_def asset_graph key) ->
          forall entry ap, entry ∈ results -> ap ∈ entry.2 -> is_Some (partition_key ap)).
Proof.
  unfold from_rule_evaluation_results.
  destruct (auto_materialize_policies_by_key !! key) as [policy|].
  - destruct (get_partitions_def asset_graph key) as [pd|].
    + split.
      * intros [evaluation H]. split; [eauto|]. intros _ entry ap He Hap.
        destruct (partition_key ap) as [pk|] eqn:Hpk; [eauto|].
        rewrite (serialized_conditions_raises pd results entry ap He Hap Hpk) in H.
        discriminate H.
      * intros [_ H]. rewrite serialized_conditions_returns by (apply H; eauto).
        eauto.
    + split; [|eauto]. intros _. split; [eauto|]. intros [? ?]. discriminate.
  - split; [intros [? ?]; discriminate | intros [[? ?] _]; discriminate].
Qed.
End FromRuleEvaluationResultsProperties.

(** ** What is carried forward *)

Lemma elem_of_dict_values_union_add k ap (ap' : AssetKeyPartitionKey)
    (d : RuleEvaluationResults) :
  ap' ∈ dict_values_union (dict_add k ap d) <-> ap' ∈ dict_values_union d \/ ap' = ap.
Proof.
  unfold dict_values_union. induction d as [|[k0 s] d IH]; csimpl.
  - rewrite elem_of_union, elem_of_singleton. split; [intros [H | H]; auto | tauto].
  - case_bool_decide as E; csimpl.
    + rewrite !elem_of_union, elem_of_singleton. tauto.
    + rewrite !elem_of_union, IH. tauto.
Qed.

Section CarryForwardComplete.
Variables previous_results current : RuleEvaluationResults.
Variable should_use : RuleEvaluationResults -> AssetKeyPartitionKey -> bool.

Let evaluated : gset AssetKeyPartitionKey := dict_values_union current.
Let loop (l : RuleEvaluationResults) (acc : RuleEvaluationResults) :=
  foldl (fun acc (entry : option AutoMaterializeRuleEvaluationData
                          * gset AssetKeyPartitionKey) =>
           foldl (carry_forward_step evaluated should_use entry.1) acc (elements entry.2))
        acc l.

Lemma carry_forward_step_grows k' (ap' : AssetKeyPartitionKey) k ap acc :
  ap' ∈ dict_get k' acc ->
  ap' ∈ dict_get k' (carry_forward_step evaluated should_use k acc ap).
Proof.
  intros H. unfold carry_forward_step.
  case_bool_decide; [exact H|]. destruct (should_use acc ap); [|exact H].
  apply elem_of_dict_get_add. now left.
Qed.

Lemma carry_forward_inner_grows k' (ap' : AssetKeyPartitionKey) k
    (l : list AssetKeyPartitionKey) acc :
  ap' ∈ dict_get k' acc ->
  ap' ∈ dict_get k' (foldl (carry_forward_step evaluated should_use k) acc l).
Proof.
  revert acc. induction l as [|ap l IH]; intros acc H; [exact H|].
  simpl. now apply IH, carry_forward_step_grows.
Qed.

Lemma carry_forward_loop_grows k' (ap' : AssetKeyPartitionKey) l acc :
  ap' ∈ dict_get k' acc -> ap' ∈ dict_get k' (loop l acc).
Proof.
  revert acc. induction l as [|[k s] l IH]; intros acc H; [exact H|].
  simpl. now apply IH, carry_forward_inner_grows.
Qed.

(** A partition of an entry that is not evaluated this tick ends under the
    data of the entry, unless the predicate refuses it at a moment when it is
    not yet there. *)
Lemma carry_forward_inner_adds k ap (l : list AssetKeyPartitionKey) acc :
  ap ∈ l -> ap ∉ evaluated ->
  (forall acc', should_use acc' ap = true \/ ap ∈ dict_get k acc') ->
  ap ∈ dict_get k (foldl (carry_forward_step evaluated should_use k) acc l).
Proof.
  intros Hl Hev Huse. revert acc.
  induction l as [|c l IH]; intros acc; [now apply elem_of_nil in Hl|].
  simpl. apply elem_of_cons in Hl as [<- | Hl]; [|now apply IH].
  apply carry_forward_inner_grows. unfold carry_forward_step.
  rewrite bool_decide_eq_false_2 by exact Hev.
  destruct (should_use acc ap) eqn:E.
  - apply elem_of_dict_get_add. now right.
  - destruct (Huse acc) as [H | H]; [congruence | exact H].
Qed.

Lemma carry_forward_loop_adds k s ap l acc :
  (k, s) ∈ l -> ap ∈ s -> ap ∉ evaluated ->
  (forall acc', should_use acc' ap = true \/ ap ∈ dict_get k acc') ->
  ap ∈ dict_get k (loop l acc).
Proof.
  intros Hl Hs Hev Huse. revert acc.
  induction l as [|[k0 s0] l IH]; intros acc; [now apply elem_of_nil in Hl|].
  simpl. apply elem_of_cons in Hl as [E | Hl]; [|now apply IH].
  injection E as <- <-. apply carry_forward_loop_grows. simpl.
  apply carry_forward_inner_adds; [now apply elem_of_elements | exact Hev | exact Huse].
Qed.

(** The same for the union of the values, when a refusal of the predicate
    means that the partition is already somewhere in the dictionary. *)
Lemma carry_forward_step_values (ap' : AssetKeyPartitionKey) k ap acc :
  ap' ∈ dict_values_union acc ->
  ap' ∈ dict_values_union (carry_forward_step evaluated should_use k acc ap).
Proof.
  intros H. unfold carry_forward_step.
  case_bool_decide; [exact H|]. destruct (should_use acc ap); [|exact H].
  apply elem_of_dict_values_union_add. now left.
Qed.

Lemma carry_forward_inner_values (ap' : AssetKeyPartitionKey) k
    (l : list AssetKeyPartitionKey) acc :
  ap' ∈ dict_values_union acc ->
  ap' ∈ dict_values_union (foldl (carry_forward_step evaluated should_use k) acc l).
Proof.
  revert acc. induction l as [|ap l IH]; intros acc H; [exact H|].
  simpl. now apply IH, carry_forward_step_values.
Qed.

Lemma carry_forward_loop_values (ap' : AssetKeyPartitionKey) l acc :
  ap' ∈ dict_values_union acc -> ap' ∈ dict_values_union (loop l acc).
Proof.
  revert acc. induction l as [|[k s] l IH]; intros acc H; [exact H|].
  simpl. now apply IH, carry_forward_inner_values.
Qed.

Lemma carry_forward_loop_adds_value k s ap l acc :
  (k, s) ∈ l -> ap ∈ s -> ap ∉ evaluated ->
  (forall acc', should_use acc' ap = true \/ ap ∈ dict_values_union acc') ->
  ap ∈ dict_values_union (loop l acc).
Proof.
  intros Hl Hs Hev Huse. revert acc.
  induction l as [|[k0 s0] l IH]; intros acc; [now apply elem_of_nil in Hl|].
  simpl. apply elem_of_cons in Hl as [E | Hl]; [|now apply IH].
  injection E as <- <-. apply carry_forward_loop_values. simpl.
  assert (Hin : ap ∈ elements s) by now apply elem_of_elements.
  revert acc. induction (elements s) as [|c l' IH']; intros acc;
    [now apply elem_of_nil in Hin|].
  simpl. apply elem_of_cons in Hin as [<- | Hin]; [|now apply IH'].
  apply carry_forward_inner_values. unfold carry_forward_step.
  rewrite bool_decide_eq_false_2 by exact Hev.
  destruct (should_use acc ap) eqn:E.
  - apply elem_of_dict_values_union_add. now right.
  - destruct (Huse acc) as [H | H]; [congruence | exact H].
Qed.

Lemma carry_forward_adds k s ap :
  (k, s) ∈ previous_results -> ap ∈ s -> ap ∉ evaluated ->
  (forall acc', should_use acc' ap = true \/ ap ∈ dict_get k acc') ->
  ap ∈ dict_get k (carry_forward previous_results current should_use).
Proof. apply carry_forward_loop_adds. Qed.

Lemma carry_forward_adds_value k s ap :
  (k, s) ∈ previous_results -> ap ∈ s -> ap ∉ evaluated ->
  (forall acc', should_use acc' ap = true \/ ap ∈ dict_values_union acc') ->
  ap ∈ dict_values_union (carry_forward previous_results current should_use).
Proof. apply carry_forward_loop_adds_value. Qed.
End CarryForwardComplete.

Lemma carry_forward_nil current should_use : carry_forward [] current should_use = current.
Proof. reflexivity. Qed.

Lemma carry_forward_grows previous_results current should_use k ap :
  ap ∈ dict_get k current ->
  ap ∈ dict_get k (carry_forward previous_results current should_use).
Proof. apply carry_forward_loop_grows. Qed.

Lemma should_use_past_data_fn_state_free
    (rule : AutoMaterializeRule) (context : RuleEvaluationContext) acc acc' ap :
  rule <> MaterializeOnMissingRule ->
  should_use_past_data_fn rule context acc ap = should_use_past_data_fn rule context acc' ap.
Proof. intros H. destruct rule; try reflexivity. contradiction. Qed.

(** The partitions under a piece of data in the result of a rule whose
    predicate looks at the partition alone (all but MaterializeOnMissingRule). *)
Lemma evaluate_for_asset_elem_of
    (rule : AutoMaterializeRule) (context : RuleEvaluationContext)
    (Huses : uses_carry_forward rule = true)
    (Hrule : rule <> MaterializeOnMissingRule) :
  let previous_results := get_previous_tick_results context rule in
  let current := fresh_evaluation_data rule context in
  forall ap k,
    ap ∈ dict_get k (evaluate_for_asset rule context)
    <-> ap ∈ dict_get k current
        \/ ((ap ∉ dict_values_union current)
            /\ should_use_past_data_fn rule context [] ap = true
            /\ exists s, (k, s) ∈ previous_results /\ ap ∈ s).
Proof.
  intros previous_results current ap k.
  rewrite (evaluate_for_asset_carry_forward rule context Huses).
  fold previous_results current.
  destruct (fresh_evaluation_data_dict rule context) as [Hnd Hone].
  destruct (carry_forward_spec previous_results current
              (should_use_past_data_fn rule context) Hnd Hone)
    as (_ & _ & Hcarried & _).
  split.
  - intros H. destruct (decide (ap ∈ dict_get k current)) as [Hc | Hc]; [now left|].
    right. destruct (Hcarried ap k H Hc) as (Hev & Hprev & acc & Hacc).
    split; [exact Hev|]. split; [|exact Hprev].
    now rewrite (should_use_past_data_fn_state_free rule context [] acc ap Hrule).
  - intros [H | (Hev & Huse & s & Hs & Hap)]; [now apply carry_forward_grows|].
    apply (carry_forward_adds previous_results current _ k s ap Hs Hap Hev).
    intros acc. left.
    now rewrite (should_use_past_data_fn_state_free rule context acc [] ap Hrule).
Qed.

(** X6: MaterializeOnMissingRule: the partitions of the result are the partitions
    found missing this tick and the partitions of the previous tick's
    results that were not materialized, requested or discarded since; and the
    partitions found missing this tick are under no data. *)
Theorem missing_rule_results (context : RuleEvaluationContext) :
  (forall ap,
     ap ∈ dict_values_union (evaluate_for_asset MaterializeOnMissingRule context)
     <-> ap ∈ missing_asset_partitions context
         \/ (ap ∈ dict_values_union
                    (get_previous_tick_results context MaterializeOnMissingRule)
             /\ materialized_requested_or_discarded_since_previous_tick context ap = false))
  /\ (forall ap,
        ap ∈ missing_asset_partitions context ->
        ap ∈ dict_get None (evaluate_for_asset MaterializeOnMissingRule context)).
Proof.
  set (previous_results := get_previous_tick_results context MaterializeOnMissingRule).
  set (current := missing_fresh context).
  assert (Hcurrent : forall ap k, ap ∈ dict_get k current
                     <-> k = None /\ ap ∈ missing_asset_partitions context).
  { intros ap k. unfold current, missing_fresh. case_bool_decide as E; simpl.
    - case_bool_decide as Ek.
      + subst k. tauto.
      + split; [intros H; now apply elem_of_empty in H | intros [-> _]; contradiction].
    - rewrite E. split; [intros H | intros [_ H]]; now apply elem_of_empty in H. }
  assert (Hevaluated : forall ap, ap ∈ dict_values_union current
                       <-> ap ∈ missing_asset_partitions context).
  { intros ap. split.
    - intros H. apply elem_of_dict_values_union in H as ([k s] & He & Hs).
      unfold current, missing_fresh in He. case_bool_decide as E.
      + apply list_elem_of_singleton in He. injection He as -> ->. exact Hs.
      + now apply elem_of_nil in He.
    - intros H. apply (dict_get_subseteq_values current None). now apply Hcurrent. }
  destruct (fresh_evaluation_data_dict MaterializeOnMissingRule context) as [Hnd Hone].
  destruct (carry_forward_spec previous_results current
              (missing_should_use_past_data context) Hnd Hone)
    as (Hnd' & _ & Hcarried & _).
  change (evaluate_for_asset MaterializeOnMissingRule context)
    with (carry_forward previous_results current (missing_should_use_past_data context)).
  assert (Hfresh : forall ap, ap ∈ missing_asset_partitions context ->
            ap ∈ dict_get None
                   (carry_forward previous_results current
                      (missing_should_use_past_data context))).
  { intros ap H. apply carry_forward_grows. now apply Hcurrent. }
  split; [|exact Hfresh].
  intros ap. split.
  - intros H. apply elem_of_dict_values_union in H as ([k s] & He & Hs). simpl in Hs.
    rewrite <- (dict_get_entry _ k s Hnd' He) in Hs.
    destruct (decide (ap ∈ dict_get k current)) as [Hc | Hc].
    + left. now apply Hcurrent in Hc as [_ Hc].
    + right. destruct (Hcarried ap k Hs Hc) as (_ & (s' & Hs' & Hap') & acc & Hacc).
      split.
      * apply elem_of_dict_values_union. now exists (k, s').
      * unfold missing_should_use_past_data in Hacc.
        apply andb_prop in Hacc as [_ Hacc]. now apply negb_true_iff in Hacc.
  - intros [H | [Hprev Hsince]].
    + eapply dict_get_subseteq_values, Hfresh, H.
    + destruct (decide (ap ∈ missing_asset_partitions context)) as [Hm | Hm].
      * eapply dict_get_subseteq_values, Hfresh, Hm.
      * apply elem_of_dict_values_union in Hprev as ([k s] & He & Hs).
        apply (carry_forward_adds_value previous_results current _ k s ap He Hs).
        -- now rewrite Hevaluated.
        -- intros acc. unfold missing_should_use_past_data. rewrite Hsince. simpl.
           rewrite andb_true_r. case_bool_decide as Hin; [now left|].
           right. case_bool_decide; [|now apply elem_of_empty in Hin].
           eapply dict_get_subseteq_values, Hin.
Qed.

(** X7: The first tick of an asset: without a previous evaluation every candidate
    is evaluated, nothing counts as requested or discarded before, no rule
    finds previous results, and every rule that carries data forward returns
    just the data it computed. *)
Theorem first_tick (context : RuleEvaluationContext)
    (Hfirst : previous_tick_evaluation context = None) :
  (forall rule, get_previous_tick_results context rule = [])
  /\ (forall rule, uses_carry_forward rule = true ->
        evaluate_for_asset rule context = fresh_evaluation_data rule context)
  /\ get_candidates_not_evaluated_by_rule_on_previous_tick context = candidates context
  /\ candidates_to_evaluate context = candidates context
  /\ (forall ap,
        materialized_requested_or_discarded_since_previous_tick context ap
        = asset_partition_has_materialization_or_observation (instance_queryer context)
            ap (latest_storage_id (cursor context))).
Proof.
  assert (Hprev : forall rule, get_previous_tick_results context rule = [])
    by (intros rule; unfold get_previous_tick_results; now rewrite Hfirst).
  assert (Hnet : get_candidates_not_evaluated_by_rule_on_previous_tick context
                 = candidates context).
  { unfold get_candidates_not_evaluated_by_rule_on_previous_tick,
      previous_tick_evaluated_asset_partitions. rewrite Hfirst.
    apply set_eq. intros ap. rewrite elem_of_difference. split; [now intros [H _]|].
    intros H. split; [exact H | apply not_elem_of_empty]. }
  split; [exact Hprev|]. split; [|split; [exact Hnet|split]].
  - intros rule Huses. rewrite (evaluate_for_asset_carry_forward rule context Huses).
    now rewrite Hprev.
  - unfold candidates_to_evaluate. rewrite Hnet.
    unfold get_candidates_with_updated_or_will_update_parents.
    apply set_eq. intros ap. rewrite elem_of_union, elem_of_intersection. tauto.
  - intros ap. unfold materialized_requested_or_discarded_since_previous_tick,
      previous_tick_requested_or_discarded_asset_partitions. rewrite Hfirst.
    now rewrite bool_decide_eq_false_2 by apply not_elem_of_empty.
Qed.

(** ** Grouping into sets *)

Section Multimap.
Context `{Countable K} `{Countable V}.
Implicit Types m : gmap K (gset V).

Lemma elem_of_multimap_add (i j : K) (v v' : V) m :
  v' ∈ multimap_add i v m !!! j <-> v' ∈ m !!! j \/ (j = i /\ v' = v).
Proof.
  unfold multimap_add. destruct (decide (i = j)) as [<- | Hne].
  - rewrite lookup_total_insert_eq, elem_of_union, elem_of_singleton. tauto.
  - rewrite lookup_total_insert_ne by exact Hne. split; [now left|].
    intros [Hv | [E _]]; [exact Hv | congruence].
Qed.

Lemma multimap_add_inhabited (i : K) (v : V) m :
  (forall (j : K) s, m !! j = Some s -> s <> ∅) ->
  forall (j : K) s, multimap_add i v m !! j = Some s -> s <> ∅.
Proof.
  intros Hm j s. unfold multimap_add. destruct (decide (i = j)) as [<- | Hne].
  - rewrite lookup_insert_eq. intros E. injection E as <-.
    intros Hempty. apply (not_elem_of_empty (C := gset V) v). rewrite <- Hempty.
    apply elem_of_union. right. now apply elem_of_singleton.
  - rewrite lookup_insert_ne by exact Hne. apply Hm.
Qed.

(** A dictionary of sets without empty values has a key exactly where the
    set read with a default is inhabited. *)
Lemma multimap_dom m (i : K) :
  (forall (j : K) s, m !! j = Some s -> s <> ∅) ->
  i ∈ dom m <-> exists v, v ∈ m !!! i.
Proof.
  intros Hm. rewrite elem_of_dom. unfold lookup_total, map_lookup_total.
  destruct (m !! i) as [s|] eqn:E; simpl.
  - split; [|eauto]. intros _. apply set_choose_L. now apply (Hm i).
  - split; [intros [? ?]; discriminate|]. intros [v Hv]. now apply elem_of_empty in Hv.
Qed.

Lemma multimap_fold {X} (key_of : X -> K) (value_of : X -> V) (l : list X) m :
  let result := foldl (fun acc x => multimap_add (key_of x) (value_of x) acc) m l in
  (forall (i : K) v, v ∈ result !!! i
               <-> v ∈ m !!! i \/ exists x, x ∈ l /\ key_of x = i /\ value_of x = v)
  /\ ((forall (i : K) s, m !! i = Some s -> s <> ∅) ->
      forall (i : K) s, result !! i = Some s -> s <> ∅).
Proof.
  revert m. induction l as [|x l IH]; intros m; simpl.
  - split; [|auto]. intros i v. split; [now left|].
    intros [Hv | (x & Hx & _)]; [exact Hv | now apply elem_of_nil in Hx].
  - destruct (IH (multimap_add (key_of x) (value_of x) m)) as [Hin Hne]. split.
    + intros i v. rewrite Hin, elem_of_multimap_add. split.
      * intros [[Hv | [-> ->]] | (x' & Hx' & Hk & Hv)].
        -- now left.
        -- right. exists x. split; [apply elem_of_cons; now left | auto].
        -- right. exists x'. split; [apply elem_of_cons; now right | auto].
      * intros [Hv | (x' & Hx' & Hk & Hv)]; [now left; left|].
        apply elem_of_cons in Hx' as [-> | Hx'].
        -- left. right. auto.
        -- right. exists x'. auto.
    + intros Hm. apply Hne. now apply multimap_add_inhabited.
Qed.
End Multimap.

(** X8: [get_asset_partitions_by_asset_key] groups a set of asset partitions by
    their asset key: the set under a key holds exactly the partitions of
    that asset, and only the assets with a partition in the set have a
    key. *)
Theorem asset_partitions_by_asset_key_spec
    (asset_partitions : gset AssetKeyPartitionKey) :
  (forall (key : AssetKey) ap,
     ap ∈ get_asset_partitions_by_asset_key asset_partitions !!! key
     <-> ap ∈ asset_partitions /\ ap_asset_key ap = key)
  /\ (forall key : AssetKey,
        key ∈ dom (get_asset_partitions_by_asset_key asset_partitions)
        <-> exists ap, ap ∈ asset_partitions /\ ap_asset_key ap = key)
  /\ (forall (key : AssetKey) s,
        get_asset_partitions_by_asset_key asset_partitions !! key = Some s -> s <> ∅).
Proof.
  unfold get_asset_partitions_by_asset_key.
  destruct (multimap_fold (K := AssetKey) (V := AssetKeyPartitionKey)
              ap_asset_key (fun ap => ap) (elements asset_partitions) ∅)
    as [Hin Hne].
  assert (Hin' : forall (key : AssetKey) ap,
             ap ∈ foldl (fun acc (parent : AssetKeyPartitionKey) =>
                           multimap_add (ap_asset_key parent) parent acc)
                        ∅ (elements asset_partitions) !!! key
             <-> ap ∈ asset_partitions /\ ap_asset_key ap = key).
  { intros key ap. rewrite Hin. rewrite lookup_total_empty. split.
    - intros [H | (x & Hx & Hk & ->)]; [now apply elem_of_empty in H|].
      split; [now apply elem_of_elements | exact Hk].
    - intros [Hap Hk]. right. exists ap. split; [now apply elem_of_elements | auto]. }
  assert (Hne' : forall (key : AssetKey) s,
             foldl (fun acc (parent : AssetKeyPartitionKey) =>
                      multimap_add (ap_asset_key parent) parent acc)
                   ∅ (elements asset_partitions) !! key = Some s -> s <> ∅).
  { apply Hne. intros key s. rewrite lookup_empty. discriminate. }
  split; [exact Hin'|]. split; [|exact Hne'].
  intros key. rewrite (multimap_dom _ key Hne'). split.
  - intros [ap Hap]. exists ap. now apply Hin'.
  - intros [ap Hap]. exists ap. now apply Hin'.
Qed.

Section WillUpdate.
Variable context : RuleEvaluationContext.

Let inner (parent_key : AssetKey) (acc : gmap AssetKeyPartitionKey (gset AssetKey)) :=
  foldl (fun acc' (parent_partition : AssetKeyPartitionKey) =>
           multimap_add (asset_key context, partition_key parent_partition) parent_key acc')
        acc (elements (will_materialize_mapping context !!! parent_key)).

Let outer (l : list AssetKey) (acc : gmap AssetKeyPartitionKey (gset AssetKey)) :=
  foldl (fun acc parent_key =>
           if negb (materializable_in_same_run context (asset_key context) parent_key)
           then acc else inner parent_key acc)
        acc l.

Let requested_with (parent_key : AssetKey) ap : Prop :=
  materializable_in_same_run context (asset_key context) parent_key = true
  /\ exists parent_partition : AssetKeyPartitionKey,
       parent_partition ∈ will_materialize_mapping context !!! parent_key
       /\ ap = (asset_key context, partition_key parent_partition).

Lemma will_update_outer (l : list AssetKey) acc :
  (forall ap (parent_key : AssetKey),
     parent_key ∈ outer l acc !!! ap
     <-> parent_key ∈ acc !!! ap \/ (parent_key ∈ l /\ requested_with parent_key ap))
  /\ ((forall ap s, acc !! ap = Some s -> s <> ∅) ->
      forall ap s, outer l acc !! ap = Some s -> s <> ∅).
Proof.
  revert acc. induction l as [|p l IH]; intros acc; simpl.
  - split; [|auto]. intros ap parent_key. split; [now left|].
    intros [H | [H _]]; [exact H | now apply elem_of_nil in H].
  - destruct (materializable_in_same_run context (asset_key context) p) eqn:Hsame; simpl.
    + destruct (multimap_fold (K := AssetKeyPartitionKey) (V := AssetKey)
                  (fun parent_partition : AssetKeyPartitionKey =>
                     (asset_key context, partition_key parent_partition))
                  (fun _ => p)
                  (elements (will_materialize_mapping context !!! p)) acc) as [Hin Hne].
      destruct (IH (inner p acc)) as [Hin' Hne']. split.
      * intros ap parent_key. rewrite Hin'. unfold inner. rewrite Hin. split.
        -- intros [[H | (x & Hx & Hk & Hv)] | [Hl Hr]].
           ++ now left.
           ++ right. subst parent_key. split; [apply elem_of_cons; now left|].
              split; [exact Hsame|]. exists x.
              split; [now apply elem_of_elements | now symmetry].
           ++ right. split; [apply elem_of_cons; now right | exact Hr].
        -- intros [H | [Hl (Hs & x & Hx & Hk)]]; [now left; left|].
           apply elem_of_cons in Hl as [-> | Hl].
           ++ left. right. exists x. split; [now apply elem_of_elements | now split].
           ++ right. split; [exact Hl|]. split; [exact Hs|]. now exists x.
      * intros Hacc. apply Hne'. unfold inner. now apply Hne.
    + destruct (IH acc) as [Hin' Hne']. split; [|exact Hne'].
      intros ap parent_key. rewrite Hin'. split.
      * intros [H | [Hl Hr]]; [now left|].
        right. split; [apply elem_of_cons; now right | exact Hr].
      * intros [H | [Hl Hr]]; [now left|].
        apply elem_of_cons in Hl as [-> | Hl].
        -- destruct Hr as [Hr _]. congruence.
        -- right. now split.
Qed.

Lemma will_update_listed (parent_key : AssetKey) (parent_partition : AssetKeyPartitionKey) :
  parent_key ∈ get_parents (asset_graph context) (asset_key context) ->
  materializable_in_same_run context (asset_key context) parent_key = true ->
  parent_partition ∈ will_materialize_mapping context !!! parent_key ->
  parent_key ∈ get_will_update_parent_mapping context
               !!! (asset_key context, partition_key parent_partition)
  /\ (asset_key context, partition_key parent_partition)
     ∈ dom (get_will_update_parent_mapping context).
Proof.
  intros Hparent Hsame Hrequested.
  destruct (will_update_outer
              (elements (get_parents (asset_graph context) (asset_key context))) ∅)
    as [Hin Hne].
  change (outer (elements (get_parents (asset_graph context) (asset_key context))) ∅)
    with (get_will_update_parent_mapping context) in Hin, Hne.
  assert (Hlisted : parent_key ∈ get_will_update_parent_mapping context
                                 !!! (asset_key context, partition_key parent_partition)).
  { apply Hin. right. split; [now apply elem_of_elements|].
    split; [exact Hsame|]. now exists parent_partition. }
  split; [exact Hlisted|].
  apply multimap_dom; [|now exists parent_key].
  apply Hne. intros ap s. rewrite lookup_empty. discriminate.
Qed.

(** X9: [get_will_update_parent_mapping]: a parent key is listed for an asset
    partition exactly when it is a parent of the asset that can be
    materialized in the same run and is requested this tick for a partition
    with the same partition key; the mapping only has partitions of the
    asset as keys, and a key exactly where some parent is listed. *)
Theorem will_update_parent_mapping_spec :
  (forall ap (parent_key : AssetKey),
     parent_key ∈ get_will_update_parent_mapping context !!! ap
     <-> parent_key ∈ get_parents (asset_graph context) (asset_key context)
         /\ materializable_in_same_run context (asset_key context) parent_key = true
         /\ exists parent_partition : AssetKeyPartitionKey,
              parent_partition ∈ will_materialize_mapping context !!! parent_key
              /\ ap = (asset_key context, partition_key parent_partition))
  /\ (forall ap,
        ap ∈ dom (get_will_update_parent_mapping context)
        <-> exists parent_key : AssetKey,
              parent_key ∈ get_will_update_parent_mapping context !!! ap)
  /\ (forall ap,
        ap ∈ dom (get_will_update_parent_mapping context) ->
        ap_asset_key ap = asset_key context).
Proof.
  destruct (will_update_outer
              (elements (get_parents (asset_graph context) (asset_key context))) ∅)
    as [Hin Hne].
  change (outer (elements (get_parents (asset_graph context) (asset_key context))) ∅)
    with (get_will_update_parent_mapping context) in Hin, Hne.
  assert (Hin' : forall ap (parent_key : AssetKey),
             parent_key ∈ get_will_update_parent_mapping context !!! ap
             <-> parent_key ∈ get_parents (asset_graph context) (asset_key context)
                 /\ requested_with parent_key ap).
  { intros ap parent_key. rewrite Hin, lookup_total_empty, elem_of_elements. split.
    - intros [H | H]; [now apply elem_of_empty in H | exact H].
    - now right. }
  assert (Hne' : forall ap s, get_will_update_parent_mapping context !! ap = Some s ->
                              s <> ∅).
  { apply Hne. intros ap s. rewrite lookup_empty. discriminate. }
  assert (Hdom : forall ap,
             ap ∈ dom (get_will_update_parent_mapping context)
             <-> exists parent_key : AssetKey,
                   parent_key ∈ get_will_update_parent_mapping context !!! ap)
    by (intros ap; now apply multimap_dom).
  split; [exact Hin'|]. split; [exact Hdom|].
  intros ap Hap. apply Hdom in Hap as [parent_key Hp].
  apply Hin' in Hp as (_ & _ & pp & _ & ->). reflexivity.
Qed.
End WillUpdate.

(** ** The data computed on the current tick *)

Lemma group_by_fold_adds
    (data_of : AssetKeyPartitionKey -> option AutoMaterializeRuleEvaluationData)
    (l : list AssetKeyPartitionKey) (acc : RuleEvaluationResults) :
  let result :=
    foldl (fun acc candidate =>
             match data_of candidate with
             | Some data => dict_add (Some data) candidate acc
             | None => acc
             end) acc l in
  (forall k ap, ap ∈ dict_get k acc -> ap ∈ dict_get k result)
  /\ (forall ap d, ap ∈ l -> data_of ap = Some d -> ap ∈ dict_get (Some d) result).
Proof.
  revert acc. induction l as [|c l IH]; intros acc; simpl.
  - split; [auto|]. intros ap d H. now apply elem_of_nil in H.
  - destruct (IH (match data_of c with
                  | Some data => dict_add (Some data) c acc
                  | None => acc
                  end)) as [Hgrow Hadd].
    split.
    + intros k ap H. apply Hgrow. destruct (data_of c); [|exact H].
      apply elem_of_dict_get_add. now left.
    + intros ap d Hap Hd. apply elem_of_cons in Hap as [-> | Hap]; [|now apply Hadd].
      apply Hgrow. rewrite Hd. apply elem_of_dict_get_add. now right.
Qed.

Lemma group_by_evaluation_data_exact
    (data_of : AssetKeyPartitionKey -> option AutoMaterializeRuleEvaluationData)
    (to_evaluate : gset AssetKeyPartitionKey) k ap :
  ap ∈ dict_get k (group_by_evaluation_data data_of to_evaluate)
  <-> ap ∈ to_evaluate /\ exists d, data_of ap = Some d /\ k = Some d.
Proof.
  split.
  - intros H. split; [eapply group_by_evaluation_data_subseteq, H|].
    unfold group_by_evaluation_data in H.
    destruct (group_by_fold data_of (elements to_evaluate) []) as [_ Hdata].
    + constructor.
    + intros k' ap' H'. now apply elem_of_empty in H'.
    + now apply Hdata.
  - intros [Hap (d & Hd & ->)].
    destruct (group_by_fold_adds data_of (elements to_evaluate) []) as [_ Hadd].
    apply Hadd; [now apply elem_of_elements | exact Hd].
Qed.

(** The rules that go through their candidates one by one put a candidate
    under a piece of data exactly when it is one of the candidates looked at
    this tick and that piece of data is what the rule computes for it. *)
Lemma fresh_evaluation_data_elem_of
    (rule : AutoMaterializeRule) (context : RuleEvaluationContext)
    (Huses : uses_carry_forward rule = true)
    (Hrule : rule <> MaterializeOnMissingRule) :
  forall ap k,
    ap ∈ dict_get k (fresh_evaluation_data rule context)
    <-> ap ∈ evaluated_this_tick rule context
        /\ exists d, data_computed_for rule context ap = Some d /\ k = Some d.
Proof.
  intros ap k.
  destruct rule; try discriminate Huses; try contradiction;
    apply group_by_evaluation_data_exact.
Qed.

(** ** What the rules return *)

Lemma elem_of_dict_values_union_get (d : RuleEvaluationResults) ap :
  NoDup d.*1 -> ap ∈ dict_values_union d <-> exists k, ap ∈ dict_get k d.
Proof.
  intros Hnd. split.
  - intros H. apply elem_of_dict_values_union in H as ([k s] & He & Hs).
    exists k. now rewrite (dict_get_entry d k s Hnd He).
  - intros [k H]. eapply dict_get_subseteq_values, H.
Qed.

Lemma fresh_evaluated
    (rule : AutoMaterializeRule) (context : RuleEvaluationContext) ap :
  uses_carry_forward rule = true -> rule <> MaterializeOnMissingRule ->
  ap ∈ dict_values_union (fresh_evaluation_data rule context)
  <-> ap ∈ evaluated_this_tick rule context
      /\ is_Some (data_computed_for rule context ap).
Proof.
  intros Huses Hrule.
  rewrite elem_of_dict_values_union_get by apply fresh_evaluation_data_dict. split.
  - intros [k H]. apply (fresh_evaluation_data_elem_of rule context Huses Hrule) in H
      as [He (d & Hd & _)]. split; [exact He | eauto].
  - intros [He [d Hd]]. exists (Some d).
    apply (fresh_evaluation_data_elem_of rule context Huses Hrule). eauto.
Qed.

(** X10: The skip rules that carry data forward look again only at some of
    their candidates: in the result, a partition that is looked at this tick
    lies exactly under the data computed for it this tick (under none if the
    rule computes none), and every other partition lies exactly under the
    data the previous tick's results of the rule have for it. *)
Theorem skip_rule_results
    (rule : AutoMaterializeRule) (context : RuleEvaluationContext)
    (Hskip : decision_type rule = SKIP)
    (Huses : uses_carry_forward rule = true) :
  forall ap k,
    ap ∈ dict_get k (evaluate_for_asset rule context)
    <-> (ap ∈ evaluated_this_tick rule context
         /\ exists d, data_computed_for rule context ap = Some d /\ k = Some d)
        \/ ((ap ∉ evaluated_this_tick rule context)
            /\ exists s, (k, s) ∈ get_previous_tick_results context rule /\ ap ∈ s).
Proof.
  intros ap k.
  assert (Hrule : rule <> MaterializeOnMissingRule) by (intros ->; discriminate Hskip).
  assert (Hpred : should_use_past_data_fn rule context [] ap = true
                  <-> ap ∉ evaluated_this_tick rule context).
  { destruct rule; try discriminate Hskip; try discriminate Huses; simpl;
      unfold not_in; apply bool_decide_eq_true. }
  rewrite (evaluate_for_asset_elem_of rule context Huses Hrule).
  rewrite (fresh_evaluation_data_elem_of rule context Huses Hrule).
  rewrite (fresh_evaluated rule context ap Huses Hrule), Hpred.
  split.
  - intros [H | (_ & He & Hprev)]; [now left | now right].
  - intros [H | [He Hprev]]; [now left|].
    right. split; [|now split]. now intros [He' _].
Qed.

(** X11: MaterializeOnParentUpdatedRule: in the result, a partition with updated
    or will-update parents for which the rule finds an updated or requested
    parent lies exactly under the data computed this tick; any other
    partition lies under the data of the previous tick's results, provided
    it was not materialized, requested or discarded since. *)
Theorem parent_updated_results (context : RuleEvaluationContext) :
  forall ap k,
    ap ∈ dict_get k (evaluate_for_asset MaterializeOnParentUpdatedRule context)
    <-> (ap ∈ parent_updated_has_or_will_update context
         /\ exists d, parent_updated_data context ap = Some d /\ k = Some d)
        \/ (~ (ap ∈ parent_updated_has_or_will_update context
               /\ is_Some (parent_updated_data context ap))
            /\ materialized_requested_or_discarded_since_previous_tick context ap = false
            /\ exists s,
                 (k, s) ∈ get_previous_tick_results context MaterializeOnParentUpdatedRule
                 /\ ap ∈ s).
Proof.
  intros ap k.
  assert (Huses : uses_carry_forward MaterializeOnParentUpdatedRule = true) by reflexivity.
  assert (Hrule : MaterializeOnParentUpdatedRule <> MaterializeOnMissingRule)
    by discriminate.
  rewrite (evaluate_for_asset_elem_of _ context Huses Hrule).
  rewrite (fresh_evaluation_data_elem_of _ context Huses Hrule).
  rewrite (fresh_evaluated _ context ap Huses Hrule). simpl.
  unfold parent_updated_should_use_past_data. rewrite negb_true_iff. reflexivity.
Qed.

(** X12: When a parent of the asset can be materialized in the same run and one
    of its partitions is requested this tick, MaterializeOnParentUpdatedRule
    returns the partition of the asset with the same partition key, under
    data whose will-update keys include that parent. *)
Theorem parent_updated_fires_for_requested_parent
    (context : RuleEvaluationContext)
    (parent_key : AssetKey) (parent_partition : AssetKeyPartitionKey)
    (Hparent : parent_key ∈ get_parents (asset_graph context) (asset_key context))
    (Hsame : materializable_in_same_run context (asset_key context) parent_key = true)
    (Hrequested : parent_partition ∈ will_materialize_mapping context !!! parent_key) :
  exists updated will_update,
    parent_key ∈ will_update
    /\ (asset_key context, partition_key parent_partition)
       ∈ dict_get (Some (ParentUpdatedRuleEvaluationData updated will_update))
           (evaluate_for_asset MaterializeOnParentUpdatedRule context).
Proof.
  destruct (will_update_listed context parent_key parent_partition Hparent Hsame Hrequested)
    as [Hlisted Hdom].
  set (ap := (asset_key context, partition_key parent_partition)) in *.
  set (updated := (set_map fst (run_call (instance_queryer context)
                                  (parent_updated_call context ap)) : gset AssetKey)).
  exists updated, (get_will_update_parent_mapping context !!! ap).
  split; [exact Hlisted|].
  apply carry_forward_grows.
  apply (fresh_evaluation_data_elem_of MaterializeOnParentUpdatedRule context eq_refl);
    [discriminate|].
  split.
  - simpl. unfold parent_updated_has_or_will_update. apply elem_of_union. now right.
  - eexists. split; [|reflexivity]. simpl. unfold parent_updated_data. fold updated.
    rewrite bool_decide_eq_true_2; [reflexivity|].
    right. intros Hempty. rewrite Hempty in Hlisted. now apply elem_of_empty in Hlisted.
Qed.

(** ** Limits that are not positive *)

Lemma rate_limited_size (context : RuleEvaluationContext) (limit : Z) :
  size (rate_limited_asset_partitions context (elements (candidates context)) limit)
  = length (py_slice_from limit
              (py_sorted (sort_key_for_asset_partition (asset_graph context))
                 (elements (candidates context)))).
Proof.
  unfold rate_limited_asset_partitions. apply size_list_to_set.
  unfold py_slice_from. eapply sublist_NoDup; [|apply sublist_drop].
  rewrite py_sorted_Permutation. apply NoDup_elements.
Qed.

Lemma discarded_is_rate_limited (context : RuleEvaluationContext) (limit : Z) :
  dict_values_union
    (evaluate_for_asset (DiscardOnMaxMaterializationsExceededRule limit) context)
  = rate_limited_asset_partitions context (elements (candidates context)) limit.
Proof.
  simpl. case_bool_decide as H.
  - apply dict_values_union_singleton.
  - now rewrite H.
Qed.

(** X13: The discard rule with a limit that is not positive, whatever the sort
    keys are: with limit 0 every candidate is discarded; with a negative limit
    the slice counts from the end of the sorted candidates, so [-limit] of them
    are discarded (all of them when there are fewer), and not all candidates
    as for limit 0. *)
Theorem discard_with_non_positive_limit (context : RuleEvaluationContext) :
  dict_values_union
    (evaluate_for_asset (DiscardOnMaxMaterializationsExceededRule 0) context)
  = candidates context
  /\ (forall limit, limit < 0 ->
        size (dict_values_union
                (evaluate_for_asset (DiscardOnMaxMaterializationsExceededRule limit)
                   context))
        = Nat.min (Z.to_nat (- limit)) (size (candidates context)))
  /\ (forall limit,
        dict_values_union
          (evaluate_for_asset (DiscardOnMaxMaterializationsExceededRule limit) context)
        ⊆ candidates context).
Proof.
  split; [|split].
  - rewrite discarded_is_rate_limited. unfold rate_limited_asset_partitions, py_slice_from.
    simpl. rewrite drop_0. apply set_eq. intros ap.
    rewrite elem_of_list_to_set, py_sorted_Permutation. apply elem_of_elements.
  - intros limit Hlimit. rewrite discarded_is_rate_limited, rate_limited_size.
    unfold py_slice_from. destruct (Z.ltb_spec limit 0) as [_|?]; [|lia].
    rewrite length_drop, (Permutation_length (py_sorted_Permutation _ _)).
    change (length (elements (candidates context))) with (size (candidates context)).
    lia.
  - intros limit ap. rewrite discarded_is_rate_limited.
    unfold rate_limited_asset_partitions, py_slice_from. rewrite elem_of_list_to_set.
    intros H. apply subseteq_drop in H. rewrite py_sorted_Permutation in H.
    now apply elem_of_elements.
Qed.

(** ** Waiting on parents *)

(** The data SkipOnParentMissingRule computes for one candidate. *)
Lemma parent_missing_data_spec
    (context : RuleEvaluationContext) (candidate : AssetKeyPartitionKey) :
  let waits_on (key : AssetKey) :=
    exists parent : AssetKeyPartitionKey,
      parent ∈ get_parents_that_will_not_be_materialized_on_current_tick context candidate
      /\ ap_asset_key parent = key
      /\ ~ (is_source (asset_graph context) key = true
            /\ is_observable (asset_graph context) key = false)
      /\ asset_partition_has_materialization_or_observation
           (instance_queryer context) parent None = false in
  (forall keys,
     parent_missing_data context candidate
     = Some (WaitingOnAssetsRuleEvaluationData keys) ->
     keys <> ∅ /\ forall key, key ∈ keys <-> waits_on key)
  /\ (parent_missing_data context candidate = None <-> forall key, ~ waits_on key)
  /\ (forall d, parent_missing_data context candidate = Some d ->
        exists keys, d = WaitingOnAssetsRuleEvaluationData keys).
Proof.
  intros waits_on. unfold parent_missing_data.
  set (keys0 := (set_map fst
                   (filter
                      (fun parent : AssetKeyPartitionKey =>
                         (is_source (asset_graph context) (ap_asset_key parent)
                          && negb (is_observable (asset_graph context)
                                     (ap_asset_key parent))) = false
                         /\ asset_partition_has_materialization_or_observation
                              (instance_queryer context) parent None = false)
                      (get_parents_that_will_not_be_materialized_on_current_tick
                         context candidate)) : gset AssetKey)).
  assert (Hkeys : forall key, key ∈ keys0 <-> waits_on key).
  { intros key. unfold keys0, waits_on. rewrite elem_of_map. split.
    - intros (parent & -> & Hp). apply elem_of_filter in Hp as [[Hs Hm] Hp].
      exists parent. split; [exact Hp|]. split; [reflexivity|]. split; [|exact Hm].
      intros [H1 H2]. unfold ap_asset_key in Hs. rewrite H1, H2 in Hs. discriminate Hs.
    - intros (parent & Hp & <- & Hs & Hm). exists parent. split; [reflexivity|].
      apply elem_of_filter. split; [|exact Hp]. split; [|exact Hm].
      unfold ap_asset_key in *.
      destruct (is_source (asset_graph context) parent.1) eqn:E1,
               (is_observable (asset_graph context) parent.1) eqn:E2;
        try reflexivity. exfalso. apply Hs. now split. }
  split; [|split].
  - intros keys. case_bool_decide as Hne; [|discriminate].
    intros E. injection E as <-. split; [exact Hne | exact Hkeys].
  - case_bool_decide as Hne.
    + split; [discriminate|]. intros Hnone. exfalso. apply Hne.
      apply set_eq. intros key. rewrite Hkeys. split.
      * intros Hw. now apply Hnone in Hw.
      * intros H. now apply elem_of_empty in H.
    + split; [|reflexivity]. intros _ key Hw. apply Hkeys in Hw.
      rewrite Hne in Hw. now apply elem_of_empty in Hw.
  - intros d. case_bool_decide; [|discriminate]. intros E. injection E as <-. eauto.
Qed.

(** X14: SkipOnParentMissingRule, for a candidate it looks at this tick: the rule
    returns the candidate exactly when some parent partition that will not be
    materialized in the same run, other than one of a non-observable source,
    has no materialization or observation; the candidate is then under the
    waiting-on data that lists exactly the asset keys of those parents. *)
Theorem parent_missing_rule_spec
    (context : RuleEvaluationContext) (candidate : AssetKeyPartitionKey)
    (Hcandidate : candidate ∈ candidates_to_evaluate context) :
  let waits_on (key : AssetKey) :=
    exists parent : AssetKeyPartitionKey,
      parent ∈ get_parents_that_will_not_be_materialized_on_current_tick context candidate
      /\ ap_asset_key parent = key
      /\ ~ (is_source (asset_graph context) key = true
            /\ is_observable (asset_graph context) key = false)
      /\ asset_partition_has_materialization_or_observation
           (instance_queryer context) parent None = false in
  (forall k,
     candidate ∈ dict_get k (evaluate_for_asset SkipOnParentMissingRule context) ->
     exists keys,
       k = Some (WaitingOnAssetsRuleEvaluationData keys)
       /\ keys <> ∅ /\ forall key, key ∈ keys <-> waits_on key)
  /\ ((exists k,
         candidate ∈ dict_get k (evaluate_for_asset SkipOnParentMissingRule context))
      <-> exists key, waits_on key).
Proof.
  intros waits_on.
  destruct (parent_missing_data_spec context candidate) as (Hsome & Hnone & Hshape).
  fold waits_on in Hsome, Hnone.
  assert (Hresult : forall k,
             candidate ∈ dict_get k (evaluate_for_asset SkipOnParentMissingRule context)
             <-> exists d, parent_missing_data context candidate = Some d /\ k = Some d).
  { intros k.
    rewrite (evaluate_for_asset_elem_of SkipOnParentMissingRule context eq_refl)
      by discriminate.
    rewrite (fresh_evaluation_data_elem_of SkipOnParentMissingRule context eq_refl)
      by discriminate.
    simpl. unfold not_in. split.
    - intros [[_ H] | (_ & Hnot & _)]; [exact H|].
      apply bool_decide_eq_true in Hnot. contradiction.
    - intros H. left. now split. }
  split.
  - intros k Hk. apply Hresult in Hk as (d & Hd & ->).
    destruct (Hshape d Hd) as [keys ->]. exists keys. split; [reflexivity|].
    now apply Hsome.
  - split.
    + intros [k Hk]. apply Hresult in Hk as (d & Hd & ->).
      destruct (parent_missing_data context candidate) eqn:E; [|discriminate Hd].
      destruct (Hshape _ eq_refl) as [keys ->].
      destruct (Hsome keys eq_refl) as [Hne Hkeys].
      apply set_choose_L in Hne as [key Hkey]. exists key. now apply Hkeys.
    + intros [key Hkey].
      destruct (parent_missing_data context candidate) as [d|] eqn:E.
      * exists (Some d). apply Hresult. eauto.
      * exfalso. now apply (proj1 Hnone eq_refl key).
Qed.

Lemma elem_of_asset_partitions_by_asset_key
    (asset_partitions : gset AssetKeyPartitionKey) (key : AssetKey) ap :
  ap ∈ get_asset_partitions_by_asset_key asset_partitions !!! key
  <-> ap ∈ asset_partitions /\ ap_asset_key ap = key.
Proof.
  unfold get_asset_partitions_by_asset_key.
  destruct (multimap_fold (K := AssetKey) (V := AssetKeyPartitionKey)
              ap_asset_key (fun ap => ap) (elements asset_partitions) ∅)
    as [Hin _].
  rewrite Hin, lookup_total_empty. split.
  - intros [H | (x & Hx & Hk & ->)]; [now apply elem_of_empty in H|].
    split; [now apply elem_of_elements | exact Hk].
  - intros [Hap Hk]. right. exists ap. split; [now apply elem_of_elements | auto].
Qed.

Section NotAllParentsUpdated.
Variable context : RuleEvaluationContext.
Variable candidate : AssetKeyPartitionKey.

Let parents : gset AssetKeyPartitionKey :=
  parent_partitions
    (get_parents_partitions (asset_graph context) (asset_key context)
       (partition_key candidate)).

Let updated : gset AssetKeyPartitionKey :=
  get_parent_asset_partitions_updated_after_child (instance_queryer context)
    candidate parents (respect_materialization_data_versions (daemon_context context)) ∅
  ∪ ⋃ ((fun parent => will_materialize_mapping context !!! parent)
       <$> elements (get_parents (asset_graph context) (asset_key context))).

(** The keys the rule waits on, in the two modes. *)
Lemma not_all_parents_updated_data_keys (require_all : bool) d :
  not_all_parents_updated_data context require_all candidate = Some d ->
  exists keys : gset AssetKey,
    d = WaitingOnAssetsRuleEvaluationData keys
    /\ keys <> ∅
    /\ (asset_key context ∉ keys)
    /\ forall key,
         key ∈ keys
         <-> key <> asset_key context
             /\ if require_all
                then exists parent : AssetKeyPartitionKey,
                       parent ∈ parents /\ (parent ∉ updated) /\ ap_asset_key parent = key
                else key ∈ get_parents (asset_graph context) (asset_key context)
                     /\ forall parent : AssetKeyPartitionKey,
                          parent ∈ updated -> ap_asset_key parent <> key.
Proof.
  unfold not_all_parents_updated_data. fold parents. fold updated.
  case_bool_decide as Hne; [|discriminate]. intros E. injection E as <-.
  eexists. split; [reflexivity|]. split; [exact Hne|]. split.
  - intros H. apply elem_of_difference in H as [_ H]. apply H. now apply elem_of_singleton.
  - intros key. rewrite elem_of_difference, elem_of_singleton.
    destruct require_all.
    + rewrite elem_of_map. split.
      * intros [(parent & -> & Hp) Hkey]. split; [exact Hkey|].
        apply elem_of_difference in Hp as [Hp Hu]. now exists parent.
      * intros [Hkey (parent & Hp & Hu & <-)]. split; [|exact Hkey].
        exists parent. split; [reflexivity|]. now apply elem_of_difference.
    + rewrite elem_of_filter. split.
      * intros [[Hempty Hp] Hkey]. split; [exact Hkey|]. split; [exact Hp|].
        intros parent Hu Hk.
        apply (not_elem_of_empty (C := gset AssetKeyPartitionKey) parent).
        rewrite <- Hempty. now apply elem_of_asset_partitions_by_asset_key.
      * intros [Hkey [Hp Hnone]]. split; [|exact Hkey]. split; [|exact Hp].
        apply set_eq. intros parent. rewrite elem_of_asset_partitions_by_asset_key.
        split; [|intros H; now apply elem_of_empty in H].
        intros [Hu Hk]. exfalso. now apply (Hnone parent Hu).
Qed.

(** When every parent asset has a parent partition, the strict mode waits
    on every key the lenient mode waits on. *)
Lemma lenient_keys_are_strict_keys (lenient_keys : gset AssetKey) :
  (forall key, key ∈ get_parents (asset_graph context) (asset_key context) ->
     exists parent : AssetKeyPartitionKey, parent ∈ parents /\ ap_asset_key parent = key) ->
  not_all_parents_updated_data context false candidate
  = Some (WaitingOnAssetsRuleEvaluationData lenient_keys) ->
  exists strict_keys : gset AssetKey,
    not_all_parents_updated_data context true candidate
    = Some (WaitingOnAssetsRuleEvaluationData strict_keys)
    /\ lenient_keys ⊆ strict_keys.
Proof.
  intros Hcover Hlenient.
  apply not_all_parents_updated_data_keys in Hlenient
    as (keys & E & Hne & _ & Hkeys). injection E as <-.
  assert (Hstrict : forall key, key ∈ lenient_keys ->
            key <> asset_key context
            /\ exists parent : AssetKeyPartitionKey,
                 parent ∈ parents /\ (parent ∉ updated) /\ ap_asset_key parent = key).
  { intros key Hkey. apply Hkeys in Hkey as (Hself & Hp & Hnone). split; [exact Hself|].
    destruct (Hcover key Hp) as (parent & Hin & Hk). exists parent.
    split; [exact Hin|]. split; [|exact Hk]. intros Hu. now apply (Hnone parent Hu). }
  destruct (not_all_parents_updated_data context true candidate) as [d|] eqn:E.
  - destruct (not_all_parents_updated_data_keys true d E)
      as (strict_keys & -> & _ & _ & Hskeys).
    exists strict_keys. split; [reflexivity|].
    intros key Hkey. apply Hskeys. now apply Hstrict.
  - exfalso. apply set_choose_L in Hne as [key Hkey].
    destruct (Hstrict key Hkey) as (Hself & parent & Hin & Hu & Hk).
    unfold not_all_parents_updated_data in E. fold parents in E. fold updated in E.
    case_bool_decide as Hempty; [discriminate E|].
    apply (not_elem_of_empty (C := gset AssetKey) key). rewrite <- Hempty.
    apply elem_of_difference. split; [|now rewrite elem_of_singleton].
    apply elem_of_map. exists parent. split; [now symmetry|].
    now apply elem_of_difference.
Qed.
End NotAllParentsUpdated.

(** X15: SkipOnNotAllParentsUpdatedRule, for a candidate it looks at this tick:
    in either mode the candidate is returned only under waiting-on data
    whose keys are not empty and never include the asset's own key; and when
    every parent asset has a parent partition for the candidate, the strict
    mode returns every candidate that the lenient mode returns, waiting on
    at least the same keys. *)
Theorem not_all_parents_updated_rule_spec
    (context : RuleEvaluationContext) (candidate : AssetKeyPartitionKey)
    (Hcandidate : candidate ∈ candidates_to_evaluate context) :
  (forall require_all k,
     candidate ∈ dict_get k
                   (evaluate_for_asset (SkipOnNotAllParentsUpdatedRule require_all) context) ->
     exists keys : gset AssetKey,
       k = Some (WaitingOnAssetsRuleEvaluationData keys)
       /\ keys <> ∅ /\ asset_key context ∉ keys)
  /\ ((forall key, key ∈ get_parents (asset_graph context) (asset_key context) ->
         exists parent : AssetKeyPartitionKey,
           parent ∈ parent_partitions
                      (get_parents_partitions (asset_graph context) (asset_key context)
                         (partition_key candidate))
           /\ ap_asset_key parent = key) ->
      forall lenient_keys : gset AssetKey,
        candidate ∈ dict_get (Some (WaitingOnAssetsRuleEvaluationData lenient_keys))
                      (evaluate_for_asset (SkipOnNotAllParentsUpdatedRule false) context) ->
        exists strict_keys : gset AssetKey,
          lenient_keys ⊆ strict_keys
          /\ candidate ∈ dict_get (Some (WaitingOnAssetsRuleEvaluationData strict_keys))
                          (evaluate_for_asset (SkipOnNotAllParentsUpdatedRule true)
                             context)).
Proof.
  assert (Hresult : forall require_all k,
             candidate ∈ dict_get k
                           (evaluate_for_asset (SkipOnNotAllParentsUpdatedRule require_all)
                              context)
             <-> exists d, not_all_parents_updated_data context require_all candidate
                           = Some d /\ k = Some d).
  { intros require_all k.
    rewrite (evaluate_for_asset_elem_of (SkipOnNotAllParentsUpdatedRule require_all)
               context eq_refl) by discriminate.
    rewrite (fresh_evaluation_data_elem_of (SkipOnNotAllParentsUpdatedRule require_all)
               context eq_refl) by discriminate.
    simpl. unfold not_in. split.
    - intros [[_ H] | (_ & Hnot & _)]; [exact H|].
      apply bool_decide_eq_true in Hnot. contradiction.
    - intros H. left. now split. }
  split.
  - intros require_all k Hk. apply Hresult in Hk as (d & Hd & ->).
    destruct (not_all_parents_updated_data_keys context candidate require_all d Hd)
      as (keys & -> & Hne & Hself & _).
    exists keys. auto.
  - intros Hcover lenient_keys Hk. apply Hresult in Hk as (d & Hd & E).
    injection E as <-.
    destruct (lenient_keys_are_strict_keys context candidate lenient_keys Hcover Hd)
      as (strict_keys & Hs & Hsub).
    exists strict_keys. split; [exact Hsub|]. apply Hresult. eauto.
Qed.

(** A partition that a skip rule looks at this tick is in the rule's result
    exactly under the data computed for it. *)
Lemma looked_at_candidate_results
    (rule : AutoMaterializeRule) (context : RuleEvaluationContext)
    (candidate : AssetKeyPartitionKey)
    (Hskip : decision_type rule = SKIP)
    (Huses : uses_carry_forward rule = true)
    (Hcandidate : candidate ∈ evaluated_this_tick rule context) :
  forall k,
    candidate ∈ dict_get k (evaluate_for_asset rule context)
    <-> exists d, data_computed_for rule context candidate = Some d /\ k = Some d.
Proof.
  intros k.
  assert (Hrule : rule <> MaterializeOnMissingRule) by (intros ->; discriminate Hskip).
  rewrite (evaluate_for_asset_elem_of rule context Huses Hrule).
  rewrite (fresh_evaluation_data_elem_of rule context Huses Hrule).
  split.
  - intros [[_ H] | (_ & Hnot & _)]; [exact H|]. exfalso.
    destruct rule; try discriminate Hskip; try discriminate Huses;
      simpl in Hnot; unfold not_in in Hnot;
      apply bool_decide_eq_true in Hnot; contradiction.
  - intros H. left. now split.
Qed.

Lemma elem_of_union_list_fmap_elements
    `{Countable A} `{Countable B} (f : A -> gset B) (X : gset A) (y : B) :
  y ∈ ⋃ (f <$> elements X) <-> exists x, x ∈ X /\ y ∈ f x.
Proof.
  rewrite elem_of_union_list. split.
  - intros (Y & HY & Hy). apply list_elem_of_fmap in HY as (x & -> & Hx).
    exists x. split; [now apply elem_of_elements | exact Hy].
  - intros (x & Hx & Hy). exists (f x). split; [|exact Hy].
    apply list_elem_of_fmap. exists x. split; [reflexivity | now apply elem_of_elements].
Qed.

Lemma parent_outdated_data_spec
    (context : RuleEvaluationContext) (candidate : AssetKeyPartitionKey) d :
  parent_outdated_data context candidate = Some d ->
  exists keys : gset AssetKey,
    d = WaitingOnAssetsRuleEvaluationData keys
    /\ keys <> ∅
    /\ forall key,
         key ∈ keys
         <-> exists parent : AssetKeyPartitionKey,
               parent ∈ get_parents_that_will_not_be_materialized_on_current_tick
                          context candidate
               /\ have_ignorable_partition_mapping_for_outdated
                    (instance_queryer context) (ap_asset_key candidate)
                    (ap_asset_key parent) = false
               /\ key ∈ get_outdated_ancestors (instance_queryer context) parent.
Proof.
  unfold parent_outdated_data. case_bool_decide as Hne; [|discriminate].
  intros E. injection E as <-. eexists. split; [reflexivity|]. split; [exact Hne|].
  intros key. rewrite elem_of_union_list_fmap_elements. split.
  - intros (parent & Hp & Hkey). exists parent. split; [exact Hp|].
    destruct (have_ignorable_partition_mapping_for_outdated _ _ _).
    + now apply elem_of_empty in Hkey.
    + auto.
  - intros (parent & Hp & Hig & Hkey). exists parent. split; [exact Hp|].
    now rewrite Hig.
Qed.

Lemma parent_outdated_data_none
    (context : RuleEvaluationContext) (candidate : AssetKeyPartitionKey) :
  parent_outdated_data context candidate = None ->
  forall parent : AssetKeyPartitionKey,
    parent ∈ get_parents_that_will_not_be_materialized_on_current_tick context candidate ->
    have_ignorable_partition_mapping_for_outdated
      (instance_queryer context) (ap_asset_key candidate) (ap_asset_key parent) = false ->
    get_outdated_ancestors (instance_queryer context) parent = ∅.
Proof.
  unfold parent_outdated_data. case_bool_decide as Hne; [discriminate|].
  intros _ parent Hp Hig.
  apply set_eq. intros key. split; [|intros H; now apply elem_of_empty in H].
  intros Hkey. rewrite <- Hne. apply elem_of_union_list_fmap_elements.
  exists parent. split; [exact Hp|]. now rewrite Hig.
Qed.

(** X16: SkipOnParentOutdatedRule, for a candidate it looks at this tick: the
    candidate is returned exactly when some parent partition that will not
    be materialized with it on this tick, and whose partition mapping is not
    ignorable, has an outdated ancestor; it is then under the waiting-on data
    that lists exactly the outdated ancestors of those parents. *)
Theorem parent_outdated_rule_spec
    (context : RuleEvaluationContext) (candidate : AssetKeyPartitionKey)
    (Hcandidate : candidate ∈ candidates_to_evaluate context) :
  let waits_on (key : AssetKey) :=
    exists parent : AssetKeyPartitionKey,
      parent ∈ get_parents_that_will_not_be_materialized_on_current_tick context candidate
      /\ have_ignorable_partition_mapping_for_outdated
           (instance_queryer context) (ap_asset_key candidate) (ap_asset_key parent)
         = false
      /\ key ∈ get_outdated_ancestors (instance_queryer context) parent in
  (forall k,
     candidate ∈ dict_get k (evaluate_for_asset SkipOnParentOutdatedRule context) ->
     exists keys : gset AssetKey,
       k = Some (WaitingOnAssetsRuleEvaluationData keys)
       /\ keys <> ∅ /\ forall key, key ∈ keys <-> waits_on key)
  /\ ((exists k,
         candidate ∈ dict_get k (evaluate_for_asset SkipOnParentOutdatedRule context))
      <-> exists key, waits_on key).
Proof.
  intros waits_on.
  pose proof (looked_at_candidate_results SkipOnParentOutdatedRule context candidate
                eq_refl eq_refl Hcandidate) as Hresult.
  simpl in Hresult. split.
  - intros k Hk. apply Hresult in Hk as (d & Hd & ->).
    destruct (parent_outdated_data_spec context candidate d Hd) as (keys & -> & Hne & Hk).
    exists keys. auto.
  - split.
    + intros [k Hk]. apply Hresult in Hk as (d & Hd & ->).
      destruct (parent_outdated_data_spec context candidate d Hd)
        as (keys & -> & Hne & Hk).
      apply set_choose_L in Hne as [key Hkey]. exists key. now apply Hk.
    + intros (key & parent & Hp & Hig & Hkey).
      destruct (parent_outdated_data context candidate) as [d|] eqn:E.
      * exists (Some d). apply Hresult. eauto.
      * exfalso. pose proof (parent_outdated_data_none context candidate E parent Hp Hig)
          as Hempty.
        rewrite Hempty in Hkey. now apply elem_of_empty in Hkey.
Qed.

(** X17: A candidate all of whose parent partitions are requested on this tick
    and can be materialized in the same run is skipped neither by
    SkipOnParentOutdatedRule nor by SkipOnParentMissingRule, whatever the
    state of the parents. *)
Theorem parents_requested_in_same_run_are_not_waited_on
    (context : RuleEvaluationContext) (candidate : AssetKeyPartitionKey)
    (Hcandidate : candidate ∈ candidates_to_evaluate context)
    (Hparents :
       forall parent : AssetKeyPartitionKey,
         parent ∈ parent_partitions
                    (get_parents_partitions (asset_graph context)
                       (ap_asset_key candidate) (partition_key candidate)) ->
         parent ∈ will_materialize_mapping context !!! ap_asset_key parent
         /\ materializable_in_same_run context (ap_asset_key candidate)
              (ap_asset_key parent) = true) :
  forall k,
    (candidate ∉ dict_get k (evaluate_for_asset SkipOnParentOutdatedRule context))
    /\ (candidate ∉ dict_get k (evaluate_for_asset SkipOnParentMissingRule context)).
Proof.
  assert (Hnone : get_parents_that_will_not_be_materialized_on_current_tick
                    context candidate = ∅).
  { apply set_eq. intros parent. split; [|intros H; now apply elem_of_empty in H].
    unfold get_parents_that_will_not_be_materialized_on_current_tick.
    rewrite elem_of_filter. intros [Hnot Hp]. exfalso.
    destruct (Hparents parent Hp) as [Hw Hsame].
    destruct Hnot as [Hnot | Hnot]; [now apply Hnot | congruence]. }
  intros k. split; intros Hk.
  - apply (looked_at_candidate_results SkipOnParentOutdatedRule context candidate
             eq_refl eq_refl Hcandidate) in Hk as (d & Hd & _).
    simpl in Hd. unfold parent_outdated_data in Hd. rewrite Hnone in Hd.
    rewrite elements_empty in Hd. simpl in Hd.
    case_bool_decide as Hne; [now apply Hne | discriminate].
  - apply (looked_at_candidate_results SkipOnParentMissingRule context candidate
             eq_refl eq_refl Hcandidate) in Hk as (d & Hd & _).
    simpl in Hd. unfold parent_missing_data in Hd. rewrite Hnone in Hd.
    case_bool_decide as Hne; [|discriminate]. apply Hne.
    apply set_eq. intros key. rewrite elem_of_map.
    split; [|intros H; now apply elem_of_empty in H].
    intros (parent & _ & Hp). apply elem_of_filter in Hp as [_ Hp].
    now apply elem_of_empty in Hp.
Qed.

(** X18: SkipOnRequiredButNonexistentParentsRule looks only at the candidates that
    were not evaluated on the previous tick: such a candidate is returned
    exactly when one of its required parent partitions does not exist, under
    the waiting-on data that lists exactly the asset keys of those partitions;
    a candidate that was evaluated on the previous tick is returned exactly
    under the data the previous tick's results of the rule have for it, even
    if its parents have been updated since. *)
Theorem nonexistent_parents_rule_spec
    (context : RuleEvaluationContext) (candidate : AssetKeyPartitionKey)
    (Hcandidate : candidate ∈ candidates context) :
  let nonexistent :=
    required_but_nonexistent_parents_partitions
      (get_parents_partitions (asset_graph context)
         (ap_asset_key candidate) (partition_key candidate)) in
  let results := evaluate_for_asset SkipOnRequiredButNonexistentParentsRule context in
  (candidate ∉ previous_tick_evaluated_asset_partitions context ->
   (forall k,
      candidate ∈ dict_get k results
      <-> nonexistent <> ∅
          /\ k = Some (WaitingOnAssetsRuleEvaluationData (set_map ap_asset_key nonexistent))))
  /\ (candidate ∈ previous_tick_evaluated_asset_partitions context ->
      forall k,
        candidate ∈ dict_get k results
        <-> exists s,
              (k, s) ∈ get_previous_tick_results context
                         SkipOnRequiredButNonexistentParentsRule
              /\ candidate ∈ s).
Proof.
  intros nonexistent results. subst results. split.
  - intros Hnew k.
    assert (Hlooked : candidate ∈ evaluated_this_tick
                        SkipOnRequiredButNonexistentParentsRule context).
    { simpl. unfold get_candidates_not_evaluated_by_rule_on_previous_tick.
      now apply elem_of_difference. }
    rewrite (looked_at_candidate_results SkipOnRequiredButNonexistentParentsRule
               context candidate eq_refl eq_refl Hlooked).
    simpl. unfold nonexistent_parents_data. fold nonexistent.
    assert (Hempty : set_map (D := gset AssetKey) fst nonexistent = ∅ <-> nonexistent = ∅).
    { split.
      - intros E. apply set_eq. intros parent.
        split; [|intros H; now apply elem_of_empty in H].
        intros Hp. exfalso. apply (not_elem_of_empty (C := gset AssetKey) parent.1).
        rewrite <- E. apply elem_of_map. now exists parent.
      - intros ->. apply set_map_empty. }
    case_bool_decide as Hne.
    + split.
      * intros (d & E & ->). injection E as <-. split; [|reflexivity].
        intros E. now apply Hne, Hempty.
      * intros [_ ->]. eauto.
    + split.
      * intros (d & E & _). discriminate E.
      * intros [Hn _]. exfalso. apply Hn. now apply Hempty.
  - intros Hold k.
    assert (Hnot : candidate ∉ evaluated_this_tick
                     SkipOnRequiredButNonexistentParentsRule context).
    { simpl. unfold get_candidates_not_evaluated_by_rule_on_previous_tick.
      intros H. apply elem_of_difference in H as [_ H]. contradiction. }
    rewrite (evaluate_for_asset_elem_of SkipOnRequiredButNonexistentParentsRule
               context eq_refl) by discriminate.
    rewrite (fresh_evaluation_data_elem_of SkipOnRequiredButNonexistentParentsRule
               context eq_refl) by discriminate.
    rewrite (fresh_evaluated SkipOnRequiredButNonexistentParentsRule context candidate
               eq_refl) by discriminate.
    split.
    + intros [[H _] | (_ & _ & H)]; [contradiction | exact H].
    + intros H. right. split; [now intros [H' _]|]. split; [|exact H].
      simpl. unfold not_in. now apply bool_decide_eq_true.
Qed.

(** X19: A stored evaluation compared with itself: the comparison returns
    whenever sorting its conditions does, and the record is equivalent to
    itself exactly when it requested and discarded nothing. *)
Theorem equivalent_to_itself
    (sorted :
       list (AutoMaterializeRuleEvaluation * option SerializedPartitionsSubset) ->
       option (list (AutoMaterializeRuleEvaluation * option SerializedPartitionsSubset)))
    (self : AutoMaterializeAssetEvaluation) (asset_graph : AssetGraph) :
  (equivalent_to_stored_evaluation sorted self (Some self) asset_graph = None
   <-> sorted (partition_subsets_by_condition self) = None)
  /\ (forall b,
        equivalent_to_stored_evaluation sorted self (Some self) asset_graph = Some b ->
        b = (num_requested self =? 0) && (num_discarded self =? 0))
  /\ equivalent_to_stored_evaluation sorted self None asset_graph = Some false.
Proof.
  unfold equivalent_to_stored_evaluation.
  destruct (sorted (partition_subsets_by_condition self)) as [l|].
  - split; [split; discriminate|]. split; [|reflexivity].
    intros b E. injection E as <-.
    rewrite !bool_decide_eq_true_2 by reflexivity.
    rewrite Z.eqb_refl. simpl. now rewrite !andb_true_r.
  - split; [split; reflexivity|]. split; [discriminate | reflexivity].
Qed.

(** ** The further properties at the worked examples *)

Lemma from_rule_evaluation_results_round_trip_witness :
  exists evaluation,
    from_rule_evaluation_results example_policies example_from_subset example_asset_graph
      "daily_asset"
      [(example_waiting_on_up, {[example_partition "p1"; example_partition "p2"]})]
      0 2 0
    = Returns evaluation
    /\ get_rule_evaluation_results evaluation (to_snapshot SkipOnParentMissingRule)
         example_asset_graph
       = [(Some (WaitingOnAssetsRuleEvaluationData {["up"]}),
           {[example_partition "p1"; example_partition "p2"]})].
Proof.
  destruct (from_rule_evaluation_results_round_trip example_policies example_from_subset
              example_asset_graph "daily_asset" example_partitions_def
              [(example_waiting_on_up, {[example_partition "p1"; example_partition "p2"]})]
              0 2 0 [to_snapshot SkipOnParentMissingRule])
    as (evaluation & Hreturns & _ & _ & _ & Hread).
  - compute_done.
  - reflexivity.
  - intros entry Hentry. apply list_elem_of_singleton in Hentry as ->.
    split; compute_done.
  - intros entry ap Hentry Hap. apply list_elem_of_singleton in Hentry as ->.
    simpl in Hap. apply elem_of_union in Hap as [Hap | Hap];
      apply elem_of_singleton in Hap as ->; (split; [reflexivity | now eexists]).
  - exists evaluation. split; [exact Hreturns|]. rewrite Hread. compute_done.
Defined.

Lemma from_rule_evaluation_results_unpartitioned_witness :
  exists evaluation,
    from_rule_evaluation_results example_policies example_from_subset example_asset_graph
      "a" [(mkRuleEvaluation (to_snapshot MaterializeOnMissingRule) None, {[("a", None)]})]
      1 0 0
    = Returns evaluation
    /\ get_rule_evaluation_results evaluation (to_snapshot MaterializeOnMissingRule)
         example_asset_graph
       = [(None, {[("a", None)]})].
Proof.
  destruct (from_rule_evaluation_results_unpartitioned example_policies example_from_subset
              example_asset_graph "a"
              [(mkRuleEvaluation (to_snapshot MaterializeOnMissingRule) None,
                {[("a", None)]})]
              1 0 0 [to_snapshot MaterializeOnMissingRule])
    as (evaluation & Hreturns & _ & Hread).
  - compute_done.
  - reflexivity.
  - exists evaluation. split; [exact Hreturns|]. rewrite Hread. compute_done.
Defined.

Lemma first_tick_witness :
  previous_tick_evaluation example_context_ten_candidates = None
  /\ candidates_to_evaluate example_context_ten_candidates
     = candidates example_context_ten_candidates
  /\ evaluate_for_asset SkipOnParentMissingRule example_context_ten_candidates
     = fresh_evaluation_data SkipOnParentMissingRule example_context_ten_candidates.
Proof.
  assert (Hfirst : previous_tick_evaluation example_context_ten_candidates = None)
    by reflexivity.
  destruct (first_tick example_context_ten_candidates Hfirst)
    as (_ & Hfresh & _ & Hcandidates & _).
  split; [exact Hfirst|]. split; [exact Hcandidates|]. now apply Hfresh.
Defined.

Lemma skip_rule_results_witness :
  (example_partition "p1" ∉ evaluated_this_tick SkipOnParentMissingRule
                              example_context_without_candidates)
  /\ example_partition "p1"
     ∈ dict_get (Some (WaitingOnAssetsRuleEvaluationData {["up"]}))
         (evaluate_for_asset SkipOnParentMissingRule example_context_without_candidates).
Proof.
  assert (Hnot : example_partition "p1"
                 ∉ evaluated_this_tick SkipOnParentMissingRule
                     example_context_without_candidates) by compute_done.
  split; [exact Hnot|].
  apply (skip_rule_results SkipOnParentMissingRule example_context_without_candidates
           eq_refl eq_refl).
  right. split; [exact Hnot|].
  exists {[example_partition "p1"]}. split; compute_done.
Defined.

Lemma parent_updated_fires_for_requested_parent_witness :
  exists updated will_update,
    "up" ∈ will_update
    /\ ("down", None)
       ∈ dict_get (Some (ParentUpdatedRuleEvaluationData updated will_update))
           (evaluate_for_asset MaterializeOnParentUpdatedRule
              (example_pipeline_context "down" {[("up", None)]})).
Proof.
  apply (parent_updated_fires_for_requested_parent
           (example_pipeline_context "down" {[("up", None)]}) "up" ("up", None));
    compute_done.
Defined.

Lemma parent_missing_rule_spec_witness :
  exists k,
    ("down", None)
    ∈ dict_get k (evaluate_for_asset SkipOnParentMissingRule
                    (example_pipeline_context "down" ∅)).
Proof.
  apply (parent_missing_rule_spec (example_pipeline_context "down" ∅) ("down", None)).
  - compute_done.
  - exists "up", ("up", None). split; [compute_done|]. split; [reflexivity|].
    split; [|reflexivity]. intros [H _]. discriminate H.
Defined.

Lemma not_all_parents_updated_rule_spec_witness :
  exists strict_keys : gset AssetKey,
    {["up"]} ⊆ strict_keys
    /\ ("down", None)
       ∈ dict_get (Some (WaitingOnAssetsRuleEvaluationData strict_keys))
           (evaluate_for_asset (SkipOnNotAllParentsUpdatedRule true)
              (example_pipeline_context "down" ∅)).
Proof.
  apply (not_all_parents_updated_rule_spec (example_pipeline_context "down" ∅)
           ("down", None)).
  - compute_done.
  - intros key Hkey. exists ("up", None). split; [compute_done|].
    assert (E : get_parents (asset_graph (example_pipeline_context "down" ∅))
                  (asset_key (example_pipeline_context "down" ∅)) = {["up"]})
      by compute_done.
    rewrite E in Hkey. apply elem_of_singleton in Hkey as ->. reflexivity.
  - compute_done.
Defined.

Lemma parent_outdated_rule_spec_witness :
  exists k,
    ("down", None)
    ∈ dict_get k (evaluate_for_asset SkipOnParentOutdatedRule
                    (example_pipeline_context "down" ∅)).
Proof.
  apply (parent_outdated_rule_spec (example_pipeline_context "down" ∅) ("down", None)).
  - compute_done.
  - exists "root", ("up", None). split; [compute_done|]. split; [reflexivity|].
    compute_done.
Defined.

Lemma parents_requested_in_same_run_are_not_waited_on_witness :
  (("down", None)
   ∉ dict_get (Some (WaitingOnAssetsRuleEvaluationData {["root"]}))
       (evaluate_for_asset SkipOnParentOutdatedRule
          (example_pipeline_context "down" {[("up", None)]})))
  /\ (("down", None)
      ∉ dict_get (Some (WaitingOnAssetsRuleEvaluationData {["up"]}))
          (evaluate_for_asset SkipOnParentMissingRule
             (example_pipeline_context "down" {[("up", None)]}))).
Proof.
  pose proof (parents_requested_in_same_run_are_not_waited_on
                (example_pipeline_context "down" {[("up", None)]}) ("down", None))
    as H.
  assert (Hcandidate : ("down", None)
                       ∈ candidates_to_evaluate
                           (example_pipeline_context "down" {[("up", None)]}))
    by compute_done.
  assert (Hparents :
            forall parent : AssetKeyPartitionKey,
              parent ∈ parent_partitions
                         (get_parents_partitions
                            (asset_graph (example_pipeline_context "down" {[("up", None)]}))
                            (ap_asset_key ("down", None)) (partition_key ("down", None))) ->
              parent ∈ will_materialize_mapping
                         (example_pipeline_context "down" {[("up", None)]})
                       !!! ap_asset_key parent
              /\ materializable_in_same_run
                   (example_pipeline_context "down" {[("up", None)]})
                   (ap_asset_key ("down", None)) (ap_asset_key parent) = true).
  { intros parent Hparent.
    assert (E : parent_partitions
                  (get_parents_partitions
                     (asset_graph (example_pipeline_context "down" {[("up", None)]}))
                     (ap_asset_key ("down", None)) (partition_key ("down", None)))
                = {[("up", None)]}) by compute_done.
    rewrite E in Hparent. apply elem_of_singleton in Hparent as ->.
    split; compute_done. }
  split.
  - exact (proj1 (H Hcandidate Hparents
                    (Some (WaitingOnAssetsRuleEvaluationData {["root"]})))).
  - exact (proj2 (H Hcandidate Hparents
                    (Some (WaitingOnAssetsRuleEvaluationData {["up"]})))).
Defined.

Lemma nonexistent_parents_rule_spec_witness :
  ("late", None)
  ∈ dict_get (Some (WaitingOnAssetsRuleEvaluationData {["hourly"]}))
      (evaluate_for_asset SkipOnRequiredButNonexistentParentsRule
         (example_pipeline_context "late" ∅)).
Proof.
  destruct (nonexistent_parents_rule_spec (example_pipeline_context "late" ∅)
              ("late", None)) as [Hnew _].
  - compute_done.
  - apply Hnew.
    + compute_done.
    + split; compute_done.
Defined.
